(** * educarCMS: progress tracking and the assessment engine

    A shallow embedding of the request handlers of [core/views.py],
    [core/helpers.py], [core/assessments_views.py], [core/courses_views.py]
    and [core/decorators.py] over the relational model of [core/models.py].

    Modelling conventions.
    - The database is a record of tables; a table is the list of its rows
      in query order, and only the columns the handlers below read or write
      are kept.  Handlers pass the store explicitly.
    - A handler returns [Ok outcome] (response, flash messages, store) or
      [Raise e]; a raised exception leaves the caller with the store it had
      (the write handlers run under [transaction.atomic], or write nothing
      before they raise).
    - Python floats and Django decimals are modelled by exact rationals;
      [round(x, n)] rounds the exact value half-to-even at [n] decimals.
      The capacity of a [DecimalField] ([max_digits]) is not modelled.
    - Time stamps are integers (seconds); a handler reads the clock once.
    - Rendering a template is the name of the template; the [slug] argument
      of a redirect, always the one of the current school, is left out. *)

From Stdlib Require Import ZArith QArith List String Ascii Bool Arith Lia.
From Stdlib Require Import Permutation Sorted DecimalString.
Import ListNotations.

Local Open Scope string_scope.
Local Open Scope nat_scope.

(* ================================================================== *)
(** ** Python built-ins used by the handlers *)
(* ================================================================== *)

Module Py.

(** Exceptions that the modelled code can raise. *)
Inductive exn : Type :=
| ValueError
| KeyError
| IntegrityError
| MultipleObjectsReturned
| ValidationError
| Http404.

Inductive result (A : Type) : Type :=
| Ok (a : A)
| Raise (e : exn).
Arguments Ok {A} a.
Arguments Raise {A} e.

Definition bind {A B : Type} (m : result A) (k : A -> result B) : result B :=
  match m with
  | Ok a => k a
  | Raise e => Raise e
  end.

(** [round(x)] to the nearest integer, ties to the even neighbour. *)
Definition round_half_even (x : Q) : Z :=
  let n := Qnum x in
  let d := Z.pos (Qden x) in
  let q := (n / d)%Z in
  let r := (n mod d)%Z in
  if (2 * r <? d)%Z then q
  else if (d <? 2 * r)%Z then (q + 1)%Z
  else if Z.even q then q else (q + 1)%Z.

Definition pow10 (k : nat) : positive := Pos.pow 10 (Pos.of_nat k).

Definition scale10 (k : nat) : positive :=
  match k with
  | O => 1%positive
  | S _ => pow10 k
  end.

(** [round(x, ndigits)]: the result is kept in lowest terms. *)
Definition round (x : Q) (ndigits : nat) : Q :=
  Qred (round_half_even (Qred (x * inject_Z (Z.pos (scale10 ndigits))))
          # scale10 ndigits).

Definition of_nat (n : nat) : Q := inject_Z (Z.of_nat n).

(** [str(n)] for a non-negative integer. *)
Definition str (n : nat) : string := NilEmpty.string_of_uint (Nat.to_uint n).

(** *** Parsing numbers: [int(s)] and [float(s)] on ASCII text *)

Definition is_space (c : ascii) : bool :=
  let n := nat_of_ascii c in
  ((9 <=? n) && (n <=? 13)) || ((28 <=? n) && (n <=? 32)).

Fixpoint lstrip (s : string) : string :=
  match s with
  | String c s' => if is_space c then lstrip s' else s
  | EmptyString => EmptyString
  end.

Fixpoint rev_string (acc s : string) : string :=
  match s with
  | String c s' => rev_string (String c acc) s'
  | EmptyString => acc
  end.

Definition strip (s : string) : string :=
  rev_string EmptyString (lstrip (rev_string EmptyString (lstrip s))).

Definition digit_of (c : ascii) : option Z :=
  let n := nat_of_ascii c in
  if (48 <=? n) && (n <=? 57) then Some (Z.of_nat (n - 48)) else None.

Definition is_underscore (c : ascii) : bool := nat_of_ascii c =? 95.

(** [digitpart ::= digit (["_"] digit)*]: reads the longest such prefix,
    returning its value, its number of digits and the rest.  [after_digit]
    tells whether the previous character was a digit. *)
Fixpoint digitpart (s : string) (acc : Z) (ndigits : nat) (after_digit : bool)
  : Z * nat * string :=
  match s with
  | String c s' =>
      match digit_of c with
      | Some d => digitpart s' (10 * acc + d)%Z (S ndigits) true
      | None =>
          if is_underscore c && after_digit then
            match s' with
            | String c' _ =>
                match digit_of c' with
                | Some _ => digitpart s' acc ndigits false
                | None => (acc, ndigits, s)
                end
            | EmptyString => (acc, ndigits, s)
            end
          else (acc, ndigits, s)
      end
  | EmptyString => (acc, ndigits, s)
  end.

Definition sign_of (s : string) : bool * string :=
  match s with
  | String "-" s' => (true, s')
  | String "+" s' => (false, s')
  | _ => (false, s)
  end.

(** [int(s)]: [None] stands for [ValueError]. *)
Definition int (s : string) : option Z :=
  let '(neg, body) := sign_of (strip s) in
  match digitpart body 0%Z 0 false with
  | (v, S _, EmptyString) => Some (if neg then (- v)%Z else v)
  | _ => None
  end.

Definition exponent (s : string) : option (Z * string) :=
  match s with
  | String c s' =>
      if (nat_of_ascii c =? 101) || (nat_of_ascii c =? 69) then
        let '(neg, body) := sign_of s' in
        match digitpart body 0%Z 0 false with
        | (v, S _, rest) => Some (if neg then (- v)%Z else v, rest)
        | _ => None
        end
      else None
  | EmptyString => None
  end.

Definition pow10Q (e : Z) : Q :=
  match e with
  | Z0 => 1%Q
  | Zpos p => inject_Z (Z.pos (Pos.pow 10 p))
  | Zneg p => (1 # Pos.pow 10 p)%Q
  end.

(** [float(s)] on the finite decimal literals
    [[sign] (digitpart ["." [digitpart]] | "." digitpart) [exponent]];
    [None] stands for [ValueError].  The spellings of the non-finite
    values ([inf], [nan]) have no rational counterpart and are outside
    the model. *)
Definition float (s : string) : option Q :=
  let '(neg, body) := sign_of (strip s) in
  let '(ip, ni, rest) := digitpart body 0%Z 0 false in
  let '(fp, nf, rest') :=
    match rest with
    | String "." r => digitpart r 0%Z 0 false
    | _ => (0%Z, 0, rest)
    end in
  match ni + nf with
  | O => None
  | S _ =>
      let mant := (inject_Z ip + (fp # scale10 nf))%Q in
      let signed := if neg then Qopp mant else mant in
      match rest' with
      | EmptyString => Some (Qred signed)
      | _ =>
          match exponent rest' with
          | Some (e, EmptyString) => Some (Qred (signed * pow10Q e))
          | _ => None
          end
      end
  end.

End Py.

Import Py.

(* ================================================================== *)
(** ** The relational model ([core/models.py]) *)
(* ================================================================== *)

Module Models.

Record School := mkSchool {
  school_id : nat;
  school_slug : string;
  school_owner : nat
}.

(** [role] is a free text column; the handlers compare it with
    ['admin'], ['teacher'] and ['student']. *)
Record SchoolUser := mkSchoolUser {
  su_id : nat;
  su_user : nat;
  su_school : nat;
  su_role : string
}.

Record Category := mkCategory {
  category_id : nat;
  category_name : string
}.

Record Course := mkCourse {
  course_id : nat;
  course_school : nat;
  course_category : option nat
}.

(** [lessons] is the many-to-many relation of a subject. *)
Record Subject := mkSubject {
  subject_id : nat;
  subject_course : nat;
  subject_lessons : list nat
}.

Record Lesson := mkLesson {
  lesson_id : nat;
  lesson_school : nat;
  lesson_status : string
}.

Record Enrollment := mkEnrollment {
  enrollment_course : nat;
  enrollment_student : nat
}.

Record Progress := mkProgress {
  progress_id : nat;
  progress_student : nat;
  progress_course : nat;
  progress_lesson : nat;
  is_completed : bool;
  progress_percentage : nat;
  completed_at : option Z;
  last_accessed : Z
}.

Record Assessment := mkAssessment {
  assessment_id : nat;
  assessment_course : nat;
  assessment_subject : option nat;
  assessment_title : string;
  weight : Q;
  attempts_allowed : nat;
  time_limit : option nat;
  open_at : option Z;
  close_at : option Z
}.

Record Question := mkQuestion {
  question_id : nat;
  question_assessment : nat;
  question_text : string;
  question_type : string;
  question_order : Z;
  points : Q
}.

Record Choice := mkChoice {
  choice_id : nat;
  choice_question : nat;
  choice_is_correct : bool
}.

Record Attempt := mkAttempt {
  attempt_id : nat;
  attempt_student : nat;
  attempt_assessment : nat;
  started_at : Z;
  finished_at : option Z;
  score : option Q;
  is_submitted : bool;
  attempt_number : nat
}.

Record Answer := mkAnswer {
  answer_id : nat;
  answer_attempt : nat;
  answer_question : nat;
  answer_choice : option nat;
  text_answer : string;
  file_answer : option string;
  answer_is_correct : bool
}.

Record Store := mkStore {
  schools : list School;
  school_users : list SchoolUser;
  categories : list Category;
  courses : list Course;
  subjects : list Subject;
  lessons : list Lesson;
  enrollments : list Enrollment;
  progresses : list Progress;
  assessments : list Assessment;
  questions : list Question;
  choices : list Choice;
  attempts : list Attempt;
  answers : list Answer
}.

Definition set_categories (st : Store) (v : list Category) : Store :=
  mkStore (schools st) (school_users st) v (courses st) (subjects st)
    (lessons st) (enrollments st) (progresses st) (assessments st)
    (questions st) (choices st) (attempts st) (answers st).

Definition set_courses (st : Store) (v : list Course) : Store :=
  mkStore (schools st) (school_users st) (categories st) v (subjects st)
    (lessons st) (enrollments st) (progresses st) (assessments st)
    (questions st) (choices st) (attempts st) (answers st).

Definition set_progresses (st : Store) (v : list Progress) : Store :=
  mkStore (schools st) (school_users st) (categories st) (courses st)
    (subjects st) (lessons st) (enrollments st) v (assessments st)
    (questions st) (choices st) (attempts st) (answers st).

Definition set_assessments (st : Store) (v : list Assessment) : Store :=
  mkStore (schools st) (school_users st) (categories st) (courses st)
    (subjects st) (lessons st) (enrollments st) (progresses st) v
    (questions st) (choices st) (attempts st) (answers st).

Definition set_questions (st : Store) (v : list Question) : Store :=
  mkStore (schools st) (school_users st) (categories st) (courses st)
    (subjects st) (lessons st) (enrollments st) (progresses st)
    (assessments st) v (choices st) (attempts st) (answers st).

Definition set_attempts (st : Store) (v : list Attempt) : Store :=
  mkStore (schools st) (school_users st) (categories st) (courses st)
    (subjects st) (lessons st) (enrollments st) (progresses st)
    (assessments st) (questions st) (choices st) v (answers st).

Definition set_answers (st : Store) (v : list Answer) : Store :=
  mkStore (schools st) (school_users st) (categories st) (courses st)
    (subjects st) (lessons st) (enrollments st) (progresses st)
    (assessments st) (questions st) (choices st) (attempts st) v.

(** The next value of an auto-increment primary key. *)
Definition next_id {A : Type} (pk : A -> nat) (rows : list A) : nat :=
  S (fold_right Nat.max 0 (map pk rows)).

(** [Model.save()] of a row that is already in its table: the row with
    the same primary key is replaced in place. *)
Definition save {A : Type} (pk : A -> nat) (row : A) (rows : list A) : list A :=
  map (fun r => if pk r =? pk row then row else r) rows.

Definition mem (n : nat) (l : list nat) : bool := existsb (Nat.eqb n) l.

End Models.

Import Models.

(* ================================================================== *)
(** ** Requests, responses and flash messages *)
(* ================================================================== *)

Module Http.

(** [QueryDict.get(key)]: the last value sent under [key], if any. *)
Definition QueryDict := list (string * string).

Fixpoint get (d : QueryDict) (key : string) : option string :=
  match d with
  | [] => None
  | (k, v) :: d' =>
      match get d' key with
      | Some v' => Some v'
      | None => if String.eqb k key then Some v else None
      end
  end.

(** [request.POST[key]] raises when the key is missing. *)
Definition getitem (d : QueryDict) (key : string) : result string :=
  match get d key with
  | Some v => Ok v
  | None => Raise KeyError
  end.

Record Request := mkRequest {
  method : string;
  user : option nat;
  POST : QueryDict;
  FILES : QueryDict
}.

Inductive Level := Success | Warning | Error.

Inductive Response :=
| Redirect (url_name : string) (args : list nat)
| RedirectLogin
| Render (template : string).

(** What a handler hands back: the response, the flash messages it
    queued, and the store it leaves. *)
Record Outcome := mkOutcome {
  response : Response;
  messages : list (Level * string);
  store : Store
}.

(** Python truthiness of an optional form value. *)
Definition truthy (v : option string) : bool :=
  match v with
  | Some (String _ _) => true
  | _ => false
  end.

End Http.

Import Http.

(* ================================================================== *)
(** ** Enrollment and progress tracker ([core/views.py], [core/helpers.py]) *)
(* ================================================================== *)

Module ProgressTracker.

(** [Lesson.objects.filter(subjects__course=course, status="published")]:
    the join yields a lesson once for every subject of the course that
    holds it. *)
Definition lessons_join (st : Store) (course : nat) : list nat :=
  flat_map
    (fun l =>
       if String.eqb (lesson_status l) "published" then
         flat_map
           (fun sj =>
              if (subject_course sj =? course) && mem (lesson_id l) (subject_lessons sj)
              then [lesson_id l] else [])
           (subjects st)
       else [])
    (lessons st).

(** [.distinct()] *)
Definition distinct (ids : list nat) : list nat := nodup Nat.eq_dec ids.

Definition published_lessons (st : Store) (course : nat) : list nat :=
  distinct (lessons_join st course).

Definition calculate_course_progress (st : Store) (student course : nat) : Q :=
  let published := published_lessons st course in
  let total_lessons := List.length published in
  if total_lessons =? 0 then 0%Q
  else
    let completed_lessons :=
      List.length
        (filter
           (fun p =>
              (progress_student p =? student)
              && (progress_course p =? course)
              && mem (progress_lesson p) published
              && is_completed p)
           (progresses st)) in
    round ((of_nat completed_lessons / of_nat total_lessons) * 100)%Q 1.

(** The rows that the completed-lessons query counts. *)
Definition counted_rows (st : Store) (student course : nat) : list Progress :=
  filter
    (fun p =>
       (progress_student p =? student) && (progress_course p =? course)
       && mem (progress_lesson p) (published_lessons st course)
       && is_completed p)
    (progresses st).

(** [unique_together = ['student', 'lesson']] of [Progress.Meta]. *)
Definition violates_unique (st : Store) (student lesson : nat) : bool :=
  existsb
    (fun p => (progress_student p =? student) && (progress_lesson p =? lesson))
    (progresses st).

(** [Progress.objects.get_or_create(student=, course=, lesson=, defaults=)].
    The lookup is by (student, course, lesson); the insert is refused by
    the unique constraint when the student already has a row for the
    lesson, and [get_or_create] re-raises after a second failed lookup. *)
Definition get_or_create (st : Store) (now : Z) (student course lesson : nat)
    (d_completed : bool) (d_percentage : nat) (d_completed_at : option Z)
  : result (Progress * bool * Store) :=
  match
    filter
      (fun p =>
         (progress_student p =? student)
         && (progress_course p =? course)
         && (progress_lesson p =? lesson))
      (progresses st)
  with
  | [p] => Ok (p, false, st)
  | _ :: _ :: _ => Raise MultipleObjectsReturned
  | [] =>
      if violates_unique st student lesson then Raise IntegrityError
      else
        let p :=
          mkProgress (next_id progress_id (progresses st)) student course lesson
            d_completed d_percentage d_completed_at now in
        Ok (p, true, set_progresses st (progresses st ++ [p]))
  end.

Definition mark_lesson_as_completed (st : Store) (now : Z)
    (student course lesson : nat) : result (Progress * Store) :=
  bind (get_or_create st now student course lesson true 100 (Some now))
    (fun '(progress, _, st1) =>
       let progress :=
         mkProgress (progress_id progress) (progress_student progress)
           (progress_course progress) (progress_lesson progress)
           true 100 (Some now) now in
       Ok (progress,
           set_progresses st1 (save progress_id progress (progresses st1)))).

(** The rows a student has for a lesson. *)
Definition rows_for (st : Store) (student lesson : nat) : list Progress :=
  filter
    (fun p => (progress_student p =? student) && (progress_lesson p =? lesson))
    (progresses st).

(** The store after a call, whether it returned or raised. *)
Definition after_mark (st : Store) (now : Z) (student course lesson : nat) : Store :=
  match mark_lesson_as_completed st now student course lesson with
  | Ok (_, st') => st'
  | Raise _ => st
  end.

(** The database constraints on the [Progress] table. *)
Definition progress_unique (st : Store) : Prop :=
  NoDup (map (fun p => (progress_student p, progress_lesson p)) (progresses st)).

Definition progress_pk_unique (st : Store) : Prop :=
  NoDup (map progress_id (progresses st)).

(** Every row the student has for the lesson is recorded under [course]. *)
Definition recorded_under (st : Store) (student lesson course : nat) : Prop :=
  forall p,
    In p (progresses st) ->
    progress_student p = student -> progress_lesson p = lesson ->
    progress_course p = course.

(** The course progress as the specification words it: [P] enumerates the
    published lessons of the course, and a lesson counts when the student
    has a completed [Progress] row for it. *)
Definition completed_for_student (st : Store) (student lesson : nat) : bool :=
  existsb
    (fun p =>
       (progress_student p =? student) && (progress_lesson p =? lesson)
       && is_completed p)
    (progresses st).

(** The same, counting only the rows recorded under the course. *)
Definition completed_in_course (st : Store) (student course lesson : nat) : bool :=
  existsb
    (fun p =>
       (progress_student p =? student) && (progress_course p =? course)
       && (progress_lesson p =? lesson) && is_completed p)
    (progresses st).

Definition percentage (completed total : nat) : Q :=
  if total =? 0 then 0%Q
  else round (100 * of_nat completed / of_nat total)%Q 1.

Definition course_progress_spec (st : Store) (student : nat) (P : list nat) : Q :=
  percentage (List.length (filter (completed_for_student st student) P)) (List.length P).

(** [l] is a published lesson attached to some subject of [course]. *)
Definition in_course_published (st : Store) (course l : nat) : Prop :=
  exists le sj,
    In le (lessons st) /\ lesson_id le = l /\ lesson_status le = "published"
    /\ In sj (subjects st) /\ subject_course sj = course
    /\ In l (subject_lessons sj).

End ProgressTracker.

(* ================================================================== *)
(** ** Access decorators ([core/decorators.py]) *)
(* ================================================================== *)

Module Decorators.

(** A view once the URL arguments, the store and the clock are fixed. *)
Definition View := Request -> SchoolUser -> School -> result Outcome.

Definition login_required (st : Store) (inner : Request -> result Outcome)
    (request : Request) : result Outcome :=
  match user request with
  | Some _ => inner request
  | None => Ok (mkOutcome RedirectLogin [] st)
  end.

(** [get_school_user(slug, user)] of [core/helpers.py]. *)
Definition get_school_user (st : Store) (slug : string) (u : nat)
  : result (option (SchoolUser * School)) :=
  match find (fun s => String.eqb (school_slug s) slug) (schools st) with
  | None => Raise Http404
  | Some school =>
      match
        find (fun su => (su_user su =? u) && (su_school su =? school_id school))
          (school_users st)
      with
      | Some su => Ok (Some (su, school))
      | None => Ok None
      end
  end.

Definition school_context_required (st : Store) (slug : string) (view : View)
    (request : Request) : result Outcome :=
  match user request with
  | None => Ok (mkOutcome RedirectLogin [] st)
  | Some u =>
      bind (get_school_user st slug u)
        (fun found =>
           match found with
           | None =>
               Ok (mkOutcome (Redirect "dashboard_home" [])
                     [(Error, "Você não tem acesso a esta escola.")] st)
           | Some (school_user, school) => view request school_user school
           end)
  end.

Definition teacher_required (st : Store) (view : View) : View :=
  fun request school_user school =>
    if String.eqb (su_role school_user) "admin" then view request school_user school
    else if String.eqb (su_role school_user) "teacher" then
      view request school_user school
    else
      Ok (mkOutcome (Redirect "school_dashboard" [])
            [(Warning, "Apenas professores têm acesso a esta página.")] st).

Definition admin_required (st : Store) (view : View) : View :=
  fun request school_user school =>
    if negb (String.eqb (su_role school_user) "admin")
       && negb (match user request with
                | Some u => u =? school_owner school
                | None => false
                end)
    then
      Ok (mkOutcome (Redirect "school_dashboard" [])
            [(Error,
              "Apenas administradores ou o dono da escola podem acessar esta página.")]
            st)
    else if negb (String.eqb (su_role school_user) "admin") then
      Ok (mkOutcome (Redirect "school_dashboard" [])
            [(Warning, "Apenas administradores podem acessar esta página.")] st)
    else view request school_user school.

End Decorators.

Import Decorators.

(* ================================================================== *)
(** ** Assessment engine ([core/assessments_views.py]) *)
(* ================================================================== *)

Module Assessments.

Definition course_in_school (st : Store) (course school : nat) : bool :=
  existsb (fun c => (course_id c =? course) && (course_school c =? school))
    (courses st).

(** [get_object_or_404(Assessment, id=..., course__school=school)] *)
Definition get_assessment (st : Store) (id : nat) (school : School)
  : result Assessment :=
  match
    find
      (fun a =>
         (assessment_id a =? id)
         && course_in_school st (assessment_course a) (school_id school))
      (assessments st)
  with
  | Some a => Ok a
  | None => Raise Http404
  end.

Definition is_enrolled (st : Store) (course student : nat) : bool :=
  existsb
    (fun e => (enrollment_course e =? course) && (enrollment_student e =? student))
    (enrollments st).

Definition attempts_of (st : Store) (assessment student : nat) : list Attempt :=
  filter
    (fun a => (attempt_assessment a =? assessment) && (attempt_student a =? student))
    (attempts st).

(** [x and now < x] / [x and now > x] on an optional time stamp. *)
Definition before (now : Z) (bound : option Z) : bool :=
  match bound with
  | Some b => (now <? b)%Z
  | None => false
  end.

Definition after (now : Z) (bound : option Z) : bool :=
  match bound with
  | Some b => (b <? now)%Z
  | None => false
  end.

Definition assessment_start (st : Store) (now : Z) (id : nat) : View :=
  fun request school_user school =>
    bind (get_assessment st id school)
      (fun assessment =>
         let detail :=
           mkOutcome (Redirect "assessment_detail" [assessment_id assessment]) [] st in
         if negb (String.eqb (su_role school_user) "student") then Ok detail
         else if negb (is_enrolled st (assessment_course assessment) (su_id school_user))
         then Ok detail
         else
           let existing_attempts :=
             List.length (attempts_of st (assessment_id assessment) (su_id school_user)) in
           if attempts_allowed assessment <=? existing_attempts then Ok detail
           else if before now (open_at assessment) then Ok detail
           else if after now (close_at assessment) then Ok detail
           else
             let attempt_number := existing_attempts + 1 in
             let attempt :=
               mkAttempt (next_id attempt_id (attempts st)) (su_id school_user)
                 (assessment_id assessment) now None None false attempt_number in
             Ok (mkOutcome
                   (Redirect "assessment_take"
                      [assessment_id assessment; attempt_id attempt])
                   [] (set_attempts st (attempts st ++ [attempt])))).

(** The creation guard as the specification words it. *)
Definition within_window (now : Z) (a : Assessment) : Prop :=
  (forall o, open_at a = Some o -> (o <= now)%Z)
  /\ (forall c, close_at a = Some c -> (now <= c)%Z).

Definition start_allowed (st : Store) (now : Z) (a : Assessment) (su : SchoolUser)
  : Prop :=
  su_role su = "student"
  /\ (exists e, In e (enrollments st)
                /\ enrollment_course e = assessment_course a
                /\ enrollment_student e = su_id su)
  /\ List.length (attempts_of st (assessment_id a) (su_id su)) < attempts_allowed a
  /\ within_window now a.

(** The two outcomes of a start request. *)
Definition start_rejected (st : Store) (a : Assessment) : result Outcome :=
  Ok (mkOutcome (Redirect "assessment_detail" [assessment_id a]) [] st).

Definition start_created (st : Store) (now : Z) (a : Assessment) (su : SchoolUser)
  : result Outcome :=
  let existing := List.length (attempts_of st (assessment_id a) (su_id su)) in
  let attempt :=
    mkAttempt (next_id attempt_id (attempts st)) (su_id su) (assessment_id a)
      now None None false (existing + 1) in
  Ok (mkOutcome (Redirect "assessment_take" [assessment_id a; attempt_id attempt])
        [] (set_attempts st (attempts st ++ [attempt]))).

(** The decorated view, as the URL table reaches it. *)
Definition assessment_start_route (st : Store) (now : Z) (slug : string) (id : nat)
  : Request -> result Outcome :=
  login_required st (school_context_required st slug (assessment_start st now id)).

Definition with_submission (a : Attempt) (finished : option Z) (sc : option Q)
  : Attempt :=
  mkAttempt (attempt_id a) (attempt_student a) (attempt_assessment a)
    (started_at a) finished sc true (attempt_number a).

Definition _finalize_attempt_and_redirect (st : Store) (now : Z) (attempt : Attempt)
  : Outcome :=
  let st' :=
    if negb (is_submitted attempt) then
      let sc := match score attempt with None => Some 0%Q | Some s => Some s end in
      set_attempts st
        (save attempt_id (with_submission attempt (Some now) sc) (attempts st))
    else st in
  mkOutcome
    (Redirect "assessment_result" [attempt_assessment attempt; attempt_id attempt])
    [] st'.

(** [get_object_or_404(Attempt, id=..., assessment=..., student=...)] *)
Definition get_attempt (st : Store) (id assessment student : nat) : result Attempt :=
  match
    find
      (fun a =>
         (attempt_id a =? id) && (attempt_assessment a =? assessment)
         && (attempt_student a =? student))
      (attempts st)
  with
  | Some a => Ok a
  | None => Raise Http404
  end.

(** A stable sort: [sorted(key=...)], and [order_by] with ties left in
    table order. *)
Fixpoint insert_by {A : Type} (leb : A -> A -> bool) (x : A) (l : list A) : list A :=
  match l with
  | [] => [x]
  | y :: l' => if leb x y then x :: l else y :: insert_by leb x l'
  end.

Definition sort_by {A : Type} (leb : A -> A -> bool) (l : list A) : list A :=
  fold_right (insert_by leb) [] l.

(** [assessment.questions.all()] *)
Definition questions_of (st : Store) (assessment : nat) : list Question :=
  filter (fun q => question_assessment q =? assessment) (questions st).

(** [assessment.questions.all().order_by('order')] *)
Definition questions_ordered (st : Store) (assessment : nat) : list Question :=
  sort_by (fun q1 q2 => (question_order q1 <=? question_order q2)%Z)
    (questions_of st assessment).

Definition is_objective (q : Question) : bool :=
  String.eqb (question_type q) "multiple_choice"
  || String.eqb (question_type q) "true_false".

Definition is_manual (q : Question) : bool :=
  String.eqb (question_type q) "essay" || String.eqb (question_type q) "file".

Definition answers_for (st : Store) (attempt question : nat) : list Answer :=
  filter
    (fun a => (answer_attempt a =? attempt) && (answer_question a =? question))
    (answers st).

(** [Answer.objects.get_or_create(attempt=..., question=...)]: the model
    declares no unique constraint, so the insert cannot be refused. *)
Definition answer_get_or_create (st : Store) (attempt question : nat)
  : result (Answer * bool * Store) :=
  match answers_for st attempt question with
  | [a] => Ok (a, false, st)
  | _ :: _ :: _ => Raise MultipleObjectsReturned
  | [] =>
      let a :=
        mkAnswer (next_id answer_id (answers st)) attempt question None EmptyString None false in
      Ok (a, true, set_answers st (answers st ++ [a]))
  end.

(** [Choice.objects.get(id=value, question=question)]: a value that is
    not an integer raises [ValueError]; [Ok None] is [Choice.DoesNotExist]. *)
Definition choice_get (st : Store) (value : string) (question : nat)
  : result (option Choice) :=
  match int value with
  | None => Raise ValueError
  | Some n =>
      Ok (find
            (fun c => (Z.of_nat (choice_id c) =? n)%Z && (choice_question c =? question))
            (choices st))
  end.

Definition save_answer (st : Store) (a : Answer) : Store :=
  set_answers st (save answer_id a (answers st)).

Definition field_name (q : Question) : string := "question_" ++ str (question_id q).

(** The loop state of the submission: total points, points obtained,
    and the store. *)
Definition TakeState : Type := Q * Q * Store.

(** One iteration of [for question in questions]. *)
Definition take_question (request : Request) (attempt : Attempt)
    (acc : TakeState) (question : Question) : result TakeState :=
  let '(total_points, score_obtained, st) := acc in
  let value := get (POST request) (field_name question) in
  let total_points := (total_points + points question)%Q in
  bind (answer_get_or_create st (attempt_id attempt) (question_id question))
    (fun '(answer, _, st) =>
       if is_objective question then
         match value with
         | Some (String _ _ as v) =>
             bind (choice_get st v (question_id question))
               (fun found =>
                  match found with
                  | Some choice =>
                      let answer :=
                        mkAnswer (answer_id answer) (answer_attempt answer)
                          (answer_question answer) (Some (choice_id choice)) EmptyString None
                          (choice_is_correct choice) in
                      Ok (total_points,
                          if choice_is_correct choice
                          then (score_obtained + points question)%Q
                          else score_obtained,
                          save_answer st answer)
                  | None => Ok (total_points, score_obtained, st)
                  end)
         | _ => Ok (total_points, score_obtained, st)
         end
       else if String.eqb (question_type question) "essay" then
         let answer :=
           mkAnswer (answer_id answer) (answer_attempt answer) (answer_question answer)
             None (match value with Some v => v | None => EmptyString end)
             (file_answer answer) false in
         Ok (total_points, score_obtained, save_answer st answer)
       else if String.eqb (question_type question) "file" then
         let uploaded_file := get (FILES request) (field_name question) in
         let answer :=
           mkAnswer (answer_id answer) (answer_attempt answer) (answer_question answer)
             None (text_answer answer)
             (if truthy uploaded_file then uploaded_file else file_answer answer)
             false in
         Ok (total_points, score_obtained, save_answer st answer)
       else Ok (total_points, score_obtained, st)).

Fixpoint take_loop (request : Request) (attempt : Attempt) (acc : TakeState)
    (qs : list Question) : result TakeState :=
  match qs with
  | [] => Ok acc
  | q :: qs' =>
      bind (take_question request attempt acc q)
        (fun acc' => take_loop request attempt acc' qs')
  end.

(** [elapsed > assessment.time_limit], with [elapsed] in minutes. *)
Definition timed_out (assessment : Assessment) (attempt : Attempt) (now : Z) : bool :=
  match time_limit assessment with
  | Some (S _ as limit) => (60 * Z.of_nat limit <? now - started_at attempt)%Z
  | _ => false
  end.

Definition assessment_take (st : Store) (now : Z) (id attempt : nat) : View :=
  fun request school_user school =>
    bind (get_assessment st id school)
      (fun assessment =>
         bind (get_attempt st attempt (assessment_id assessment) (su_id school_user))
           (fun attempt =>
              let questions := questions_ordered st (assessment_id assessment) in
              let result_page :=
                Redirect "assessment_result"
                  [assessment_id assessment; attempt_id attempt] in
              if is_submitted attempt then Ok (mkOutcome result_page [] st)
              else if timed_out assessment attempt now then
                Ok (_finalize_attempt_and_redirect st now attempt)
              else if String.eqb (method request) "POST" then
                bind (take_loop request attempt (0%Q, 0%Q, st) questions)
                  (fun '(total_points, score_obtained, st) =>
                     let sc :=
                       if Qlt_le_dec 0 total_points
                       then round score_obtained 2 else 0%Q in
                     Ok (mkOutcome result_page []
                           (set_attempts st
                              (save attempt_id
                                 (with_submission attempt (Some now) (Some sc))
                                 (attempts st)))))
              else Ok (mkOutcome (Render "assessments/take") [] st))).

(** *** What a submission amounts to *)

(** The choice a submitted value designates for a question, if any. *)
Definition chosen (st : Store) (request : Request) (q : Question) : option Choice :=
  match get (POST request) (field_name q) with
  | Some (String _ _ as v) =>
      match int v with
      | Some n =>
          find
            (fun c =>
               (Z.of_nat (choice_id c) =? n)%Z && (choice_question c =? question_id q))
            (choices st)
      | None => None
      end
  | _ => None
  end.

(** An objective question whose chosen choice is marked correct. *)
Definition answered_correctly (st : Store) (request : Request) (q : Question) : bool :=
  is_objective q
  && match chosen st request q with
     | Some c => choice_is_correct c
     | None => false
     end.

(** The value sent for an objective question is blank or an integer. *)
Definition submittable (request : Request) (q : Question) : Prop :=
  is_objective q = true ->
  forall v, get (POST request) (field_name q) = Some v ->
            v = EmptyString \/ int v <> None.

Definition sumQ (l : list Q) : Q := fold_right Qplus 0%Q l.

Definition total_points (qs : list Question) : Q := sumQ (map points qs).

Definition earned_points (st : Store) (request : Request) (qs : list Question) : Q :=
  sumQ (map points (filter (answered_correctly st request) qs)).

(** The score the code stores: the points earned, unless the points of
    all the questions do not add up to a positive total. *)
Definition submission_score (st : Store) (request : Request) (qs : list Question)
  : Q :=
  if Qlt_le_dec 0 (total_points qs) then round (earned_points st request qs) 2
  else 0%Q.

(** The score as the specification words it. *)
Definition raw_score (st : Store) (request : Request) (qs : list Question) : Q :=
  round (earned_points st request qs) 2.

(** The answer row a first submission leaves for a question. *)
Definition submitted_row (st : Store) (request : Request) (id attempt : nat)
    (q : Question) : Answer :=
  if is_objective q then
    match chosen st request q with
    | Some c =>
        mkAnswer id attempt (question_id q) (Some (choice_id c)) EmptyString None
          (choice_is_correct c)
    | None => mkAnswer id attempt (question_id q) None EmptyString None false
    end
  else if String.eqb (question_type q) "essay" then
    mkAnswer id attempt (question_id q) None
      (match get (POST request) (field_name q) with Some v => v | None => EmptyString end)
      None false
  else if String.eqb (question_type q) "file" then
    mkAnswer id attempt (question_id q) None EmptyString
      (if truthy (get (FILES request) (field_name q))
       then get (FILES request) (field_name q) else None)
      false
  else mkAnswer id attempt (question_id q) None EmptyString None false.

Fixpoint submitted_rows (st : Store) (request : Request) (id attempt : nat)
    (qs : list Question) : list Answer :=
  match qs with
  | [] => []
  | q :: qs' =>
      submitted_row st request id attempt q
      :: submitted_rows st request (S id) attempt qs'
  end.

(** Two facts of every store the handlers build: an attempt in progress
    has no answer yet (answers are only written by the request that submits
    the attempt), and an answer belongs to an attempt of the store. *)
Definition in_progress_unanswered (st : Store) : Prop :=
  forall a x,
    In a (attempts st) -> is_submitted a = false ->
    In x (answers st) -> answer_attempt x <> attempt_id a.

Definition answers_reference_attempts (st : Store) : Prop :=
  forall x,
    In x (answers st) ->
    exists a, In a (attempts st) /\ attempt_id a = answer_attempt x.

Definition assessment_take_route (st : Store) (now : Z) (slug : string)
    (id attempt : nat) : Request -> result Outcome :=
  login_required st (school_context_required st slug (assessment_take st now id attempt)).

(** *** Grading ([grade_attempt]) *)

(** [get_object_or_404(Attempt, id=..., assessment_id=...,
    assessment__course__school=school)] *)
Definition get_attempt_in_school (st : Store) (id assessment : nat) (school : School)
  : result Attempt :=
  match
    find
      (fun a =>
         (attempt_id a =? id) && (attempt_assessment a =? assessment)
         && existsb
              (fun s =>
                 (assessment_id s =? attempt_assessment a)
                 && course_in_school st (assessment_course s) (school_id school))
              (assessments st))
      (attempts st)
  with
  | Some a => Ok a
  | None => Raise Http404
  end.

(** [attempt.answers.select_related("question")]: an inner join. *)
Definition answers_with_question (st : Store) (attempt : nat)
  : list (Answer * Question) :=
  flat_map
    (fun a =>
       if answer_attempt a =? attempt then
         match find (fun q => question_id q =? answer_question a) (questions st) with
         | Some q => [(a, q)]
         | None => []
         end
       else [])
    (answers st).

Definition grade_field (a : Answer) : string := "grade_" ++ str (answer_id a).

(** One iteration of [for answer in answers]. *)
Definition grade_answer (request : Request) (total_score : Q) (aq : Answer * Question)
  : result Q :=
  let '(answer, question) := aq in
  let question_points := points question in
  if is_objective question then
    Ok (if answer_is_correct answer then (total_score + question_points)%Q
        else total_score)
  else if is_manual question then
    match get (POST request) (grade_field answer) with
    | Some (String _ _ as grade_value) =>
        match float grade_value with
        | Some g => Ok (total_score + g)%Q
        | None => Raise ValueError
        end
    | _ => Ok total_score
    end
  else Ok total_score.

Fixpoint grade_loop (request : Request) (total_score : Q)
    (l : list (Answer * Question)) : result Q :=
  match l with
  | [] => Ok total_score
  | aq :: l' =>
      bind (grade_answer request total_score aq)
        (fun total_score' => grade_loop request total_score' l')
  end.

Definition grade_attempt (st : Store) (id attempt : nat) : View :=
  fun request school_user school =>
    bind (get_attempt_in_school st attempt id school)
      (fun attempt =>
         let answers := answers_with_question st (attempt_id attempt) in
         if String.eqb (method request) "POST" then
           bind (grade_loop request 0%Q answers)
             (fun total_score =>
                Ok (mkOutcome (Redirect "assessment_submissions" [id]) []
                      (set_attempts st
                         (save attempt_id
                            (with_submission attempt (finished_at attempt)
                               (Some (round total_score 2)))
                            (attempts st)))))
         else Ok (mkOutcome (Render "assessments/grade_attempt") [] st)).

(** The grade entered for an essay or file answer, when it is a number. *)
Definition entered_grade (request : Request) (aq : Answer * Question) : option Q :=
  if is_manual (snd aq) then
    match get (POST request) (grade_field (fst aq)) with
    | Some (String _ _ as v) => float v
    | _ => None
    end
  else None.

(** Every grade entered for an essay or file answer is a number. *)
Definition gradable (request : Request) (aq : Answer * Question) : Prop :=
  is_manual (snd aq) = true ->
  forall v, get (POST request) (grade_field (fst aq)) = Some v ->
            v = EmptyString \/ float v <> None.

Definition objective_sum (l : list (Answer * Question)) : Q :=
  sumQ
    (map (fun aq => points (snd aq))
       (filter (fun aq => is_objective (snd aq) && answer_is_correct (fst aq)) l)).

Definition grade_sum (request : Request) (l : list (Answer * Question)) : Q :=
  sumQ
    (flat_map
       (fun aq => match entered_grade request aq with Some g => [g] | None => [] end)
       l).

Definition grade_attempt_route (st : Store) (slug : string) (id attempt : nat)
  : Request -> result Outcome :=
  login_required st (school_context_required st slug (grade_attempt st id attempt)).

(** [assessment_submissions], the list the graders start from, for
    comparison: it is wrapped in [teacher_required]. *)
Definition assessment_submissions (st : Store) (id : nat) : View :=
  fun request school_user school =>
    bind (get_assessment st id school)
      (fun _ => Ok (mkOutcome (Render "assessments/submission_list") [] st)).

Definition assessment_submissions_route (st : Store) (slug : string) (id : nat)
  : Request -> result Outcome :=
  login_required st
    (school_context_required st slug
       (teacher_required st (assessment_submissions st id))).

(** *** Statistics ([assessment_stats]) *)

Record QuestionStat := mkQuestionStat {
  stat_question : Question;
  correct_rate : Q
}.

Record StatsContext := mkStatsContext {
  total : nat;
  avg_score : Q;
  difficult_questions : list QuestionStat
}.

(** [Avg("score")]: null scores are skipped; no score gives [None]. *)
Definition Avg (l : list (option Q)) : option Q :=
  let present := flat_map (fun o => match o with Some x => [x] | None => [] end) l in
  match present with
  | [] => None
  | _ => Some (sumQ present / of_nat (List.length present))%Q
  end.

Definition submitted_attempts (st : Store) (assessment : nat) : list Attempt :=
  filter (fun a => (attempt_assessment a =? assessment) && is_submitted a)
    (attempts st).

Definition total_ans (st : Store) (q : Question) : nat :=
  List.length (filter (fun a => answer_question a =? question_id q) (answers st)).

Definition correct_ans (st : Store) (q : Question) : nat :=
  List.length
    (filter (fun a => (answer_question a =? question_id q) && answer_is_correct a)
       (answers st)).

Definition question_stat (st : Store) (q : Question) : QuestionStat :=
  let correct_rate :=
    if total_ans st q =? 0 then 0%Q
    else (of_nat (correct_ans st q) / of_nat (total_ans st q) * 100)%Q in
  mkQuestionStat q (round correct_rate 2).

Definition rate_leb (x y : QuestionStat) : bool :=
  Qle_bool (correct_rate x) (correct_rate y).

Definition stats_context (st : Store) (assessment : Assessment) : StatsContext :=
  let attempts := submitted_attempts st (assessment_id assessment) in
  let avg :=
    match Avg (map score attempts) with
    | Some a => a
    | None => 0%Q
    end in
  mkStatsContext (List.length attempts) (round avg 2)
    (sort_by rate_leb
       (map (question_stat st) (questions_of st (assessment_id assessment)))).

(** The correct-rate as the specification words it, before any rounding. *)
Definition exact_rate (st : Store) (q : Question) : Q :=
  if total_ans st q =? 0 then 0%Q
  else (100 * of_nat (correct_ans st q) / of_nat (total_ans st q))%Q.

(** The average of the scores of the submitted attempts, 0 without any. *)
Definition exact_average (st : Store) (assessment : nat) : Q :=
  match Avg (map score (submitted_attempts st assessment)) with
  | Some a => a
  | None => 0%Q
  end.

(** The handler renders the context; the store is only read. *)
Definition assessment_stats (st : Store) (id : nat) (school : School)
  : result StatsContext :=
  bind (get_assessment st id school) (fun assessment => Ok (stats_context st assessment)).

(** *** Editing forms *)

(** [conv(raw)] when [raw] is neither [None] nor empty, [default] otherwise, where the
    conversion may raise [ValueError].  The row is written at the end:
    the fields are converted to column values first, then the insert is
    checked by the database. *)
Definition convert {A : Type} (parse : string -> option A) (raw : option string)
    (default : A) : result A :=
  match raw with
  | Some (String _ _ as s) =>
      match parse s with
      | Some v => Ok v
      | None => Raise ValueError
      end
  | _ => Ok default
  end.

Definition int_opt (s : string) : option (option Z) := option_map Some (int s).

(** A [PositiveIntegerField] refuses a negative value when the row is
    written. *)
Definition positive_field (z : Z) : result nat :=
  if (z <? 0)%Z then Raise IntegrityError else Ok (Z.to_nat z).

Definition positive_field_opt (z : option Z) : result (option nat) :=
  match z with
  | Some v => bind (positive_field v) (fun n => Ok (Some n))
  | None => Ok None
  end.

(** A [DateTimeField] given text converts it when the row is written;
    the conversion belongs to the framework and is a parameter. *)
Definition datetime_field (to_python : string -> option Z) (raw : option string)
  : result (option Z) :=
  match raw with
  | Some (String _ _ as s) =>
      match to_python s with
      | Some t => Ok (Some t)
      | None => Raise ValidationError
      end
  | _ => Ok None
  end.

Definition get_course (st : Store) (id : nat) (school : School) : result Course :=
  match
    find (fun c => (course_id c =? id) && (course_school c =? school_id school))
      (courses st)
  with
  | Some c => Ok c
  | None => Raise Http404
  end.

(** [subjects.filter(id=subject_id).first()] among the subjects of the
    course, when a subject was sent; an id that is not an integer raises. *)
Definition subject_of (st : Store) (course : nat) (raw : option string)
  : result (option nat) :=
  match raw with
  | Some (String _ _ as s) =>
      match int s with
      | None => Raise ValueError
      | Some n =>
          Ok (option_map subject_id
                (find
                   (fun sj =>
                      (subject_course sj =? course)
                      && (Z.of_nat (subject_id sj) =? n)%Z)
                   (subjects st)))
      end
  | _ => Ok None
  end.

(** The description and the type of the assessment, plain texts, are left
    out of the row. *)
Definition assessment_create (to_python : string -> option Z) (st : Store)
    (course : nat) : View :=
  fun request school_user school =>
    bind (get_course st course school)
      (fun course =>
         if String.eqb (method request) "POST" then
           bind (getitem (POST request) "title") (fun title =>
           bind (convert float (get (POST request) "weight") 0%Q) (fun weight =>
           bind (convert int (get (POST request) "attempts_allowed") 1%Z) (fun attempts =>
           bind (convert int_opt (get (POST request) "time_limit") None) (fun time_limit =>
           bind (subject_of st (course_id course) (get (POST request) "subject"))
             (fun subject =>
           bind (datetime_field to_python (get (POST request) "open_at")) (fun open_at =>
           bind (datetime_field to_python (get (POST request) "close_at")) (fun close_at =>
           bind (positive_field attempts) (fun attempts =>
           bind (positive_field_opt time_limit) (fun time_limit =>
             let a :=
               mkAssessment (next_id assessment_id (assessments st)) (course_id course)
                 subject title weight attempts time_limit open_at close_at in
             Ok (mkOutcome (Redirect "assessment_list" [course_id course]) []
                   (set_assessments st (assessments st ++ [a]))))))))))))
         else Ok (mkOutcome (Render "assessments/assessment_create") [] st)).

Definition assessment_create_route (to_python : string -> option Z) (st : Store)
    (slug : string) (course : nat) : Request -> result Outcome :=
  login_required st
    (school_context_required st slug
       (teacher_required st (assessment_create to_python st course))).

(** [assessment_edit] wraps the same conversions in
    [try: ... except Exception], reporting the failure as a message
    (the text of the exception, which the message quotes, is left out). *)
Definition assessment_edit (to_python : string -> option Z) (st : Store)
    (id : nat) : View :=
  fun request school_user school =>
    bind (get_assessment st id school)
      (fun assessment =>
         let form := mkOutcome (Render "assessments/assessment_edit") [] st in
         if String.eqb (method request) "POST" then
           match
             bind (getitem (POST request) "title") (fun title =>
             bind (convert float (get (POST request) "weight") 0%Q) (fun weight =>
             bind (convert int (get (POST request) "attempts_allowed") 1%Z) (fun attempts =>
             bind (convert int_opt (get (POST request) "time_limit") None) (fun time_limit =>
             bind (datetime_field to_python (get (POST request) "open_at")) (fun open_at =>
             bind (datetime_field to_python (get (POST request) "close_at")) (fun close_at =>
             bind (positive_field attempts) (fun attempts =>
             bind (positive_field_opt time_limit) (fun time_limit =>
               Ok (mkAssessment (assessment_id assessment) (assessment_course assessment)
                       (assessment_subject assessment)
                     title weight attempts time_limit open_at close_at)))))))))
           with
           | Ok a =>
               Ok (mkOutcome (Redirect "assessment_list" [assessment_course assessment])
                     [(Success, "Avaliação atualizada com sucesso!")]
                     (set_assessments st (save assessment_id a (assessments st))))
           | Raise _ =>
               Ok (mkOutcome (Render "assessments/assessment_edit")
                     [(Error, "Erro ao salvar a avaliação")] st)
           end
         else Ok form).

(** [get_object_or_404(Question, id=..., assessment__course__school=school)] *)
Definition get_question (st : Store) (id : nat) (school : School) : result Question :=
  match
    find
      (fun q =>
         (question_id q =? id)
         && existsb
              (fun s =>
                 (assessment_id s =? question_assessment q)
                 && course_in_school st (assessment_course s) (school_id school))
              (assessments st))
      (questions st)
  with
  | Some q => Ok q
  | None => Raise Http404
  end.

(** [try: x = conv(POST.get(key, x)) except ValueError: pass] *)
Definition parse_or_keep {A : Type} (parse : string -> option A)
    (raw : option string) (current : A) : A :=
  match raw with
  | Some s =>
      match parse s with
      | Some v => v
      | None => current
      end
  | None => current
  end.

Definition question_edit (st : Store) (id : nat) : View :=
  fun request school_user school =>
    bind (get_question st id school)
      (fun question =>
         if String.eqb (method request) "POST" then
           let text :=
             strip (match get (POST request) "text" with Some s => s | None => EmptyString end) in
           let type :=
             match get (POST request) "type" with
             | Some s => s
             | None => question_type question
             end in
           let order :=
             parse_or_keep int (get (POST request) "order") (question_order question) in
           let pts :=
             parse_or_keep float (get (POST request) "points") (points question) in
           if (order <? 0)%Z then Raise IntegrityError
           else
             let question :=
               mkQuestion (question_id question) (question_assessment question)
                 text type order pts in
             Ok (mkOutcome (Redirect "question_list" [question_assessment question]) []
                   (set_questions st (save question_id question (questions st))))
         else Ok (mkOutcome (Render "assessments/question_edit") [] st)).

End Assessments.

(* ================================================================== *)
(** ** Course catalog: deleting a category ([core/courses_views.py]) *)
(* ================================================================== *)

Module Courses.

Definition quote : string := String (ascii_of_nat 34) EmptyString.

(** [category.courses.filter(school=school).count()] *)
Definition courses_count (st : Store) (category : Category) (school : School) : nat :=
  List.length
    (filter
       (fun c =>
          match course_category c with
          | Some k => (k =? category_id category) && (course_school c =? school_id school)
          | None => false
          end)
       (courses st)).

(** [category.delete()]: the row goes, and [on_delete=SET_NULL] clears
    the category of every course that pointed at it. *)
Definition delete_category (st : Store) (category : Category) : Store :=
  set_courses
    (set_categories st
       (filter (fun k => negb (category_id k =? category_id category)) (categories st)))
    (map
       (fun c =>
          match course_category c with
          | Some k =>
              if k =? category_id category
              then mkCourse (course_id c) (course_school c) None
              else c
          | None => c
          end)
       (courses st)).

Definition warning_text (category : Category) (n : nat) : string :=
  "Não é possível excluir " ++ quote ++ category_name category ++ quote
  ++ " pois existem " ++ str n ++ " curso(s) vinculados.".

Definition success_text (name : string) : string :=
  "Categoria " ++ quote ++ name ++ quote ++ " excluída com sucesso!".

Definition category_delete (st : Store) (id : nat) : View :=
  fun request school_user school =>
    match find (fun k => category_id k =? id) (categories st) with
    | None => Raise Http404
    | Some category =>
        let courses_count := courses_count st category school in
        if String.eqb (method request) "POST" then
          if 0 <? courses_count then
            Ok (mkOutcome (Redirect "category_list" [])
                  [(Warning, warning_text category courses_count)] st)
          else
            let name := category_name category in
            Ok (mkOutcome (Redirect "category_list" [])
                  [(Success, success_text name)] (delete_category st category))
        else Ok (mkOutcome (Render "category_delete") [] st)
    end.

Definition category_delete_route (st : Store) (slug : string) (id : nat)
  : Request -> result Outcome :=
  login_required st
    (school_context_required st slug (admin_required st (category_delete st id))).

End Courses.

(* ================================================================== *)
(** ** Sample stores and requests *)
(* ================================================================== *)

Module Samples.

Definition school1 : School := mkSchool 1 "escola" 100.

(** One published lesson shared by a subject of course 1 and a subject of
    course 2; student 7 completed it while following course 2. *)
Definition shared_lesson_store : Store :=
  set_progresses
    (mkStore [school1] [] []
       [mkCourse 1 1 None; mkCourse 2 1 None]
       [mkSubject 1 1 [1]; mkSubject 2 2 [1]]
       [mkLesson 1 1 "published"]
       [] [] [] [] [] [] [])
    [mkProgress 1 7 2 1 true 100 (Some 0%Z) 0%Z].

(** Course 1 has two subjects; lesson 1 is attached to both, lesson 2 to
    one, and lesson 3 is a draft.  Student 7 completed lesson 1. *)
Definition two_lesson_store : Store :=
  set_progresses
    (mkStore [school1] [] []
       [mkCourse 1 1 None]
       [mkSubject 1 1 [1; 2; 3]; mkSubject 2 1 [1]]
       [mkLesson 1 1 "published"; mkLesson 2 1 "published"; mkLesson 3 1 "draft"]
       [] [] [] [] [] [] [])
    [mkProgress 1 7 1 1 true 100 (Some 0%Z) 0%Z;
     mkProgress 2 7 1 3 true 100 (Some 0%Z) 0%Z].

(** Student 7 opened lesson 1 while following course 2 and left it
    unfinished (the row [lesson_progress_update] writes for
    [is_completed = false]). *)
Definition other_course_row : Progress := mkProgress 1 7 2 1 false 0 None 0%Z.

Definition other_course_store : Store :=
  set_progresses shared_lesson_store [other_course_row].

(** A quiz of two multiple-choice questions worth 5 points each, open
    from 100 to 200, two attempts allowed; student 7 is enrolled and has
    attempt 1 in progress, student 9 is not enrolled, 8 is a teacher. *)
Definition quiz : Assessment :=
  mkAssessment 1 1 None "Quiz" 10 2 None (Some 100%Z) (Some 200%Z).

Definition student7 : SchoolUser := mkSchoolUser 7 70 1 "student".
Definition teacher8 : SchoolUser := mkSchoolUser 8 80 1 "teacher".
Definition student9 : SchoolUser := mkSchoolUser 9 90 1 "student".

Definition attempt1 : Attempt := mkAttempt 1 7 1 100%Z None None false 1.

Definition quiz_store : Store :=
  mkStore [school1] [student7; teacher8; student9] []
    [mkCourse 1 1 None] [] []
    [mkEnrollment 1 7] []
    [quiz]
    [mkQuestion 1 1 "q1" "multiple_choice" 1 5;
     mkQuestion 2 1 "q2" "multiple_choice" 2 5]
    [mkChoice 11 1 true; mkChoice 12 1 false;
     mkChoice 21 2 true; mkChoice 22 2 false]
    [attempt1] [].

Definition get_request (u : nat) : Request := mkRequest "GET" (Some u) [] [].

Definition post_request (u : nat) (form : QueryDict) : Request :=
  mkRequest "POST" (Some u) form [].

(** The quiz answered with the right choice of question 1 and a wrong
    choice of question 2. *)
Definition one_right_one_wrong : Request :=
  post_request 70 [("question_1", "11"); ("question_2", "22")].

(** The same quiz where a teacher set the points of question 2 to -5. *)
Definition penalty_store : Store :=
  set_questions quiz_store
    [mkQuestion 1 1 "q1" "multiple_choice" 1 5;
     mkQuestion 2 1 "q2" "multiple_choice" 2 (-5)].

(** The quiz sent back with question 1 left blank and question 2 answered
    with an id that is no choice of it. *)
Definition blank_and_invalid : Request :=
  post_request 70 [("question_1", EmptyString); ("question_2", "99")].

(** The quiz with a third, essay question worth 10 points; attempt 1 was
    submitted with question 1 right, question 2 wrong and an essay. *)
Definition essay_store : Store :=
  set_answers
    (set_attempts
       (set_questions quiz_store
          [mkQuestion 1 1 "q1" "multiple_choice" 1 5;
           mkQuestion 2 1 "q2" "multiple_choice" 2 5;
           mkQuestion 3 1 "q3" "essay" 3 10])
       [mkAttempt 1 7 1 100%Z (Some 150%Z) (Some 5%Q) true 1])
    [mkAnswer 1 1 1 (Some 11) EmptyString None true;
     mkAnswer 2 1 2 (Some 22) EmptyString None false;
     mkAnswer 3 1 3 None "texto" None false].

Definition submitted1 : Attempt :=
  mkAttempt 1 7 1 100%Z (Some 150%Z) (Some 5%Q) true 1.

(** The grading form: 3.5 for the essay (answer 3), sent by user [u]. *)
Definition grade_essay (u : nat) : Request := post_request u [("grade_3", "3.5")].

(** Two categories; course 1 of the school is filed under category 1. *)
Definition catalog_store : Store :=
  set_courses
    (set_categories quiz_store [mkCategory 1 "Exatas"; mkCategory 2 "Humanas"])
    [mkCourse 1 1 (Some 1)].

Definition admin6 : SchoolUser := mkSchoolUser 6 60 1 "admin".

(** Forms with a text that is not a number. *)
Definition bad_weight : Request :=
  post_request 80 [("title", "Prova"); ("weight", "abc")].

Definition bad_grade : Request := post_request 80 [("grade_3", "abc")].

Definition bad_order : Request :=
  post_request 80 [("text", "q1"); ("order", "abc"); ("points", "x")].

(** One question answered in four submitted attempts, three times right. *)
Definition four_answers_store : Store :=
  set_answers
    (set_attempts
       (set_questions quiz_store [mkQuestion 1 1 "q1" "multiple_choice" 1 5])
       [mkAttempt 1 7 1 100%Z (Some 150%Z) (Some 5%Q) true 1;
        mkAttempt 2 9 1 100%Z (Some 150%Z) (Some 5%Q) true 1;
        mkAttempt 3 10 1 100%Z (Some 150%Z) (Some 5%Q) true 1;
        mkAttempt 4 11 1 100%Z (Some 150%Z) (Some 0%Q) true 1])
    [mkAnswer 1 1 1 (Some 11) EmptyString None true;
     mkAnswer 2 2 1 (Some 11) EmptyString None true;
     mkAnswer 3 3 1 (Some 11) EmptyString None true;
     mkAnswer 4 4 1 (Some 12) EmptyString None false].

(** The same question answered three times, once right. *)
Definition three_answers_store : Store :=
  set_answers four_answers_store
    [mkAnswer 1 1 1 (Some 11) EmptyString None true;
     mkAnswer 2 2 1 (Some 12) EmptyString None false;
     mkAnswer 3 3 1 (Some 12) EmptyString None false].

End Samples.

Import Samples.

(* ================================================================== *)
(** ** More of the model and of the handlers *)
(* ================================================================== *)

Module Tables.

Definition set_school_users (st : Store) (v : list SchoolUser) : Store :=
  mkStore (schools st) v (categories st) (courses st) (subjects st)
    (lessons st) (enrollments st) (progresses st) (assessments st)
    (questions st) (choices st) (attempts st) (answers st).

Definition set_enrollments (st : Store) (v : list Enrollment) : Store :=
  mkStore (schools st) (school_users st) (categories st) (courses st)
    (subjects st) (lessons st) v (progresses st) (assessments st)
    (questions st) (choices st) (attempts st) (answers st).

Definition set_choices (st : Store) (v : list Choice) : Store :=
  mkStore (schools st) (school_users st) (categories st) (courses st)
    (subjects st) (lessons st) (enrollments st) (progresses st)
    (assessments st) (questions st) v (attempts st) (answers st).

End Tables.

Import Tables.

(** *** [core/models.py]: the computed status of an assessment *)

Module AssessmentModel.

(** [Assessment.status] at the instant [now]. *)
Definition status (a : Assessment) (now : Z) : string :=
  if Assessments.before now (open_at a) then "pending"
  else if Assessments.after now (close_at a) then "closed"
  else "active".

End AssessmentModel.

(** *** [core/helpers.py] *)

Module Helpers.

(** [create_school_user(user, school, role='student')]: a
    [get_or_create] on (user, school). *)
Definition create_school_user (st : Store) (u : nat) (school : School) (role : string)
  : result (SchoolUser * Store) :=
  match
    filter (fun su => (su_user su =? u) && (su_school su =? school_id school))
      (school_users st)
  with
  | [su] => Ok (su, st)
  | _ :: _ :: _ => Raise MultipleObjectsReturned
  | [] =>
      let su := mkSchoolUser (next_id su_id (school_users st)) u (school_id school) role in
      Ok (su, set_school_users st (school_users st ++ [su]))
  end.

End Helpers.

(** *** [core/views.py], [core/templatetags/custom_filters.py] and
    [core/lessons_views.py]: progress *)

Module ProgressViews.

Import ProgressTracker.

(** [subject.lessons.filter(status="published")] *)
Definition subject_published (st : Store) (subject : Subject) : list nat :=
  map lesson_id
    (filter
       (fun l =>
          mem (lesson_id l) (subject_lessons subject)
          && String.eqb (lesson_status l) "published")
       (lessons st)).

Definition calculate_subject_progress (st : Store) (student : nat) (subject : Subject)
  : Q :=
  let published := subject_published st subject in
  let total_lessons := List.length published in
  if total_lessons =? 0 then 0%Q
  else
    let completed_lessons :=
      List.length
        (filter
           (fun p =>
              (progress_student p =? student)
              && mem (progress_lesson p) published
              && is_completed p)
           (progresses st)) in
    round ((of_nat completed_lessons / of_nat total_lessons) * 100)%Q 1.

Definition calculate_user_course_progress (st : Store) (student course : nat) : Q :=
  let published := published_lessons st course in
  let total_lessons := List.length published in
  if total_lessons =? 0 then 0%Q
  else
    let completed_lessons :=
      List.length
        (filter
           (fun p =>
              (progress_student p =? student)
              && (progress_course p =? course)
              && mem (progress_lesson p) published
              && is_completed p)
           (progresses st)) in
    round ((of_nat completed_lessons / of_nat total_lessons) * 100)%Q 1.

(** The template filters. *)
Definition get_subject_progress (st : Store) (subject : Subject) (student : nat) : Q :=
  calculate_subject_progress st student subject.

Definition get_lesson_completed (st : Store) (lesson student : nat) : bool :=
  existsb
    (fun p =>
       (progress_student p =? student) && (progress_lesson p =? lesson)
       && is_completed p)
    (progresses st).

(** The JSON reply of [lesson_progress_update]. *)
Record ProgressReply := mkProgressReply {
  reply_success : bool;
  reply_is_completed : bool;
  reply_course_progress : Q
}.

(** [lesson_progress_update] on a POST (the view is behind
    [require_POST]); [is_completed] is the value decoded from the JSON body.
    The lesson is looked up by id alone. *)
Definition lesson_progress_update (st : Store) (now : Z) (course lesson : nat)
    (is_completed : bool) (school_user : SchoolUser) (school : School)
  : result (ProgressReply * Store) :=
  bind (Assessments.get_course st course school)
    (fun course =>
       match find (fun l => lesson_id l =? lesson) (lessons st) with
       | None => Raise Http404
       | Some lesson =>
           bind
             (get_or_create st now (su_id school_user) (course_id course)
                (lesson_id lesson) is_completed 0 None)
             (fun '(progress, created, st1) =>
                let st2 :=
                  if created then st1
                  else
                    set_progresses st1
                      (save progress_id
                         (mkProgress (progress_id progress) (progress_student progress)
                            (progress_course progress) (progress_lesson progress)
                            is_completed (progress_percentage progress)
                            (completed_at progress) now)
                         (progresses st1)) in
                let new_progress :=
                  calculate_course_progress st2 (su_id school_user) (course_id course) in
                Ok (mkProgressReply true is_completed (round new_progress 1), st2))
       end).

End ProgressViews.


(** *** [core/assessments_views.py]: the result page and the deletions *)

Module AssessmentPages.

Import Assessments.

(** [assessment.questions.filter(type__in=[...])] *)
Definition objective_questions (st : Store) (assessment : nat) : list Question :=
  filter is_objective (questions_of st assessment).

(** The share of right answers that [assessment_result] shows. *)
Definition percent_correct (st : Store) (assessment attempt : nat) : Q :=
  let objective := objective_questions st assessment in
  let total_obj := List.length objective in
  let correct_obj :=
    List.length
      (filter
         (fun x =>
            (answer_attempt x =? attempt)
            && mem (answer_question x) (map question_id objective)
            && answer_is_correct x)
         (answers st)) in
  if 0 <? total_obj then (of_nat correct_obj / of_nat total_obj * 100)%Q else 0%Q.

(** [assessment_result]: the handler only reads; what it computes for the
    template is [percent_correct]. *)
Definition assessment_result (st : Store) (id attempt : nat)
    (school_user : SchoolUser) (school : School) : result Q :=
  bind (get_assessment st id school)
    (fun assessment =>
       bind (get_attempt st attempt (assessment_id assessment) (su_id school_user))
         (fun attempt =>
            Ok (percent_correct st (assessment_id assessment) (attempt_id attempt)))).

(** [Model.delete()] with the [on_delete] rules of the models: questions
    [qids] and attempts [atids] go with their choices and answers
    ([CASCADE]); an answer that stays and pointed at a deleted choice gets a
    null choice ([SET_NULL]). *)
Definition null_choice (cids : list nat) (x : Answer) : Answer :=
  match answer_choice x with
  | Some c =>
      if mem c cids then
        mkAnswer (answer_id x) (answer_attempt x) (answer_question x) None
          (text_answer x) (file_answer x) (answer_is_correct x)
      else x
  | None => x
  end.

Definition cascade_delete (st : Store) (qids atids : list nat) : Store :=
  let cids :=
    map choice_id (filter (fun c => mem (choice_question c) qids) (choices st)) in
  set_answers
    (set_attempts
       (set_choices
          (set_questions st
             (filter (fun q => negb (mem (question_id q) qids)) (questions st)))
          (filter (fun c => negb (mem (choice_question c) qids)) (choices st)))
       (filter (fun a => negb (mem (attempt_id a) atids)) (attempts st)))
    (map (null_choice cids)
       (filter
          (fun x =>
             negb (mem (answer_attempt x) atids) && negb (mem (answer_question x) qids))
          (answers st))).

Definition delete_question (st : Store) (q : Question) : Store :=
  cascade_delete st [question_id q] [].

Definition delete_assessment (st : Store) (a : Assessment) : Store :=
  let qids := map question_id (questions_of st (assessment_id a)) in
  let atids :=
    map attempt_id
      (filter (fun t => attempt_assessment t =? assessment_id a) (attempts st)) in
  set_assessments (cascade_delete st qids atids)
    (filter (fun s => negb (assessment_id s =? assessment_id a)) (assessments st)).

Definition deleted_text (title : string) : string :=
  "A avaliação **" ++ title ++ "** foi excluída com sucesso!".

(** [assessment_delete]: the request method is not looked at. *)
Definition assessment_delete (st : Store) (id : nat) : View :=
  fun request school_user school =>
    bind (get_assessment st id school)
      (fun assessment =>
         let course_id := assessment_course assessment in
         let title := assessment_title assessment in
         Ok (mkOutcome (Redirect "assessment_list" [course_id])
               [(Success, deleted_text title)]
               (delete_assessment st assessment))).

Definition assessment_delete_route (st : Store) (slug : string) (id : nat)
  : Request -> result Outcome :=
  login_required st
    (school_context_required st slug (teacher_required st (assessment_delete st id))).

(** [question_delete]: likewise. *)
Definition question_delete (st : Store) (id : nat) : View :=
  fun request school_user school =>
    bind (get_question st id school)
      (fun question =>
         let assessment_id := question_assessment question in
         Ok (mkOutcome (Redirect "question_list" [assessment_id]) []
               (delete_question st question))).

(** Every answer belongs to a question of the store. *)
Definition answers_reference_questions (st : Store) : Prop :=
  forall x,
    In x (answers st) ->
    exists q, In q (questions st) /\ question_id q = answer_question x.

End AssessmentPages.

(** *** [core/courses_views.py]: enrolling, creating a category *)

Module Catalog.

(** What [enroll_in_course] hands back; the level of a message is its
    name, since the handler also uses [messages.info]. *)
Record EnrollOutcome := mkEnrollOutcome {
  enroll_response : Response;
  enroll_messages : list (string * string);
  enroll_store : Store
}.

Definition enrollments_of (st : Store) (course : nat) : list Enrollment :=
  filter (fun e => enrollment_course e =? course) (enrollments st).

(** [Enrollment.objects.get_or_create(course=..., student=...)] *)
Definition enrollment_get_or_create (st : Store) (course student : nat)
  : result (Enrollment * bool * Store) :=
  match
    filter
      (fun e => (enrollment_course e =? course) && (enrollment_student e =? student))
      (enrollments st)
  with
  | [e] => Ok (e, false, st)
  | _ :: _ :: _ => Raise MultipleObjectsReturned
  | [] =>
      let e := mkEnrollment course student in
      Ok (e, true, set_enrollments st (enrollments st ++ [e]))
  end.

Section CourseColumns.

(** The columns of [Course] that the record does not keep. *)
Variable course_status : Course -> string.
Variable course_title : Course -> string.
Variable max_students : Course -> option nat.

(** [course.max_students and course.enrollments.count() >= course.max_students] *)
Definition is_full (st : Store) (course : Course) : bool :=
  match max_students course with
  | Some (S _ as limit) => limit <=? List.length (enrollments_of st (course_id course))
  | _ => false
  end.

Definition enroll_in_course (st : Store) (id : nat) (request : Request)
    (school_user : SchoolUser) (school : School) : result EnrollOutcome :=
  bind (Assessments.get_course st id school)
    (fun course =>
       if negb (String.eqb (course_status course) "active") then
         Ok (mkEnrollOutcome (Redirect "course_catalog" [])
               [("error", "❌ Este curso não está disponível no momento.")] st)
       else if is_full st course then
         Ok (mkEnrollOutcome (Redirect "course_detail" [course_id course])
               [("warning", "⚠️ O limite de alunos deste curso foi atingido.")] st)
       else
         bind (enrollment_get_or_create st (course_id course) (su_id school_user))
           (fun '(enrollment, created, st1) =>
              Ok (mkEnrollOutcome (Redirect "course_detail" [course_id course])
                    [if created
                     then ("success",
                           "🎉 Inscrição realizada com sucesso em “"
                           ++ course_title course ++ "”!")
                     else ("info", "ℹ️ Você já está matriculado neste curso.")]
                    st1))).

End CourseColumns.

(** [name__iexact] as the SQLite backend of the settings evaluates it:
    equality up to the case of the ASCII letters. *)
Definition ascii_lower (c : ascii) : ascii :=
  let n := nat_of_ascii c in
  if (65 <=? n) && (n <=? 90) then ascii_of_nat (n + 32) else c.

Fixpoint lower (s : string) : string :=
  match s with
  | EmptyString => EmptyString
  | String c s' => String (ascii_lower c) (lower s')
  end.

Definition iexact (a b : string) : bool := String.eqb (lower a) (lower b).

Definition category_exists_text (name : string) : string :=
  "A categoria " ++ Courses.quote ++ name ++ Courses.quote ++ " já existe.".

Definition category_created_text (name : string) : string :=
  "Categoria " ++ Courses.quote ++ name ++ Courses.quote ++ " criada com sucesso!".

(** [category_create]; of the new row only the name is kept, as in
    [Category] above. *)
Definition category_create (st : Store) : View :=
  fun request school_user school =>
    let back := Redirect "course_create" [] in
    if String.eqb (method request) "POST" then
      let name :=
        strip (match get (POST request) "name" with Some s => s | None => EmptyString end) in
      match name with
      | EmptyString =>
          Ok (mkOutcome back [(Error, "O nome da categoria é obrigatório.")] st)
      | _ =>
          if existsb (fun k => iexact (category_name k) name) (categories st) then
            Ok (mkOutcome back [(Warning, category_exists_text name)] st)
          else
            let k := mkCategory (next_id category_id (categories st)) name in
            Ok (mkOutcome back [(Success, category_created_text name)]
                  (set_categories st (categories st ++ [k])))
      end
    else Ok (mkOutcome back [] st).

(** No two categories have the same name up to case. *)
Definition names_distinct (st : Store) : Prop :=
  NoDup (map (fun k => lower (category_name k)) (categories st)).

End Catalog.


(* ================================================================== *)
(** ** More sample stores *)
(* ================================================================== *)

Module MoreSamples.

(** The sample quiz with a time limit of 30 minutes and a late closing
    time. *)
Definition timed_quiz : Assessment :=
  mkAssessment 1 1 None "Quiz" 10 2 (Some 30) (Some 100%Z) (Some 200000%Z).

Definition timed_store : Store := set_assessments quiz_store [timed_quiz].

(** A form that holds a title and nothing else. *)
Definition title_only : Request := post_request 80 [("title", "Prova")].

End MoreSamples.

Import MoreSamples.


(* ================================================================== *)
(** * Properties *)
(* ================================================================== *)

Import ProgressTracker.

(** ** Shared list facts *)

Lemma mem_In (n : nat) (l : list nat) : mem n l = true <-> In n l.
Proof.
  unfold mem. rewrite existsb_exists. split.
  - intros [x [Hx Heq]]. apply Nat.eqb_eq in Heq. now subst.
  - intros H. exists n. split; [assumption | apply Nat.eqb_refl].
Qed.

Lemma NoDup_same_length {A : Type} (l1 l2 : list A) :
  NoDup l1 -> NoDup l2 -> (forall x, In x l1 <-> In x l2) ->
  List.length l1 = List.length l2.
Proof.
  intros H1 H2 H. apply Permutation_length.
  now apply NoDup_Permutation.
Qed.

(** A selection of rows keeps a key unique. *)
Lemma unique_key_filter {Row Key : Type} (key : Row -> Key) (rows : list Row)
    (keep : Row -> bool) :
  NoDup (map key rows) -> NoDup (map key (filter keep rows)).
Proof.
  induction rows as [|r rows IH]; simpl; [trivial|].
  rewrite NoDup_cons_iff. intros [Hfresh Hrest].
  destruct (keep r); simpl; [|now apply IH].
  apply NoDup_cons; [|now apply IH].
  contradict Hfresh.
  apply in_map_iff in Hfresh. destruct Hfresh as [r' [Hkey Hin]].
  apply in_map_iff. exists r'. split; [exact Hkey|].
  now apply filter_In in Hin.
Qed.

(** ** Course progress *)

Section CourseProgress.

Variable st : Store.
Variables student course : nat.

Lemma published_lessons_spec (l : nat) :
  In l (published_lessons st course) <-> in_course_published st course l.
Proof.
  unfold published_lessons, distinct, lessons_join, in_course_published.
  rewrite nodup_In, in_flat_map. split.
  - intros [le [Hle Hin]].
    destruct (String.eqb_spec (lesson_status le) "published") as [Hst|]; [|easy].
    apply in_flat_map in Hin. destruct Hin as [sj [Hsj Hin]].
    destruct (subject_course sj =? course) eqn:Hc; simpl in Hin; [|easy].
    destruct (mem (lesson_id le) (subject_lessons sj)) eqn:Hm; simpl in Hin; [|easy].
    destruct Hin as [<-|[]].
    exists le, sj. apply Nat.eqb_eq in Hc. apply mem_In in Hm. tauto.
  - intros [le [sj [Hle [Hid [Hst [Hsj [Hc Hin]]]]]]].
    exists le. split; [assumption|].
    rewrite Hst, String.eqb_refl. apply in_flat_map. exists sj.
    split; [assumption|].
    subst l. apply Nat.eqb_eq in Hc. apply mem_In in Hin.
    rewrite Hc, Hin. simpl. now left.
Qed.

Lemma published_lessons_NoDup : NoDup (published_lessons st course).
Proof. apply NoDup_nodup. Qed.

Lemma counted_rows_lessons_NoDup :
  progress_unique st -> NoDup (map progress_lesson (counted_rows st student course)).
Proof.
  unfold progress_unique, counted_rows. intros Hu.
  apply (unique_key_filter _ _
           (fun p =>
              (progress_student p =? student) && (progress_course p =? course)
              && mem (progress_lesson p) (published_lessons st course)
              && is_completed p)) in Hu.
  apply (NoDup_map_inv (pair student)).
  rewrite map_map.
  erewrite map_ext_in; [exact Hu|].
  intros p Hp. apply filter_In in Hp. destruct Hp as [_ Hp].
  repeat (apply andb_prop in Hp; destruct Hp as [Hp ?]).
  apply Nat.eqb_eq in Hp. now rewrite Hp.
Qed.

Lemma counted_rows_lessons_spec (l : nat) :
  In l (map progress_lesson (counted_rows st student course))
  <-> In l (filter (completed_in_course st student course)
              (published_lessons st course)).
Proof.
  unfold counted_rows, completed_in_course.
  rewrite in_map_iff, filter_In, existsb_exists. split.
  - intros [p [Hl Hp]]. apply filter_In in Hp. destruct Hp as [Hin Hp].
    repeat (apply andb_prop in Hp; destruct Hp as [Hp ?]).
    subst l. split; [now apply mem_In|].
    exists p. split; [assumption|].
    rewrite Nat.eqb_refl.
    repeat (apply andb_true_intro; split); auto.
  - intros [Hpub [p [Hin Hp]]].
    repeat (apply andb_prop in Hp; destruct Hp as [Hp ?]).
    match goal with H : (progress_lesson p =? l) = true |- _ =>
      apply Nat.eqb_eq in H; subst l end.
    exists p. split; [reflexivity|]. apply filter_In. split; [assumption|].
    apply mem_In in Hpub.
    repeat (apply andb_true_intro; split); assumption.
Qed.

Lemma filter_ext_perm (f : nat -> bool) (P Q : list nat) :
  NoDup P -> NoDup Q -> (forall l, In l P <-> In l Q) ->
  List.length (filter f P) = List.length (filter f Q).
Proof.
  intros HP HQ H. apply NoDup_same_length; try now apply NoDup_filter.
  intros x. rewrite !filter_In, H. tauto.
Qed.

Lemma scaled_ratio (c t : nat) :
  round (of_nat c / of_nat t * 100)%Q 1 = round (100 * of_nat c / of_nat t)%Q 1.
Proof.
  unfold round. do 2 f_equal. f_equal. apply Qred_complete.
  unfold Qdiv. ring.
Qed.


End CourseProgress.

(** On concrete stores the hypotheses on [P] are settled by enumeration. *)
Ltac pick_row := simpl; ((left; reflexivity) + (right; pick_row)).

Ltac split_cases :=
  repeat match goal with
    | H : _ \/ _ |- _ => destruct H as [H|H]
    | H : False |- _ => destruct H
    end.

Ltac published_cases :=
  intros l; unfold in_course_published; simpl; split;
  [ let Hl := fresh "Hl" in intros Hl; split_cases; subst l;
    eexists; eexists;
    (split; [pick_row|]); (split; [reflexivity|]); (split; [reflexivity|]);
    (split; [pick_row|]); (split; [reflexivity|]); simpl; tauto
  | intros [? [? [? [? [? [? [? ?]]]]]]];
    split_cases; subst; simpl in *; try discriminate;
    split_cases; subst; simpl in *; try discriminate; auto ].

Lemma two_lesson_store_progress :
  calculate_course_progress two_lesson_store 7 1 = 50%Q.
Proof. reflexivity. Qed.



Lemma course_progress_no_published_lessons (st : Store) (student course : nat) :
  published_lessons st course = [] ->
  calculate_course_progress st student course = 0%Q.
Proof.
  intros H. unfold calculate_course_progress. now rewrite H.
Qed.

(** ** Marking a lesson as completed *)

Lemma filter_none {A : Type} (f : A -> bool) (l : list A) :
  (forall x, In x l -> f x = false) -> filter f l = [].
Proof.
  induction l as [|a l IH]; simpl; intros H; [reflexivity|].
  rewrite (H a (or_introl eq_refl)). apply IH. intros x Hx. apply H. now right.
Qed.

Lemma NoDup_map_split {A B : Type} (f : A -> B) (l1 l2 : list A) (x : A) :
  NoDup (map f (l1 ++ x :: l2)) ->
  (forall y, In y l1 -> f y <> f x) /\ (forall y, In y l2 -> f y <> f x).
Proof.
  rewrite map_app. simpl. intros H. apply NoDup_remove_2 in H.
  split; intros y Hy Heq; apply H; apply in_or_app; [left|right];
    rewrite <- Heq; now apply in_map.
Qed.

Lemma next_id_fresh {A : Type} (pk : A -> nat) (rows : list A) (r : A) :
  In r rows -> pk r < next_id pk rows.
Proof.
  unfold next_id. induction rows as [|a rows IH]; simpl; [easy|].
  intros [->|H]; [lia|]. specialize (IH H). lia.
Qed.

Lemma save_other {A : Type} (pk : A -> nat) (row : A) (rows : list A) :
  (forall r, In r rows -> pk r <> pk row) -> save pk row rows = rows.
Proof.
  unfold save. induction rows as [|a rows IH]; simpl; intros H; [reflexivity|].
  destruct (Nat.eqb_spec (pk a) (pk row)) as [E|_].
  - exfalso. apply (H a); auto.
  - f_equal. apply IH. intros r Hr. apply H. now right.
Qed.

Lemma save_in_place {A : Type} (pk : A -> nat) (row old : A) (l1 l2 : list A) :
  pk row = pk old ->
  NoDup (map pk (l1 ++ old :: l2)) ->
  save pk row (l1 ++ old :: l2) = (l1 ++ row :: l2)%list.
Proof.
  intros Hpk Hnd. apply NoDup_map_split in Hnd. destruct Hnd as [H1 H2].
  unfold save. rewrite map_app. simpl.
  rewrite Hpk, Nat.eqb_refl. f_equal; [|f_equal].
  - rewrite <- Hpk. apply save_other. intros r Hr. rewrite Hpk. now apply H1.
  - rewrite <- Hpk. apply save_other. intros r Hr. rewrite Hpk. now apply H2.
Qed.

Lemma save_appended {A : Type} (pk : A -> nat) (row old : A) (rows : list A) :
  pk row = pk old ->
  (forall r, In r rows -> pk r <> pk row) ->
  save pk row (rows ++ [old]) = (rows ++ [row])%list.
Proof.
  intros Hpk Hfresh. rewrite <- (save_other pk row rows Hfresh) at 2.
  unfold save. rewrite map_app. simpl. now rewrite Hpk, Nat.eqb_refl.
Qed.

Lemma rows_for_cases (st : Store) (student lesson : nat) :
  progress_unique st ->
  rows_for st student lesson = []
  \/ exists p l1 l2,
       progresses st = (l1 ++ p :: l2)%list
       /\ rows_for st student lesson = [p]
       /\ progress_student p = student /\ progress_lesson p = lesson
       /\ rows_for (set_progresses st l1) student lesson = []
       /\ rows_for (set_progresses st l2) student lesson = [].
Proof.
  unfold progress_unique, rows_for. intros Hu.
  destruct (filter _ (progresses st)) as [|p rest] eqn:E; [now left|right].
  assert (Hp : In p (p :: rest)) by now left.
  rewrite <- E in Hp. apply filter_In in Hp. destruct Hp as [Hin Hkey].
  apply andb_prop in Hkey. destruct Hkey as [Hs Hl].
  apply Nat.eqb_eq in Hs, Hl.
  destruct (in_split _ _ Hin) as [l1 [l2 Hsplit]].
  rewrite Hsplit in Hu. apply NoDup_map_split in Hu. destruct Hu as [H1 H2].
  assert (Hnone : forall l0, (forall y, In y l0 ->
            (progress_student y, progress_lesson y)
            <> (progress_student p, progress_lesson p)) ->
          filter (fun q => (progress_student q =? student)
                           && (progress_lesson q =? lesson)) l0 = []).
  { intros l0 H0. apply filter_none. intros y Hy.
    destruct (Nat.eqb_spec (progress_student y) student) as [Es|]; [|reflexivity].
    destruct (Nat.eqb_spec (progress_lesson y) lesson) as [El|]; [|reflexivity].
    exfalso. apply (H0 y Hy). congruence. }
  exists p, l1, l2. simpl.
  rewrite <- E, Hsplit, filter_app. simpl.
  rewrite (Hnone l1 H1), (Hnone l2 H2), Hs, Hl, !Nat.eqb_refl. simpl.
  repeat split; auto.
Qed.

Section MarkCompleted.

Variable st : Store.
Variable now : Z.
Variables student course lesson : nat.

Hypothesis Hu : progress_unique st.
Hypothesis Hpk : progress_pk_unique st.
Hypothesis Hrec : recorded_under st student lesson course.

Lemma lookup_is_rows_for :
  filter
    (fun p =>
       (progress_student p =? student) && (progress_course p =? course)
       && (progress_lesson p =? lesson))
    (progresses st)
  = rows_for st student lesson.
Proof.
  unfold rows_for. apply filter_ext_in. intros p Hp.
  destruct (Nat.eqb_spec (progress_student p) student) as [Es|]; [|reflexivity].
  destruct (Nat.eqb_spec (progress_lesson p) lesson) as [El|];
    [|now rewrite andb_false_r].
  rewrite (Hrec p Hp Es El), Nat.eqb_refl. reflexivity.
Qed.

Lemma mark_lesson_as_completed_ok :
  exists p st',
    mark_lesson_as_completed st now student course lesson = Ok (p, st')
    /\ rows_for st' student lesson = [p]
    /\ is_completed p = true /\ progress_percentage p = 100
    /\ completed_at p = Some now /\ last_accessed p = now
    /\ progress_course p = course
    /\ progress_unique st' /\ progress_pk_unique st'
    /\ recorded_under st' student lesson course.
Proof.
  unfold mark_lesson_as_completed, get_or_create.
  rewrite lookup_is_rows_for.
  destruct (rows_for_cases st student lesson Hu)
    as [Hnone | [p [l1 [l2 [Hsplit [Hrows [Hs [Hl [Hl1 Hl2]]]]]]]]].
  - (* no row yet: one is inserted, then saved *)
    rewrite Hnone.
    assert (Hv : violates_unique st student lesson = false).
    { unfold violates_unique. destruct (existsb _ _) eqn:E; [|reflexivity].
      apply existsb_exists in E. destruct E as [x [Hx Hk]].
      assert (In x (rows_for st student lesson)) by (apply filter_In; auto).
      rewrite Hnone in H. destruct H. }
    rewrite Hv. simpl.
    set (fresh := next_id progress_id (progresses st)).
    set (p' := mkProgress fresh student course lesson true 100 (Some now) now).
    assert (Hfresh : forall r, In r (progresses st) -> progress_id r <> fresh).
    { intros r Hr. pose proof (next_id_fresh progress_id _ r Hr). subst fresh. lia. }
    assert (Hsave : save progress_id p' (progresses st ++ [p']) = (progresses st ++ [p'])%list).
    { apply save_appended; [reflexivity | exact Hfresh]. }
    exists p'. eexists. split; [reflexivity|].
    simpl. rewrite Hsave.
    repeat split; try reflexivity.
    + unfold rows_for. simpl. rewrite filter_app. fold (rows_for st student lesson).
      rewrite Hnone. simpl. now rewrite !Nat.eqb_refl.
    + unfold progress_unique. simpl. rewrite map_app. simpl.
      apply NoDup_app; [exact Hu | repeat constructor; intros [] |].
      intros a Ha [Hb|[]]. apply in_map_iff in Ha. destruct Ha as [x [Hx Hin]].
      assert (In x (rows_for st student lesson)).
      { apply filter_In. split; [assumption|]. rewrite <- Hb in Hx.
        inversion Hx. now rewrite !Nat.eqb_refl. }
      rewrite Hnone in H. destruct H.
    + unfold progress_pk_unique. simpl. rewrite map_app. simpl.
      apply NoDup_app; [exact Hpk | repeat constructor; intros [] |].
      intros a Ha [Hb|[]]. apply in_map_iff in Ha. destruct Ha as [x [Hx Hin]].
      apply (Hfresh x Hin). now rewrite Hx, <- Hb.
    + intros q Hq Hqs Hql. simpl in Hq. apply in_app_or in Hq.
      destruct Hq as [Hq|[<-|[]]]; [now apply Hrec | reflexivity].
  - (* the row exists: it is saved in place *)
    rewrite Hrows. simpl.
    assert (Hc : progress_course p = course).
    { apply Hrec; auto. rewrite Hsplit. apply in_or_app. right. now left. }
    set (p' := mkProgress (progress_id p) (progress_student p) (progress_course p)
                 (progress_lesson p) true 100 (Some now) now).
    assert (Hsave : save progress_id p' (progresses st) = (l1 ++ p' :: l2)%list).
    { rewrite Hsplit. apply save_in_place; [reflexivity|].
      unfold progress_pk_unique in Hpk. now rewrite Hsplit in Hpk. }
    exists p'. eexists. split; [reflexivity|].
    simpl. rewrite Hsave.
    repeat split; try reflexivity; try assumption.
    + unfold rows_for in *. simpl in *. rewrite filter_app. simpl.
      rewrite Hl1, Hl2, Hs, Hl, !Nat.eqb_refl. reflexivity.
    + unfold progress_unique in *. simpl. rewrite Hsplit in Hu.
      rewrite map_app in *. exact Hu.
    + unfold progress_pk_unique in *. simpl. rewrite Hsplit in Hpk.
      rewrite map_app in *. exact Hpk.
    + intros q Hq Hqs Hql. simpl in Hq. apply in_app_or in Hq.
      destruct Hq as [Hq|[<-|Hq]].
      * apply Hrec; auto. rewrite Hsplit. apply in_or_app. now left.
      * exact Hc.
      * apply Hrec; auto. rewrite Hsplit. apply in_or_app. right. now right.
Qed.

End MarkCompleted.

(** Marking twice: both calls return, and after the second the student has
    exactly one row for the lesson, completed at 100%, as after the first. *)
Lemma mark_lesson_as_completed_twice
    (st : Store) (now1 now2 : Z) (student course lesson : nat) :
  progress_unique st -> progress_pk_unique st ->
  recorded_under st student lesson course ->
  exists p1 st1 p2 st2,
    mark_lesson_as_completed st now1 student course lesson = Ok (p1, st1)
    /\ mark_lesson_as_completed st1 now2 student course lesson = Ok (p2, st2)
    /\ rows_for st1 student lesson = [p1]
    /\ rows_for st2 student lesson = [p2]
    /\ is_completed p1 = true /\ progress_percentage p1 = 100
    /\ is_completed p2 = true /\ progress_percentage p2 = 100.
Proof.
  intros Hu Hpk Hrec.
  destruct (mark_lesson_as_completed_ok st now1 student course lesson Hu Hpk Hrec)
    as [p1 [st1 [E1 [R1 [C1 [P1 [_ [_ [_ [Hu1 [Hpk1 Hrec1]]]]]]]]]]].
  destruct (mark_lesson_as_completed_ok st1 now2 student course lesson Hu1 Hpk1 Hrec1)
    as [p2 [st2 [E2 [R2 [C2 [P2 _]]]]]].
  exists p1, st1, p2, st2. repeat split; assumption.
Qed.

(** C6 (failing input): student 7 has an unfinished row for lesson 1
    recorded under course 2.  Marking the lesson as completed for course 1
    looks the row up by (student, course, lesson), misses it, and the insert
    is refused by the unique constraint on (student, lesson): the call
    raises, twice in a row, and the student's single row for the lesson is
    still not completed. *)
Theorem mark_lesson_as_completed_other_course :
  progress_unique other_course_store
  /\ mark_lesson_as_completed other_course_store 10 7 1 1 = Raise IntegrityError
  /\ after_mark (after_mark other_course_store 10 7 1 1) 20 7 1 1 = other_course_store
  /\ rows_for other_course_store 7 1 = [other_course_row]
  /\ is_completed other_course_row = false
  /\ progress_percentage other_course_row = 0.
Proof.
  split.
  - unfold progress_unique. simpl. repeat constructor. intros [].
  - repeat split; reflexivity.
Qed.

(** ** Starting an attempt *)

Import Assessments.

Section AssessmentStart.

Variable st : Store.
Variable now : Z.
Variable id : nat.
Variable request : Request.
Variable school_user : SchoolUser.
Variable school : School.
Variable assessment : Assessment.

Hypothesis Hfound : get_assessment st id school = Ok assessment.

Lemma is_enrolled_spec :
  is_enrolled st (assessment_course assessment) (su_id school_user) = true
  <-> exists e, In e (enrollments st)
                /\ enrollment_course e = assessment_course assessment
                /\ enrollment_student e = su_id school_user.
Proof.
  unfold is_enrolled. rewrite existsb_exists.
  split; intros [e [Hin H]]; exists e; split; try assumption.
  - apply andb_prop in H. destruct H as [H1 H2].
    now apply Nat.eqb_eq in H1, H2.
  - destruct H as [-> ->]. now rewrite !Nat.eqb_refl.
Qed.

Lemma window_spec :
  before now (open_at assessment) = false /\ after now (close_at assessment) = false
  <-> within_window now assessment.
Proof.
  unfold within_window, before, after.
  destruct (open_at assessment) as [o|], (close_at assessment) as [c|]; split.
  all: intros [H1 H2]; split.
  all: try reflexivity.
  all: try (intros ? [= <-]).
  all: try discriminate.
  all: try (apply Z.ltb_ge; auto; fail).
  all: try (apply Z.ltb_ge in H1; exact H1).
  all: try (apply Z.ltb_ge in H2; exact H2).
Qed.

Lemma start_allowed_reflect :
  start_allowed st now assessment school_user
  <-> String.eqb (su_role school_user) "student"
      && is_enrolled st (assessment_course assessment) (su_id school_user)
      && negb (attempts_allowed assessment
               <=? List.length
                     (attempts_of st (assessment_id assessment) (su_id school_user)))
      && negb (before now (open_at assessment))
      && negb (after now (close_at assessment)) = true.
Proof.
  unfold start_allowed.
  rewrite !andb_true_iff, !negb_true_iff, String.eqb_eq, is_enrolled_spec,
    Nat.leb_gt, <- window_spec.
  tauto.
Qed.

Lemma start_allowed_decidable :
  start_allowed st now assessment school_user
  \/ ~ start_allowed st now assessment school_user.
Proof.
  rewrite start_allowed_reflect. destruct (_ && _); [now left | now right].
Qed.

Lemma assessment_start_cases :
  (start_allowed st now assessment school_user ->
   assessment_start st now id request school_user school
   = start_created st now assessment school_user)
  /\ (~ start_allowed st now assessment school_user ->
      assessment_start st now id request school_user school
      = start_rejected st assessment).
Proof.
  rewrite start_allowed_reflect.
  unfold assessment_start, start_created, start_rejected. rewrite Hfound. simpl.
  destruct (String.eqb (su_role school_user) "student"); simpl;
    [|split; [discriminate | reflexivity]].
  destruct (is_enrolled st _ _); simpl; [|split; [discriminate | reflexivity]].
  destruct (attempts_allowed assessment <=? _); simpl;
    [split; [discriminate | reflexivity]|].
  destruct (before now _); simpl; [split; [discriminate | reflexivity]|].
  destruct (after now _); simpl; [split; [discriminate | reflexivity]|].
  split; [reflexivity | intros H; now elim H].
Qed.


End AssessmentStart.

(** Through the decorators: whoever sends the request, the store changes
    only by the attempt a permitted start creates. *)
Lemma assessment_start_route_guard
    (st : Store) (now : Z) (slug : string) (id : nat) (request : Request)
    (out : Outcome) :
  assessment_start_route st now slug id request = Ok out ->
  store out = st
  \/ exists u school_user school assessment,
       user request = Some u
       /\ get_school_user st slug u = Ok (Some (school_user, school))
       /\ get_assessment st id school = Ok assessment
       /\ start_allowed st now assessment school_user
       /\ Ok out = start_created st now assessment school_user.
Proof.
  unfold assessment_start_route, login_required, school_context_required.
  destruct (user request) as [u|] eqn:Hu; [|intros [= <-]; now left].
  destruct (get_school_user st slug u) as [[[su school]|]|] eqn:Hm; cbn [bind];
    [| intros [= <-]; now left | discriminate].
  destruct (get_assessment st id school) as [a|] eqn:Ha.
  - destruct (assessment_start_cases st now id request su school a Ha) as [Hyes Hno].
    destruct (start_allowed_decidable st now su a) as [Hok|Hko]; intros Hout.
    + right. exists u, su, school, a. rewrite <- Hout, <- (Hyes Hok). auto.
    + rewrite (Hno Hko) in Hout. injection Hout as <-. now left.
  - unfold assessment_start. rewrite Ha. discriminate.
Qed.

(** ** Submitting an attempt *)

Lemma Qplus_0_r_eq (x : Q) : (x + 0)%Q = x.
Proof.
  destruct x as [n d]. unfold Qplus. simpl.
  now rewrite Z.mul_1_r, Z.add_0_r, Pos.mul_1_r.
Qed.

Lemma Qplus_0_l_eq (x : Q) : (0 + x)%Q = x.
Proof.
  destruct x as [n d]. unfold Qplus. simpl. now rewrite Z.mul_1_r.
Qed.

Lemma Qplus_assoc_eq (x y z : Q) : (x + (y + z))%Q = (x + y + z)%Q.
Proof.
  destruct x, y, z. unfold Qplus. simpl. f_equal.
  - rewrite !Pos2Z.inj_mul. ring.
  - apply Pos.mul_assoc.
Qed.

Lemma Qplus_comm_eq (x y : Q) : (x + y)%Q = (y + x)%Q.
Proof.
  destruct x, y. unfold Qplus. simpl. f_equal.
  - ring.
  - apply Pos.mul_comm.
Qed.

Lemma save_fresh_row {A : Type} (pk : A -> nat) (rows : list A) (old row : A) :
  pk old = next_id pk rows -> pk row = pk old ->
  save pk row (rows ++ [old]) = (rows ++ [row])%list.
Proof.
  intros Hold Hrow. apply save_appended; [assumption|].
  intros r Hr. pose proof (next_id_fresh pk rows r Hr). lia.
Qed.

Lemma next_id_app {A : Type} (pk : A -> nat) (rows : list A) (row : A) :
  pk row = next_id pk rows -> next_id pk (rows ++ [row]) = S (next_id pk rows).
Proof.
  unfold next_id. intros H. f_equal. rewrite map_app. simpl.
  induction rows as [|a rows IH]; simpl in *; [lia|].
  assert (Hmax : forall l x, fold_right Nat.max 0 (l ++ [x])
                             = Nat.max (fold_right Nat.max 0 l) x).
  { clear. induction l as [|b l IHl]; simpl; intros x; [lia|]. rewrite IHl. lia. }
  rewrite Hmax. simpl. lia.
Qed.

Section Submission.

Variable request : Request.
Variable attempt : Attempt.

Lemma take_question_fresh (T S : Q) (st : Store) (q : Question) :
  answers_for st (attempt_id attempt) (question_id q) = [] ->
  submittable request q ->
  take_question request attempt (T, S, st) q
  = Ok ((T + points q)%Q,
        if answered_correctly st request q then (S + points q)%Q else S,
        set_answers st
          (answers st
           ++ [submitted_row st request (next_id answer_id (answers st))
                 (attempt_id attempt) q])).
Proof.
  intros Hnone Hsub.
  unfold take_question, answer_get_or_create. rewrite Hnone. simpl.
  unfold answered_correctly, submitted_row, chosen, submittable in *.
  destruct (is_objective q) eqn:Hobj; simpl.
  - destruct (get (POST request) (field_name q)) as [[|c v]|] eqn:Hget;
      try reflexivity.
    unfold choice_get.
    destruct (Hsub eq_refl _ eq_refl) as [Hempty|Hint]; [discriminate|].
    destruct (int (String c v)) as [n|]; [|contradiction]. simpl.
    destruct (find _ (choices st)) as [ch|]; [|reflexivity].
    unfold save_answer. simpl.
    rewrite (save_fresh_row answer_id (answers st)) by reflexivity.
    destruct (choice_is_correct ch); reflexivity.
  - destruct (String.eqb (question_type q) "essay").
    { unfold save_answer. simpl.
      rewrite (save_fresh_row answer_id (answers st)) by reflexivity.
      reflexivity. }
    destruct (String.eqb (question_type q) "file"); [|reflexivity].
    unfold save_answer. simpl.
    rewrite (save_fresh_row answer_id (answers st)) by reflexivity.
    reflexivity.
Qed.

Lemma chosen_ext (st st' : Store) (q : Question) :
  choices st' = choices st -> chosen st' request q = chosen st request q.
Proof. unfold chosen. now intros ->. Qed.

Lemma submitted_rows_ext (st st' : Store) (id a : nat) (qs : list Question) :
  choices st' = choices st ->
  submitted_rows st' request id a qs = submitted_rows st request id a qs.
Proof.
  intros H. revert id. induction qs as [|q qs IH]; intros id; simpl; [reflexivity|].
  rewrite IH. unfold submitted_row. now rewrite (chosen_ext st st' q H).
Qed.

Lemma answered_correctly_ext (st st' : Store) (q : Question) :
  choices st' = choices st ->
  answered_correctly st' request q = answered_correctly st request q.
Proof. intros H. unfold answered_correctly. now rewrite (chosen_ext st st' q H). Qed.

Lemma submitted_row_keys (st : Store) (id a : nat) (q : Question) :
  answer_attempt (submitted_row st request id a q) = a
  /\ answer_question (submitted_row st request id a q) = question_id q
  /\ answer_id (submitted_row st request id a q) = id.
Proof.
  unfold submitted_row.
  destruct (is_objective q); [destruct (chosen st request q)|];
    repeat match goal with |- context [if ?b then _ else _] => destruct b end;
    simpl; auto.
Qed.

(** The loop on an attempt that has no answer yet. *)
Lemma take_loop_fresh (qs : list Question) :
  forall (T S : Q) (st : Store),
    Forall (submittable request) qs ->
    NoDup (map question_id qs) ->
    (forall q, In q qs ->
               answers_for st (attempt_id attempt) (question_id q) = []) ->
    take_loop request attempt (T, S, st) qs
    = Ok ((T + total_points qs)%Q,
          (S + earned_points st request qs)%Q,
          set_answers st
            (answers st
             ++ submitted_rows st request (next_id answer_id (answers st))
                  (attempt_id attempt) qs)).
Proof.
  induction qs as [|q qs IH]; intros T S st Hsub Hnd Hnone.
  - simpl. unfold total_points, earned_points. simpl.
    rewrite !Qplus_0_r_eq, app_nil_r. destruct st; reflexivity.
  - cbn [take_loop]. rewrite take_question_fresh;
      [| apply Hnone; now left | now inversion Hsub]. cbn [bind].
    set (row := submitted_row st request (next_id answer_id (answers st))
                  (attempt_id attempt) q).
    set (st1 := set_answers st (answers st ++ [row])).
    inversion Hsub as [|? ? Hq Hsub']; subst.
    inversion Hnd as [|? ? Hnotin Hnd']; subst.
    destruct (submitted_row_keys st (next_id answer_id (answers st))
                (attempt_id attempt) q) as [Ka [Kq Ki]].
    rewrite IH; [| assumption | assumption |].
    + f_equal. f_equal; [f_equal|].
      * unfold total_points. simpl. now rewrite Qplus_assoc_eq.
      * unfold earned_points. simpl.
        assert (Hext : filter (answered_correctly st1 request) qs
                       = filter (answered_correctly st request) qs).
        { apply filter_ext. intros x. now apply answered_correctly_ext. }
        rewrite Hext.
        destruct (answered_correctly st request q); simpl;
          [now rewrite Qplus_assoc_eq | reflexivity].
      * subst st1. simpl.
        rewrite (next_id_app answer_id (answers st) row) by exact Ki.
        rewrite (submitted_rows_ext st) by reflexivity.
        rewrite <- app_assoc. reflexivity.
    + intros q' Hq'. unfold answers_for. subst st1 row. simpl.
      rewrite filter_app. fold (answers_for st (attempt_id attempt) (question_id q')).
      rewrite (Hnone q' (or_intror Hq')). simpl.
      rewrite Ka, Kq, Nat.eqb_refl. simpl.
      destruct (Nat.eqb_spec (question_id q) (question_id q')) as [E|]; [|reflexivity].
      exfalso. apply Hnotin. rewrite E. now apply in_map.
Qed.

End Submission.

Lemma insert_by_perm {A : Type} (leb : A -> A -> bool) (x : A) (l : list A) :
  Permutation (insert_by leb x l) (x :: l).
Proof.
  induction l as [|y l IH]; simpl; [reflexivity|].
  destruct (leb x y); [reflexivity|].
  rewrite IH. apply perm_swap.
Qed.

Lemma sort_by_perm {A : Type} (leb : A -> A -> bool) (l : list A) :
  Permutation (sort_by leb l) l.
Proof.
  induction l as [|x l IH]; simpl; [reflexivity|].
  rewrite insert_by_perm. now constructor.
Qed.

Lemma find_save {A : Type} (pk : A -> nat) (row old : A) (rows : list A) :
  In old rows -> pk old = pk row ->
  find (fun r => pk r =? pk row) (save pk row rows) = Some row.
Proof.
  intros Hin Hpk. induction rows as [|a rows IH]; simpl in *; [easy|].
  destruct (Nat.eqb_spec (pk a) (pk row)) as [E|N]; simpl.
  - now rewrite Nat.eqb_refl.
  - destruct (Nat.eqb_spec (pk a) (pk row)); [contradiction|].
    apply IH. destruct Hin as [->|Hin]; [contradiction | assumption].
Qed.

Lemma questions_ordered_perm (st : Store) (a : nat) :
  Permutation (questions_ordered st a) (questions_of st a).
Proof. apply sort_by_perm. Qed.

Lemma questions_ordered_NoDup (st : Store) (a : nat) :
  NoDup (map question_id (questions st)) ->
  NoDup (map question_id (questions_ordered st a)).
Proof.
  intros H.
  eapply Permutation_NoDup.
  - apply Permutation_map. symmetry. apply questions_ordered_perm.
  - now apply unique_key_filter.
Qed.

Lemma get_attempt_found (st : Store) (pk a s : nat) (attempt : Attempt) :
  get_attempt st pk a s = Ok attempt ->
  In attempt (attempts st) /\ attempt_id attempt = pk.
Proof.
  unfold get_attempt. destruct (find _ _) eqn:E; [|discriminate].
  intros [= <-]. apply find_some in E. destruct E as [Hin H].
  repeat (apply andb_prop in H; destruct H as [H ?]).
  apply Nat.eqb_eq in H. auto.
Qed.

Section TakeSubmission.

Variable st : Store.
Variable now : Z.
Variables id attempt_pk : nat.
Variable request : Request.
Variable school_user : SchoolUser.
Variable school : School.
Variable assessment : Assessment.
Variable attempt : Attempt.

Hypothesis Hassessment : get_assessment st id school = Ok assessment.
Hypothesis Hattempt :
  get_attempt st attempt_pk (assessment_id assessment) (su_id school_user) = Ok attempt.
Hypothesis Hprogress : is_submitted attempt = false.
Hypothesis Htime : timed_out assessment attempt now = false.
Hypothesis Hpost : method request = "POST".
Hypothesis Hquestions : NoDup (map question_id (questions st)).
Hypothesis Hfresh :
  forall x, In x (answers st) -> answer_attempt x <> attempt_id attempt.
Hypothesis Hvalues :
  Forall (submittable request) (questions_of st (assessment_id assessment)).

(** The store a submission leaves. *)
Lemma assessment_take_submits :
  let qs := questions_ordered st (assessment_id assessment) in
  let st1 :=
    set_answers st
      (answers st
       ++ submitted_rows st request (next_id answer_id (answers st))
            (attempt_id attempt) qs) in
  assessment_take st now id attempt_pk request school_user school
  = Ok (mkOutcome
          (Redirect "assessment_result" [assessment_id assessment; attempt_id attempt])
          []
          (set_attempts st1
             (save attempt_id
                (with_submission attempt (Some now)
                   (Some (submission_score st request qs)))
                (attempts st)))).
Proof.
  intros qs st1.
  unfold assessment_take. rewrite Hassessment. cbn [bind].
  rewrite Hattempt. cbn [bind].
  rewrite Hprogress, Htime, Hpost. cbn [String.eqb Ascii.eqb Bool.eqb].
  fold qs.
  rewrite (take_loop_fresh request attempt qs).
  - cbn [bind]. rewrite !Qplus_0_l_eq. reflexivity.
  - eapply Permutation_Forall; [|exact Hvalues].
    symmetry. apply questions_ordered_perm.
  - now apply questions_ordered_NoDup.
  - intros q _. apply filter_none. intros x Hx.
    destruct (Nat.eqb_spec (answer_attempt x) (attempt_id attempt)) as [E|];
      [|reflexivity].
    now elim (Hfresh x Hx).
Qed.


End TakeSubmission.

Ltac values_submittable :=
  simpl;
  repeat (apply Forall_cons;
          [unfold submittable; simpl; intros _ ? [= <-];
           ((left; reflexivity) || (right; discriminate))|]);
  apply Forall_nil.




(** ** One answer row per question *)

Lemma submitted_rows_attempt (st : Store) (request : Request) (a : nat)
    (qs : list Question) :
  forall n x, In x (submitted_rows st request n a qs) -> answer_attempt x = a.
Proof.
  induction qs as [|q qs IH]; simpl; intros n x; [easy|].
  intros [<-|Hin]; [apply (submitted_row_keys request) | eapply IH; eassumption].
Qed.

Lemma submitted_rows_other_question (st : Store) (request : Request) (a qid : nat)
    (qs : list Question) :
  ~ In qid (map question_id qs) ->
  forall n,
    filter (fun x => answer_question x =? qid) (submitted_rows st request n a qs) = [].
Proof.
  induction qs as [|q qs IH]; simpl; intros Hnotin n; [reflexivity|].
  destruct (submitted_row_keys request st n a q) as [_ [Kq _]]. rewrite Kq.
  destruct (Nat.eqb_spec (question_id q) qid) as [E|_]; [tauto|].
  apply IH. tauto.
Qed.

Lemma submitted_rows_question (st : Store) (request : Request) (a : nat)
    (qs : list Question) :
  NoDup (map question_id qs) ->
  forall q n,
    In q qs ->
    exists n',
      filter (fun x => answer_question x =? question_id q)
        (submitted_rows st request n a qs)
      = [submitted_row st request n' a q].
Proof.
  induction qs as [|q0 qs IH]; simpl; intros Hnd q n Hin; [easy|].
  apply NoDup_cons_iff in Hnd. destruct Hnd as [Hhead Hnd].
  destruct (submitted_row_keys request st n a q0) as [_ [Kq _]]. rewrite Kq.
  destruct Hin as [->|Hin].
  - rewrite Nat.eqb_refl. exists n.
    now rewrite submitted_rows_other_question.
  - destruct (Nat.eqb_spec (question_id q0) (question_id q)) as [E|_].
    + exfalso. apply Hhead. rewrite E. now apply in_map.
    + now apply IH.
Qed.

Lemma submitted_row_blank (st : Store) (request : Request) (n a : nat) (q : Question) :
  is_objective q = true -> chosen st request q = None ->
  answer_choice (submitted_row st request n a q) = None
  /\ answer_is_correct (submitted_row st request n a q) = false.
Proof.
  intros Hobj Hnone. unfold submitted_row. now rewrite Hobj, Hnone.
Qed.

Section SubmissionRows.

Variable st : Store.
Variable now : Z.
Variables id attempt_pk : nat.
Variable request : Request.
Variable school_user : SchoolUser.
Variable school : School.
Variable assessment : Assessment.
Variable attempt : Attempt.

Hypothesis Hassessment : get_assessment st id school = Ok assessment.
Hypothesis Hattempt :
  get_attempt st attempt_pk (assessment_id assessment) (su_id school_user) = Ok attempt.
Hypothesis Hprogress : is_submitted attempt = false.
Hypothesis Htime : timed_out assessment attempt now = false.
Hypothesis Hpost : method request = "POST".
Hypothesis Hquestions : NoDup (map question_id (questions st)).
Hypothesis Hfresh :
  forall x, In x (answers st) -> answer_attempt x <> attempt_id attempt.
Hypothesis Hvalues :
  Forall (submittable request) (questions_of st (assessment_id assessment)).


End SubmissionRows.

(** *** Attempts in progress have no answers *)

Lemma save_In {A : Type} (pk : A -> nat) (row : A) (rows : list A) (r : A) :
  In r (save pk row rows) ->
  r = row \/ (In r rows /\ pk r <> pk row).
Proof.
  unfold save. rewrite in_map_iff. intros [r0 [E Hin]].
  destruct (Nat.eqb_spec (pk r0) (pk row)) as [_|N]; subst; auto.
Qed.

Lemma save_ids {A : Type} (pk : A -> nat) (row : A) (rows : list A) :
  map pk (save pk row rows) = map pk rows.
Proof.
  unfold save. rewrite map_map. apply map_ext. intros r.
  destruct (Nat.eqb_spec (pk r) (pk row)) as [E|_]; congruence.
Qed.

Lemma assessment_start_keeps_unanswered
    (st : Store) (now : Z) (id : nat) (request : Request)
    (school_user : SchoolUser) (school : School) (out : Outcome) :
  in_progress_unanswered st -> answers_reference_attempts st ->
  assessment_start st now id request school_user school = Ok out ->
  in_progress_unanswered (store out) /\ answers_reference_attempts (store out).
Proof.
  intros Hinv Hfk Hout. unfold assessment_start in Hout.
  destruct (get_assessment st id school) as [a|]; [|discriminate].
  cbn [bind] in Hout.
  repeat match type of Hout with
    | (if ?b then _ else _) = _ =>
        destruct b; [injection Hout as <-; now split|]
    end.
  injection Hout as <-. cbn [store attempts answers set_attempts]. split.
  - intros b x Hb Hsub Hx. apply in_app_or in Hb. destruct Hb as [Hb|[<-|[]]].
    + now apply Hinv.
    + cbn [attempt_id]. destruct (Hfk x Hx) as [a0 [Ha0 <-]].
      pose proof (next_id_fresh attempt_id _ a0 Ha0). lia.
  - intros x Hx. destruct (Hfk x Hx) as [a0 [Ha0 E]].
    exists a0. split; [apply in_or_app; now left | exact E].
Qed.

Lemma assessment_take_keeps_unanswered
    (st : Store) (now : Z) (id attempt_pk : nat) (request : Request)
    (school_user : SchoolUser) (school : School)
    (assessment : Assessment) (attempt : Attempt) (out : Outcome) :
  get_assessment st id school = Ok assessment ->
  get_attempt st attempt_pk (assessment_id assessment) (su_id school_user) = Ok attempt ->
  is_submitted attempt = false ->
  timed_out assessment attempt now = false ->
  method request = "POST" ->
  NoDup (map question_id (questions st)) ->
  Forall (submittable request) (questions_of st (assessment_id assessment)) ->
  in_progress_unanswered st -> answers_reference_attempts st ->
  assessment_take st now id attempt_pk request school_user school = Ok out ->
  in_progress_unanswered (store out) /\ answers_reference_attempts (store out).
Proof.
  intros Ha Hat Hsub Htime Hpost Hq Hvalues Hinv Hfk Hout.
  destruct (get_attempt_found _ _ _ _ _ Hat) as [Hin _].
  rewrite (assessment_take_submits st now id attempt_pk request school_user school
             assessment attempt) in Hout; try assumption.
  2:{ intros x Hx. now apply (Hinv attempt x). }
  injection Hout as <-. cbn [store attempts answers set_attempts set_answers].
  split.
  - intros b x Hb Hbsub Hx.
    apply save_In in Hb. destruct Hb as [->|[Hb Hpk]]; [discriminate|].
    cbn [attempt_id with_submission] in Hpk.
    apply in_app_or in Hx. destruct Hx as [Hx|Hx].
    + now apply Hinv.
    + rewrite (submitted_rows_attempt _ _ _ _ _ _ Hx). congruence.
  - intros x Hx. apply in_app_or in Hx. destruct Hx as [Hx|Hx].
    + destruct (Hfk x Hx) as [a0 [Ha0 E]].
      assert (Hid : In (attempt_id a0) (map attempt_id (attempts st)))
        by now apply in_map.
      rewrite <- (save_ids attempt_id
                    (with_submission attempt (Some now)
                       (Some (submission_score st request
                                (questions_ordered st (assessment_id assessment)))))
                    (attempts st)) in Hid.
      apply in_map_iff in Hid. destruct Hid as [a1 [E1 Ha1]].
      exists a1. split; [exact Ha1 | congruence].
    + rewrite (submitted_rows_attempt _ _ _ _ _ _ Hx).
      exists (with_submission attempt (Some now)
                (Some (submission_score st request
                         (questions_ordered st (assessment_id assessment))))).
      split; [|reflexivity].
      unfold save. apply in_map_iff. exists attempt.
      split; [|exact Hin]. cbn. now rewrite Nat.eqb_refl.
Qed.


(** ** Grading *)

Lemma objective_not_manual (q : Question) :
  is_objective q = true -> is_manual q = false.
Proof.
  unfold is_objective, is_manual. intros H.
  apply orb_prop in H. destruct H as [H|H]; apply String.eqb_eq in H; now rewrite H.
Qed.

Lemma Qplus_shuffle (t g o r : Q) : (t + g + (o + r))%Q = (t + (o + (g + r)))%Q.
Proof.
  rewrite (Qplus_assoc_eq o g r), (Qplus_comm_eq o g), <- (Qplus_assoc_eq g o r).
  now rewrite <- Qplus_assoc_eq.
Qed.

Lemma objective_sum_cons (a : Answer) (q : Question) (l : list (Answer * Question)) :
  objective_sum ((a, q) :: l)
  = if is_objective q && answer_is_correct a
    then (points q + objective_sum l)%Q else objective_sum l.
Proof.
  unfold objective_sum. cbn [filter fst snd].
  now destruct (is_objective q && answer_is_correct a).
Qed.

Lemma grade_sum_cons (request : Request) (aq : Answer * Question)
    (l : list (Answer * Question)) :
  grade_sum request (aq :: l)
  = match entered_grade request aq with
    | Some g => (g + grade_sum request l)%Q
    | None => grade_sum request l
    end.
Proof.
  unfold grade_sum. cbn [flat_map].
  now destruct (entered_grade request aq).
Qed.

Lemma grade_loop_total (request : Request) (l : list (Answer * Question)) :
  forall T,
    Forall (gradable request) l ->
    grade_loop request T l = Ok (T + (objective_sum l + grade_sum request l))%Q.
Proof.
  induction l as [|[a q] l IH]; intros T Hl.
  - cbn [grade_loop]. unfold objective_sum, grade_sum. cbn.
    now rewrite Qplus_0_r_eq.
  - inversion Hl as [|? ? Haq Hl']; subst.
    cbn [grade_loop]. rewrite objective_sum_cons, grade_sum_cons.
    unfold grade_answer, entered_grade. cbn [fst snd].
    destruct (is_objective q) eqn:Hobj.
    + rewrite (objective_not_manual q Hobj). cbn [bind andb].
      rewrite IH by assumption.
      destruct (answer_is_correct a); [|reflexivity].
      now rewrite <- !Qplus_assoc_eq.
    + cbn [andb]. destruct (is_manual q) eqn:Hman; [|cbn [bind]; now rewrite IH].
      destruct (get (POST request) (grade_field a)) as [[|c v]|] eqn:Hget;
        try (cbn [bind]; now rewrite IH).
      destruct (Haq Hman _ Hget) as [Hempty|Hfloat]; [discriminate|].
      destruct (float (String c v)) as [g|]; [|contradiction].
      cbn [bind]. rewrite IH by assumption.
      now rewrite Qplus_shuffle.
Qed.

Lemma get_attempt_in_school_found (st : Store) (pk a : nat) (school : School)
    (attempt : Attempt) :
  get_attempt_in_school st pk a school = Ok attempt ->
  In attempt (attempts st) /\ attempt_id attempt = pk.
Proof.
  unfold get_attempt_in_school. destruct (find _ _) eqn:E; [|discriminate].
  intros [= <-]. apply find_some in E. destruct E as [Hin H].
  repeat (apply andb_prop in H; destruct H as [H ?]).
  apply Nat.eqb_eq in H. auto.
Qed.

Section Grading.

Variable st : Store.
Variables id attempt_pk : nat.
Variable request : Request.
Variable school_user : SchoolUser.
Variable school : School.
Variable attempt : Attempt.

Hypothesis Hattempt : get_attempt_in_school st attempt_pk id school = Ok attempt.
Hypothesis Hpost : method request = "POST".
Hypothesis Hgrades :
  Forall (gradable request) (answers_with_question st (attempt_id attempt)).

(** What a POST to [grade_attempt] returns and stores. *)
Lemma grade_attempt_store :
  grade_attempt st id attempt_pk request school_user school
  = Ok (mkOutcome (Redirect "assessment_submissions" [id]) []
          (set_attempts st
             (save attempt_id
                (with_submission attempt (finished_at attempt)
                   (Some
                      (round
                         (objective_sum (answers_with_question st (attempt_id attempt))
                          + grade_sum request
                              (answers_with_question st (attempt_id attempt)))
                         2)))
                (attempts st)))).
Proof.
  unfold grade_attempt. rewrite Hattempt. cbn [bind].
  rewrite Hpost. cbn [String.eqb Ascii.eqb Bool.eqb].
  rewrite grade_loop_total by exact Hgrades. cbn [bind].
  now rewrite Qplus_0_l_eq.
Qed.


End Grading.

Ltac grades_gradable :=
  simpl;
  repeat (apply Forall_cons;
          [unfold gradable; simpl;
           first [ discriminate
                 | intros _ ? [= <-]; ((left; reflexivity) || (right; discriminate))
                 | intros _ ? [=] ]|]);
  apply Forall_nil.


(** ** Who may grade *)

Section AnyRole.

Variable st : Store.
Variable slug : string.
Variables id attempt_pk : nat.
Variable request : Request.
Variable u : nat.
Variable school_user : SchoolUser.
Variable school : School.

Hypothesis Huser : user request = Some u.
Hypothesis Hmember : get_school_user st slug u = Ok (Some (school_user, school)).

Lemma grade_attempt_route_member :
  grade_attempt_route st slug id attempt_pk request
  = grade_attempt st id attempt_pk request school_user school.
Proof.
  unfold grade_attempt_route, login_required, school_context_required.
  now rewrite Huser, Hmember.
Qed.


End AnyRole.


(** The list of submissions, which is behind [teacher_required], turns the
    same student away. *)
Lemma assessment_submissions_refuses_student :
  assessment_submissions_route essay_store "escola" 1 (get_request 70)
  = Ok (mkOutcome (Redirect "school_dashboard" [])
          [(Warning, "Apenas professores têm acesso a esta página.")] essay_store).
Proof. reflexivity. Qed.

(** ** Deleting a category *)

Import Courses.

Lemma string_app_assoc (s1 s2 s3 : string) : (s1 ++ s2) ++ s3 = s1 ++ (s2 ++ s3).
Proof.
  induction s1 as [|c s1 IH]; simpl; [reflexivity|]. now rewrite IH.
Qed.

Section CategoryDelete.

Variable st : Store.
Variable id : nat.
Variable request : Request.
Variable school_user : SchoolUser.
Variable school : School.
Variable category : Category.

Hypothesis Hfound : find (fun k => category_id k =? id) (categories st) = Some category.
Hypothesis Hpost : method request = "POST".

Lemma found_category_id : category_id category = id.
Proof. apply find_some in Hfound. now apply Nat.eqb_eq. Qed.

(** C8: a POST that deletes a category with no course of the current
    school removes the category; with at least one such course it is
    refused, the store (and so the category row) is left as it was, and the
    warning carries the number of linked courses. *)
Theorem category_delete_guard :
  (courses_count st category school = 0 ->
   category_delete st id request school_user school
   = Ok (mkOutcome (Redirect "category_list" [])
           [(Success, success_text (category_name category))]
           (delete_category st category))
   /\ forall k, In k (categories (delete_category st category)) -> category_id k <> id)
  /\ (1 <= courses_count st category school ->
      category_delete st id request school_user school
      = Ok (mkOutcome (Redirect "category_list" [])
              [(Warning, warning_text category (courses_count st category school))]
              st)
      /\ exists before_count after_count,
           warning_text category (courses_count st category school)
           = before_count ++ str (courses_count st category school) ++ after_count).
Proof.
  unfold category_delete. rewrite Hfound, Hpost. cbn [String.eqb Ascii.eqb Bool.eqb].
  split; intros Hn.
  - rewrite Hn. cbn [Nat.ltb Nat.leb]. split; [reflexivity|].
    intros k Hk. simpl in Hk. apply filter_In in Hk. destruct Hk as [_ Hk].
    apply negb_true_iff, Nat.eqb_neq in Hk. now rewrite <- found_category_id.
  - destruct (Nat.ltb_spec 0 (courses_count st category school)) as [_|]; [|lia].
    split; [reflexivity|].
    unfold warning_text.
    exists ("Não é possível excluir " ++ quote ++ category_name category ++ quote
            ++ " pois existem "), " curso(s) vinculados.".
    now rewrite !string_app_assoc.
Qed.

End CategoryDelete.

(** C8 (witness): category 1 holds a course of the school and stays;
    category 2 holds none and goes. *)
Lemma category_delete_guard_witness :
  (exists before_count after_count,
      category_delete catalog_store 1 (post_request 60 []) admin6 school1
      = Ok (mkOutcome (Redirect "category_list" [])
              [(Warning, before_count ++ "1" ++ after_count)] catalog_store))
  /\ exists st',
       category_delete catalog_store 2 (post_request 60 []) admin6 school1
       = Ok (mkOutcome (Redirect "category_list" [])
               [(Success, success_text "Humanas")] st')
       /\ categories st' = [mkCategory 1 "Exatas"].
Proof.
  split.
  - destruct (proj2 (category_delete_guard catalog_store 1 (post_request 60 [])
                       admin6 school1 (mkCategory 1 "Exatas") eq_refl eq_refl))
      as [E [pre [post Htext]]]; [exact (le_n 1)|].
    exists pre, post. rewrite E, Htext. reflexivity.
  - destruct (proj1 (category_delete_guard catalog_store 2 (post_request 60 [])
                       admin6 school1 (mkCategory 2 "Humanas") eq_refl eq_refl))
      as [E _]; [reflexivity|].
    eexists. split; [exact E | reflexivity].
Defined.

(** ** Malformed numbers in forms *)

(** C7 (failing input): [assessment_create] converts the weight without a
    guard, and [grade_attempt] the grade: a text that is not a number raises
    [ValueError] out of the handler. *)
Theorem malformed_number_propagates (to_python : string -> option Z) :
  assessment_create to_python quiz_store 1 bad_weight teacher8 school1
  = Raise ValueError
  /\ assessment_create_route to_python quiz_store "escola" 1 bad_weight
     = Raise ValueError
  /\ grade_attempt essay_store 1 1 bad_grade teacher8 school1 = Raise ValueError.
Proof. repeat split; reflexivity. Qed.

(** The sibling handlers do catch it: [question_edit] keeps the stored
    order and points, [assessment_edit] reports the failure in a message and
    writes nothing. *)
Lemma question_edit_keeps_values :
  exists st',
    question_edit quiz_store 1 bad_order teacher8 school1
    = Ok (mkOutcome (Redirect "question_list" [1]) [] st')
    /\ find (fun q => question_id q =? 1) (questions st')
       = Some (mkQuestion 1 1 "q1" "multiple_choice" 1 5).
Proof. eexists. split; reflexivity. Qed.

Lemma assessment_edit_reports (to_python : string -> option Z) :
  assessment_edit to_python quiz_store 1 bad_weight teacher8 school1
  = Ok (mkOutcome (Render "assessments/assessment_edit")
          [(Error, "Erro ao salvar a avaliação")] quiz_store).
Proof. reflexivity. Qed.

Lemma parse_or_keep_malformed {A : Type} (parse : string -> option A)
    (s : string) (current : A) :
  parse s = None -> parse_or_keep parse (Some s) current = current.
Proof. intros H. unfold parse_or_keep. now rewrite H. Qed.

(** ** Statistics *)

Lemma insert_by_sorted {A : Type} (leb : A -> A -> bool) (x : A) (l : list A) :
  (forall a b, leb a b = false -> leb b a = true) ->
  Sorted (fun a b => leb a b = true) l ->
  Sorted (fun a b => leb a b = true) (insert_by leb x l).
Proof.
  intros Htotal. induction l as [|y l IH]; simpl; intros Hs.
  - repeat constructor.
  - destruct (leb x y) eqn:E.
    + constructor; [assumption | now constructor].
    + apply Sorted_inv in Hs. destruct Hs as [Hs Hhd].
      constructor; [now apply IH|].
      destruct l as [|z l]; simpl.
      * constructor. now apply Htotal.
      * destruct (leb x z); constructor;
          [now apply Htotal | now apply HdRel_inv in Hhd].
Qed.

Lemma sort_by_sorted {A : Type} (leb : A -> A -> bool) (l : list A) :
  (forall a b, leb a b = false -> leb b a = true) ->
  Sorted (fun a b => leb a b = true) (sort_by leb l).
Proof.
  intros Htotal. induction l as [|x l IH]; simpl; [constructor|].
  now apply insert_by_sorted.
Qed.

Lemma sorted_weaken {A : Type} (R S : A -> A -> Prop) (l : list A) :
  (forall a b, R a b -> S a b) -> Sorted R l -> Sorted S l.
Proof.
  intros Himp Hs. induction Hs as [|a l Hs IH Hhd]; constructor; [exact IH|].
  destruct Hhd; constructor. now apply Himp.
Qed.

Lemma rate_leb_total (a b : QuestionStat) : rate_leb a b = false -> rate_leb b a = true.
Proof.
  unfold rate_leb. intros H. apply Qle_bool_iff.
  destruct (Qlt_le_dec (correct_rate b) (correct_rate a)) as [Hlt|Hle].
  - now apply Qlt_le_weak.
  - apply Qle_bool_iff in Hle. congruence.
Qed.

Lemma rate_rounded (st : Store) (q : Question) :
  correct_rate (question_stat st q) = round (exact_rate st q) 2.
Proof.
  unfold question_stat, exact_rate. cbn [correct_rate].
  destruct (total_ans st q =? 0); [reflexivity|].
  unfold round. do 2 f_equal. f_equal. apply Qred_complete.
  unfold Qdiv. ring.
Qed.

Section Stats.

Variable st : Store.
Variable id : nat.
Variable school : School.
Variable assessment : Assessment.

Hypothesis Hfound : get_assessment st id school = Ok assessment.


End Stats.



(** ** The handlers on the sample data *)

Example round_examples :
  round (1 # 3) 1 = (3 # 10)%Q /\ round (100 # 3) 2 = (3333 # 100)%Q
  /\ round (1 # 8) 2 = (3 # 25)%Q /\ round 5 2 = 5%Q
  /\ round (3 # 8) 2 = (19 # 50)%Q.
Proof. repeat split; reflexivity. Qed.

Example parse_examples :
  int "42" = Some 42%Z /\ int " -7 " = Some (-7)%Z /\ int "abc" = None
  /\ int EmptyString = None /\ int "1_000" = Some 1000%Z /\ int "1__0" = None
  /\ int "3.5" = None
  /\ float "3.5" = Some (7 # 2)%Q /\ float "abc" = None /\ float EmptyString = None
  /\ float "10" = Some 10%Q /\ float ".5" = Some (1 # 2)%Q
  /\ float "2." = Some 2%Q /\ float "1e2" = Some 100%Q
  /\ float "-2.5e-1" = Some (-1 # 4)%Q /\ float "." = None
  /\ float "1.5x" = None.
Proof. repeat split; reflexivity. Qed.

(** A choice value that is not an integer is not caught by
    [except Choice.DoesNotExist]: the submission raises and nothing is
    stored. *)
Example assessment_take_non_numeric_choice :
  assessment_take quiz_store 150 1 1 (post_request 70 [("question_1", "abc")])
    student7 school1
  = Raise ValueError.
Proof. reflexivity. Qed.

(** Past the time limit the attempt is closed with the score 0 and the
    values sent are ignored. *)
Example assessment_take_timed_out :
  let timed :=
    set_assessments quiz_store
      [mkAssessment 1 1 None "Quiz" 10 2 (Some 30) (Some 100%Z) (Some 200000%Z)] in
  exists st',
    assessment_take timed 1901 1 1 one_right_one_wrong student7 school1
    = Ok (mkOutcome (Redirect "assessment_result" [1; 1]) [] st')
    /\ attempts st' = [with_submission attempt1 (Some 1901%Z) (Some 0%Q)]
    /\ answers st' = [].
Proof. eexists. repeat split; reflexivity. Qed.

(** A third start with two attempts allowed, and a start after the
    closing time, on the sample quiz. *)
Example assessment_start_third_attempt :
  let two_done :=
    set_attempts quiz_store [attempt1; mkAttempt 2 7 1 120%Z None None false 2] in
  assessment_start two_done 150 1 (get_request 70) student7 school1
  = start_rejected two_done quiz.
Proof. reflexivity. Qed.

Example assessment_start_after_close :
  assessment_start quiz_store 201 1 (get_request 70) student7 school1
  = start_rejected quiz_store quiz.
Proof. reflexivity. Qed.

(* ================================================================== *)
(** * Further properties of the handlers *)
(* ================================================================== *)

(** ** Who reaches a view *)

Lemma find_filter_head {A : Type} (P : A -> bool) (l : list A) :
  find P l = hd_error (filter P l).
Proof.
  induction l as [|a l IH]; simpl; [reflexivity|]. now destruct (P a).
Qed.

Lemma find_append {A : Type} (P : A -> bool) (l1 l2 : list A) :
  find P (l1 ++ l2)
  = match find P l1 with
    | Some x => Some x
    | None => find P l2
    end.
Proof.
  induction l1 as [|a l1 IH]; simpl; [reflexivity|]. now destruct (P a).
Qed.


(** X2: [admin_required] runs the view exactly for the role [admin].
    Owning the school does not open the view: an owner whose role is not
    [admin] passes the first test and is turned away by the second, with the
    store untouched. *)
Theorem admin_required_only_admin
    (st : Store) (view : View) (request : Request)
    (school_user : SchoolUser) (school : School) :
  (su_role school_user = "admin" ->
   admin_required st view request school_user school
   = view request school_user school)
  /\ (su_role school_user <> "admin" ->
      exists msg,
        admin_required st view request school_user school
        = Ok (mkOutcome (Redirect "school_dashboard" []) [msg] st))
  /\ (su_role school_user <> "admin" ->
      user request = Some (school_owner school) ->
      admin_required st view request school_user school
      = Ok (mkOutcome (Redirect "school_dashboard" [])
              [(Warning, "Apenas administradores podem acessar esta página.")] st)).
Proof.
  unfold admin_required.
  destruct (String.eqb_spec (su_role school_user) "admin") as [Hr|Hr]; cbn [negb andb].
  - split; [reflexivity|]. split; intros H; contradiction.
  - split; [intros H; contradiction|]. split.
    + intros _. destruct (negb _); eauto.
    + intros _ ->. now rewrite Nat.eqb_refl.
Qed.

(** X2 (witness): the owner of the school, there as a teacher. *)
Lemma admin_required_only_admin_witness :
  admin_required quiz_store (fun _ _ _ => Raise Http404) (get_request 100)
    (mkSchoolUser 5 100 1 "teacher") school1
  = Ok (mkOutcome (Redirect "school_dashboard" [])
          [(Warning, "Apenas administradores podem acessar esta página.")] quiz_store).
Proof.
  refine (proj2 (proj2 (admin_required_only_admin quiz_store (fun _ _ _ => Raise Http404)
                          (get_request 100) (mkSchoolUser 5 100 1 "teacher") school1))
            _ eq_refl).
  discriminate.
Defined.

(** X3: [teacher_required] runs the view exactly for the roles [admin] and
    [teacher]; any other role is redirected and the store is untouched. *)
Theorem teacher_required_roles
    (st : Store) (view : View) (request : Request)
    (school_user : SchoolUser) (school : School) :
  (su_role school_user = "admin" \/ su_role school_user = "teacher" ->
   teacher_required st view request school_user school
   = view request school_user school)
  /\ (su_role school_user <> "admin" -> su_role school_user <> "teacher" ->
      teacher_required st view request school_user school
      = Ok (mkOutcome (Redirect "school_dashboard" [])
              [(Warning, "Apenas professores têm acesso a esta página.")] st)).
Proof.
  unfold teacher_required.
  destruct (String.eqb_spec (su_role school_user) "admin") as [Ha|Ha];
    destruct (String.eqb_spec (su_role school_user) "teacher") as [Ht|Ht];
    split; try reflexivity; try tauto.
Qed.

(** X3 (witness): teacher 8 reaches the view, student 7 does not. *)
Lemma teacher_required_roles_witness :
  teacher_required quiz_store (fun _ _ _ => Raise Http404) (get_request 80)
    teacher8 school1 = Raise Http404
  /\ teacher_required quiz_store (fun _ _ _ => Raise Http404) (get_request 70)
       student7 school1
     = Ok (mkOutcome (Redirect "school_dashboard" [])
             [(Warning, "Apenas professores têm acesso a esta página.")] quiz_store).
Proof.
  split.
  - refine (proj1 (teacher_required_roles quiz_store (fun _ _ _ => Raise Http404)
                     (get_request 80) teacher8 school1) _).
    right. reflexivity.
  - refine (proj2 (teacher_required_roles quiz_store (fun _ _ _ => Raise Http404)
                     (get_request 70) student7 school1) _ _); discriminate.
Defined.

Import Helpers.



(** ** The life of an attempt *)

Import AssessmentModel.

Lemma status_active_window (a : Assessment) (now : Z) :
  status a now = "active" <-> within_window now a.
Proof.
  rewrite <- (window_spec now a). unfold status.
  destruct (before now (open_at a)), (after now (close_at a));
    split; try discriminate; try tauto; intros [? ?]; discriminate.
Qed.

(** X5: the computed [Assessment.status] and the window test of
    [assessment_start] agree: the status is [active] exactly inside the
    optional window, it is [pending] exactly before an opening time (also
    when the closing time has passed), and a start on an assessment that is
    not [active] creates nothing. *)
Theorem assessment_start_needs_active
    (st : Store) (now : Z) (id : nat) (request : Request)
    (school_user : SchoolUser) (school : School) (assessment : Assessment) :
  get_assessment st id school = Ok assessment ->
  (status assessment now = "active" <-> within_window now assessment)
  /\ (status assessment now = "pending"
      <-> exists o, open_at assessment = Some o /\ (now < o)%Z)
  /\ (status assessment now <> "active" ->
      assessment_start st now id request school_user school
      = start_rejected st assessment).
Proof.
  intros Hfound. split; [apply status_active_window|]. split.
  - unfold status, before.
    destruct (open_at assessment) as [o|].
    + destruct (Z.ltb_spec now o) as [Hlt|Hge].
      * split; [intros _; eauto | reflexivity].
      * split.
        -- destruct (after now (close_at assessment)); discriminate.
        -- intros [o' [[= <-] Hlt]]. lia.
    + split.
      * destruct (after now (close_at assessment)); discriminate.
      * intros [o [[=] _]].
  - intros Hstatus.
    apply (assessment_start_cases st now id request school_user school assessment Hfound).
    intros [_ [_ [_ Hw]]]. apply Hstatus. now apply status_active_window.
Qed.

(** X5 (witness): the sample quiz, open from 100 to 200, at 250. *)
Lemma assessment_start_needs_active_witness :
  status quiz 250 = "closed"
  /\ assessment_start quiz_store 250 1 (get_request 70) student7 school1
     = start_rejected quiz_store quiz.
Proof.
  split; [reflexivity|].
  apply (assessment_start_needs_active quiz_store 250 1 (get_request 70) student7
           school1 quiz eq_refl).
  discriminate.
Defined.

(** X6: [assessment_take] writes no answer for an attempt that is already
    submitted or past its time limit, whatever the request carries: the
    submitted attempt is left as it is, the late one is closed with the score
    it had, or 0. *)
Theorem assessment_take_closed_attempt
    (st : Store) (now : Z) (id attempt_pk : nat) (request : Request)
    (school_user : SchoolUser) (school : School)
    (assessment : Assessment) (attempt : Attempt) :
  get_assessment st id school = Ok assessment ->
  get_attempt st attempt_pk (assessment_id assessment) (su_id school_user) = Ok attempt ->
  (is_submitted attempt = true ->
   assessment_take st now id attempt_pk request school_user school
   = Ok (mkOutcome
           (Redirect "assessment_result" [assessment_id assessment; attempt_id attempt])
           [] st))
  /\ (is_submitted attempt = false -> timed_out assessment attempt now = true ->
      exists st',
        assessment_take st now id attempt_pk request school_user school
        = Ok (mkOutcome
                (Redirect "assessment_result"
                   [assessment_id assessment; attempt_id attempt])
                [] st')
        /\ answers st' = answers st
        /\ find (fun r => attempt_id r =? attempt_id attempt) (attempts st')
           = Some
               (with_submission attempt (Some now)
                  (Some match score attempt with Some s => s | None => 0%Q end))).
Proof.
  intros Ha Hat. unfold assessment_take. rewrite Ha. cbn [bind]. rewrite Hat. cbn [bind].
  split.
  - intros ->. reflexivity.
  - intros Hs Ht. rewrite Hs, Ht. unfold _finalize_attempt_and_redirect. rewrite Hs.
    assert (Hassess : attempt_assessment attempt = assessment_id assessment).
    { unfold get_attempt in Hat. destruct (find _ _) eqn:E; [|discriminate].
      injection Hat as ->. apply find_some in E. destruct E as [_ E].
      apply andb_prop in E. destruct E as [E _].
      apply andb_prop in E. destruct E as [_ E]. now apply Nat.eqb_eq in E. }
    rewrite Hassess. eexists. split; [reflexivity|].
    cbn [negb answers attempts set_attempts]. split; [reflexivity|].
    destruct (get_attempt_found _ _ _ _ _ Hat) as [Hin _].
    destruct (score attempt);
      exact (find_save attempt_id (with_submission attempt (Some now) _) attempt
               (attempts st) Hin eq_refl).
Qed.

(** X6 (witness): the sample quiz with a limit of 30 minutes, sent 1801
    seconds after the start. *)
Lemma assessment_take_closed_attempt_witness :
  exists st',
    assessment_take timed_store 1901 1 1 one_right_one_wrong student7 school1
    = Ok (mkOutcome (Redirect "assessment_result" [1; 1]) [] st')
    /\ answers st' = []
    /\ find (fun r => attempt_id r =? 1) (attempts st')
       = Some (with_submission attempt1 (Some 1901%Z) (Some 0%Q)).
Proof.
  exact (proj2 (assessment_take_closed_attempt timed_store 1901 1 1
                  one_right_one_wrong student7 school1 timed_quiz attempt1
                  eq_refl eq_refl)
           eq_refl eq_refl).
Defined.

Lemma unique_key_eq {Row Key : Type} (key : Row -> Key) (rows : list Row) (x y : Row) :
  NoDup (map key rows) -> In x rows -> In y rows -> key x = key y -> x = y.
Proof.
  induction rows as [|r rows IH]; simpl; [easy|].
  rewrite NoDup_cons_iff. intros [Hfresh Hrest] [->|Hx] [->|Hy] E; auto.
  - exfalso. apply Hfresh. rewrite E. now apply in_map.
  - exfalso. apply Hfresh. rewrite <- E. now apply in_map.
Qed.

Import AssessmentPages.

(** X7: an attempt of someone else cannot be taken nor looked at: with
    the id of an attempt of another student, [assessment_take] and
    [assessment_result] both end in [Http404] and nothing is written. *)
Theorem attempt_of_another_student
    (st : Store) (now : Z) (id attempt_pk : nat) (request : Request)
    (school_user : SchoolUser) (school : School) (other : Attempt) :
  NoDup (map attempt_id (attempts st)) ->
  In other (attempts st) ->
  attempt_id other = attempt_pk ->
  attempt_student other <> su_id school_user ->
  assessment_take st now id attempt_pk request school_user school = Raise Http404
  /\ assessment_result st id attempt_pk school_user school = Raise Http404.
Proof.
  intros Hpk Hin Hid Hother.
  assert (Hnone : forall a,
             get_attempt st attempt_pk a (su_id school_user) = Raise Http404).
  { intros a. unfold get_attempt. destruct (find _ _) as [x|] eqn:E; [|reflexivity].
    exfalso. apply find_some in E. destruct E as [Hx E].
    apply andb_prop in E. destruct E as [E Hs].
    apply andb_prop in E. destruct E as [Hi _].
    apply Nat.eqb_eq in Hi, Hs.
    assert (x = other) by (apply (unique_key_eq attempt_id (attempts st)); congruence).
    subst x. contradiction. }
  unfold assessment_take, assessment_result, get_assessment.
  destruct (find _ (assessments st)); cbn [bind]; [|now split].
  now rewrite Hnone.
Qed.

(** X7 (witness): student 9 asks for attempt 1, which is student 7's. *)
Lemma attempt_of_another_student_witness :
  assessment_take quiz_store 150 1 1 one_right_one_wrong student9 school1
  = Raise Http404
  /\ assessment_result quiz_store 1 1 student9 school1 = Raise Http404.
Proof.
  apply (attempt_of_another_student quiz_store 150 1 1 one_right_one_wrong
           student9 school1 attempt1).
  - simpl. repeat constructor. intros [].
  - now left.
  - reflexivity.
  - discriminate.
Defined.

(** ** The result page after a submission *)

Lemma find_save_first {A : Type} (pk : A -> nat) (P : A -> bool) (row old : A)
    (rows : list A) :
  find P rows = Some old -> pk old = pk row -> P row = true ->
  find P (save pk row rows) = Some row.
Proof.
  intros Hfind Hpk Hrow. induction rows as [|a rows IH]; simpl in *; [discriminate|].
  destruct (Nat.eqb_spec (pk a) (pk row)) as [E|N].
  - now rewrite Hrow.
  - destruct (P a) eqn:Pa; [|now apply IH].
    injection Hfind as ->. contradiction.
Qed.

Lemma filter_length_perm {A : Type} (f : A -> bool) (l l' : list A) :
  Permutation l l' -> List.length (filter f l) = List.length (filter f l').
Proof.
  intros H. induction H as [|x l l' _ IH|x y l|l l' l'' _ IH1 _ IH2]; simpl.
  - reflexivity.
  - destruct (f x); simpl; now rewrite IH.
  - destruct (f x), (f y); reflexivity.
  - now rewrite IH1.
Qed.

Lemma submitted_rows_count (st : Store) (request : Request) (a : nat)
    (P : Answer -> bool) (P' : Question -> bool) (qs : list Question) :
  (forall q n, In q qs -> P (submitted_row st request n a q) = P' q) ->
  forall n,
    List.length (filter P (submitted_rows st request n a qs))
    = List.length (filter P' qs).
Proof.
  induction qs as [|q qs IH]; intros H n; simpl; [reflexivity|].
  rewrite (H q n (or_introl eq_refl)).
  assert (H' : forall q0 n0, In q0 qs -> P (submitted_row st request n0 a q0) = P' q0)
    by (intros q0 n0 Hq0; apply H; now right).
  destruct (P' q); simpl; now rewrite IH.
Qed.

Section ResultAfterSubmission.

Variable st : Store.
Variable now : Z.
Variables id attempt_pk : nat.
Variable request : Request.
Variable school_user : SchoolUser.
Variable school : School.
Variable assessment : Assessment.
Variable attempt : Attempt.

Hypothesis Hassessment : get_assessment st id school = Ok assessment.
Hypothesis Hattempt :
  get_attempt st attempt_pk (assessment_id assessment) (su_id school_user) = Ok attempt.
Hypothesis Hprogress : is_submitted attempt = false.
Hypothesis Htime : timed_out assessment attempt now = false.
Hypothesis Hpost : method request = "POST".
Hypothesis Hquestions : NoDup (map question_id (questions st)).
Hypothesis Hfresh :
  forall x, In x (answers st) -> answer_attempt x <> attempt_id attempt.
Hypothesis Hvalues :
  Forall (submittable request) (questions_of st (assessment_id assessment)).

(** X8: the result page that follows a submission shows 100 times the
    number of questions answered with a choice marked correct over the number
    of objective questions of the assessment, and 0 when it has none: the
    count made on the stored answers is the count of the choices sent. *)
Theorem assessment_result_after_take :
  exists st',
    assessment_take st now id attempt_pk request school_user school
    = Ok (mkOutcome
            (Redirect "assessment_result" [assessment_id assessment; attempt_id attempt])
            [] st')
    /\ assessment_result st' id attempt_pk school_user school
       = Ok (if 0 <? List.length (objective_questions st (assessment_id assessment))
             then
               (of_nat
                  (List.length
                     (filter (answered_correctly st request)
                        (questions_of st (assessment_id assessment))))
                / of_nat (List.length (objective_questions st (assessment_id assessment)))
                * 100)%Q
             else 0%Q).
Proof.
  eexists. split.
  { apply (assessment_take_submits st now id attempt_pk request school_user school
             assessment attempt); assumption. }
  set (qs := questions_ordered st (assessment_id assessment)).
  set (rows := submitted_rows st request (next_id answer_id (answers st))
                 (attempt_id attempt) qs).
  set (saved := with_submission attempt (Some now)
                  (Some (submission_score st request qs))).
  unfold assessment_result.
  replace (get_assessment _ id school) with (get_assessment st id school)
    by reflexivity.
  rewrite Hassessment. cbn [bind].
  assert (Hget : get_attempt
                   (set_attempts (set_answers st (answers st ++ rows))
                      (save attempt_id saved (attempts st)))
                   attempt_pk (assessment_id assessment) (su_id school_user)
                 = Ok saved).
  { unfold get_attempt in *. cbn [attempts set_attempts].
    destruct (find _ (attempts st)) as [found|] eqn:E; [|discriminate].
    injection Hattempt as ->.
    rewrite (find_save_first attempt_id _ saved attempt); [reflexivity | exact E | reflexivity |].
    apply find_some in E. exact (proj2 E). }
  rewrite Hget. cbn [bind]. f_equal.
  unfold percent_correct, objective_questions, questions_of.
  cbn [questions answers set_attempts set_answers attempt_id saved with_submission].
  fold (questions_of st (assessment_id assessment)).
  destruct (0 <? _); [|reflexivity].
  do 3 f_equal.
  rewrite filter_app, length_app.
  rewrite (filter_none _ (answers st)).
  2:{ intros x Hx.
      destruct (Nat.eqb_spec (answer_attempt x) (attempt_id attempt)) as [E|];
        [|reflexivity].
      now elim (Hfresh x Hx). }
  cbn [List.length Nat.add].
  unfold rows. rewrite (submitted_rows_count st request (attempt_id attempt) _
                          (answered_correctly st request) qs).
  - apply filter_length_perm, questions_ordered_perm.
  - intros q n Hq.
    destruct (submitted_row_keys request st n (attempt_id attempt) q) as [Ka [Kq _]].
    rewrite Ka, Kq, Nat.eqb_refl. cbn [andb].
    unfold answered_correctly, submitted_row.
    destruct (is_objective q) eqn:Hobj.
    + assert (Hmem : mem (question_id q)
                       (map question_id
                          (filter is_objective
                             (questions_of st (assessment_id assessment)))) = true).
      { apply mem_In, in_map, filter_In. split; [|exact Hobj].
        eapply Permutation_in; [apply questions_ordered_perm | exact Hq]. }
      rewrite Hmem. now destruct (chosen st request q).
    + cbn [andb].
      repeat match goal with |- context [if ?b then _ else _] => destruct b end;
        cbn [answer_is_correct]; apply andb_false_r.
Qed.

End ResultAfterSubmission.

(** X8 (witness): one right answer out of the two objective questions of
    the sample quiz is shown as 50. *)
Lemma assessment_result_after_take_witness :
  exists st',
    assessment_take quiz_store 150 1 1 one_right_one_wrong student7 school1
    = Ok (mkOutcome (Redirect "assessment_result" [1; 1]) [] st')
    /\ exists percent,
         assessment_result st' 1 1 student7 school1 = Ok percent
         /\ (percent == 50)%Q.
Proof.
  destruct (assessment_result_after_take quiz_store 150 1 1 one_right_one_wrong
              student7 school1 quiz attempt1 eq_refl eq_refl eq_refl eq_refl eq_refl)
    as [st' [E R]].
  - simpl. repeat constructor; simpl; intuition discriminate.
  - intros x [].
  - values_submittable.
  - exists st'. split; [exact E|]. eexists. split; [exact R|]. reflexivity.
Defined.

(** ** Editing, creating and deleting assessments *)

(** X9: once the assessment is found, [assessment_edit] never raises,
    whatever the form holds: either nothing is written (the form is shown
    again, with an error message when a conversion failed), or the row of
    that assessment is replaced, keeping its id, course and subject. *)
Theorem assessment_edit_never_raises
    (to_python : string -> option Z) (st : Store) (id : nat) (request : Request)
    (school_user : SchoolUser) (school : School) (assessment : Assessment) :
  get_assessment st id school = Ok assessment ->
  exists out,
    assessment_edit to_python st id request school_user school = Ok out
    /\ (store out = st
        \/ exists a',
             store out = set_assessments st (save assessment_id a' (assessments st))
             /\ assessment_id a' = assessment_id assessment
             /\ assessment_course a' = assessment_course assessment
             /\ assessment_subject a' = assessment_subject assessment).
Proof.
  intros Hfound. unfold assessment_edit. rewrite Hfound. cbn [bind].
  destruct (String.eqb (method request) "POST"); [|eexists; split; [reflexivity|now left]].
  match goal with
  | |- context [match ?b with Ok _ => _ | Raise _ => _ end] =>
      destruct b as [a'|e] eqn:E
  end.
  - eexists. split; [reflexivity|]. right. exists a'. split; [reflexivity|].
    unfold bind in E.
    repeat match type of E with
      | match ?x with Ok _ => _ | Raise _ => _ end = _ =>
          destruct x; [|discriminate]
      end.
    injection E as <-. auto.
  - eexists. split; [reflexivity|]. now left.
Qed.

(** X9 (witness): the weight [abc] on the sample quiz. *)
Lemma assessment_edit_never_raises_witness :
  exists out,
    assessment_edit (fun _ => None) quiz_store 1 bad_weight teacher8 school1 = Ok out
    /\ (store out = quiz_store
        \/ exists a',
             store out
             = set_assessments quiz_store (save assessment_id a' (assessments quiz_store))
             /\ assessment_id a' = assessment_id quiz
             /\ assessment_course a' = assessment_course quiz
             /\ assessment_subject a' = assessment_subject quiz).
Proof.
  exact (assessment_edit_never_raises (fun _ => None) quiz_store 1 bad_weight
           teacher8 school1 quiz eq_refl).
Defined.

Lemma find_none_all {A : Type} (P : A -> bool) (l : list A) :
  (forall x, In x l -> P x = false) -> find P l = None.
Proof.
  induction l as [|a l IH]; simpl; intros H; [reflexivity|].
  rewrite (H a (or_introl eq_refl)). apply IH. intros x Hx. apply H. now right.
Qed.

Section CreateThenStart.

Variable to_python : string -> option Z.
Variable st : Store.
Variable course_pk : nat.
Variable request : Request.
Variable school_user : SchoolUser.
Variable student : SchoolUser.
Variable school : School.
Variable course : Course.
Variable title : string.

Hypothesis Hcourse : get_course st course_pk school = Ok course.
Hypothesis Hpost : method request = "POST".
Hypothesis Htitle : get (POST request) "title" = Some title.
Hypothesis Hweight : truthy (get (POST request) "weight") = false.
Hypothesis Hattempts : truthy (get (POST request) "attempts_allowed") = false.
Hypothesis Hlimit : truthy (get (POST request) "time_limit") = false.
Hypothesis Hsubject : truthy (get (POST request) "subject") = false.
Hypothesis Hopen : truthy (get (POST request) "open_at") = false.
Hypothesis Hclose : truthy (get (POST request) "close_at") = false.

Lemma assessment_create_defaults :
  assessment_create to_python st course_pk request school_user school
  = Ok (mkOutcome (Redirect "assessment_list" [course_id course]) []
          (set_assessments st
             (assessments st
              ++ [mkAssessment (next_id assessment_id (assessments st))
                    (course_id course) None title 0 1 None None None]))).
Proof.
  unfold assessment_create. rewrite Hcourse. cbn [bind]. rewrite Hpost.
  cbn [String.eqb Ascii.eqb Bool.eqb].
  unfold getitem. rewrite Htitle. cbn [bind].
  unfold convert, subject_of, datetime_field.
  destruct (get (POST request) "weight") as [[|? ?]|]; try discriminate;
  destruct (get (POST request) "attempts_allowed") as [[|? ?]|]; try discriminate;
  destruct (get (POST request) "time_limit") as [[|? ?]|]; try discriminate;
  destruct (get (POST request) "subject") as [[|? ?]|]; try discriminate;
  destruct (get (POST request) "open_at") as [[|? ?]|]; try discriminate;
  destruct (get (POST request) "close_at") as [[|? ?]|]; try discriminate;
  reflexivity.
Qed.

Hypothesis Hrole : su_role student = "student".
Hypothesis Henrolled : is_enrolled st (course_id course) (su_id student) = true.
Hypothesis Hreferences :
  forall t, In t (attempts st) ->
            exists a, In a (assessments st) /\ assessment_id a = attempt_assessment t.

(** X10: an assessment created from a form that holds only a title
    allows one attempt and has no window.  An enrolled student can then start
    it at any time, and a second start, at any time, is refused. *)
Theorem assessment_create_then_start (now1 now2 : Z) (request1 request2 : Request) :
  exists st1 a st2 attempt,
    assessment_create to_python st course_pk request school_user school
    = Ok (mkOutcome (Redirect "assessment_list" [course_id course]) [] st1)
    /\ get_assessment st1 (assessment_id a) school = Ok a
    /\ attempts_allowed a = 1 /\ open_at a = None /\ close_at a = None
    /\ assessment_start st1 now1 (assessment_id a) request1 student school
       = Ok (mkOutcome
               (Redirect "assessment_take" [assessment_id a; attempt_id attempt])
               [] st2)
    /\ attempts st2 = (attempts st ++ [attempt])%list
    /\ assessment_start st2 now2 (assessment_id a) request2 student school
       = start_rejected st2 a.
Proof.
  set (a := mkAssessment (next_id assessment_id (assessments st))
              (course_id course) None title 0 1 None None None).
  set (st1 := set_assessments st (assessments st ++ [a])).
  assert (Hget : forall s, assessments s = assessments st1 -> courses s = courses st ->
                           get_assessment s (assessment_id a) school = Ok a).
  { intros s Hs Hc. unfold get_assessment, course_in_school. rewrite Hs, Hc.
    subst st1. cbn [assessments set_assessments]. rewrite find_append.
    rewrite find_none_all.
    - cbn. rewrite Nat.eqb_refl. cbn.
      unfold get_course in Hcourse.
      destruct (find _ (courses st)) as [c|] eqn:E; [|discriminate].
      injection Hcourse as ->. apply find_some in E. destruct E as [Hin E].
      apply andb_prop in E. destruct E as [_ Hsch].
      assert (Hex : existsb
                      (fun c => (course_id c =? course_id course)
                                && (course_school c =? school_id school))
                      (courses st) = true).
      { apply existsb_exists. exists course. split; [exact Hin|].
        now rewrite Nat.eqb_refl, Hsch. }
      now rewrite Hex.
    - intros x Hx. pose proof (next_id_fresh assessment_id _ x Hx) as Hlt.
      cbn [assessment_id a].
      destruct (Nat.eqb_spec (assessment_id x) (next_id assessment_id (assessments st)));
        [lia | reflexivity]. }
  assert (Hnone : attempts_of st1 (assessment_id a) (su_id student) = []).
  { apply filter_none. intros t Ht. subst st1. cbn [attempts set_assessments] in Ht.
    destruct (Hreferences t Ht) as [s [Hs E]].
    pose proof (next_id_fresh assessment_id _ s Hs) as Hlt. cbn [assessment_id a].
    destruct (Nat.eqb_spec (attempt_assessment t)
                (next_id assessment_id (assessments st))); [lia | reflexivity]. }
  set (attempt := mkAttempt (next_id attempt_id (attempts st1)) (su_id student)
                    (assessment_id a) now1 None None false (0 + 1)).
  set (st2 := set_attempts st1 (attempts st1 ++ [attempt])).
  exists st1, a, st2, attempt.
  split; [apply assessment_create_defaults|].
  split; [now apply Hget|].
  repeat (split; [reflexivity|]).
  split; [|split; [reflexivity|]].
  - rewrite (proj1 (assessment_start_cases st1 now1 (assessment_id a) request1
                      student school a (Hget st1 eq_refl eq_refl))).
    + unfold start_created. rewrite Hnone. reflexivity.
    + unfold start_allowed, within_window. rewrite Hnone.
      split; [exact Hrole|]. split.
      * apply is_enrolled_spec. exact Henrolled.
      * cbn. split; [lia|]. split; intros ? [=].
  - apply (assessment_start_cases st2 now2 (assessment_id a) request2 student school a
             (Hget st2 eq_refl eq_refl)).
    intros [_ [_ [Hcount _]]].
    unfold attempts_of in Hcount. subst st2. cbn [attempts set_attempts] in Hcount.
    rewrite filter_app in Hcount. fold (attempts_of st1 (assessment_id a) (su_id student)) in Hcount.
    rewrite Hnone in Hcount. cbn in Hcount. rewrite !Nat.eqb_refl in Hcount.
    cbn in Hcount. lia.
Qed.

End CreateThenStart.

(** X10 (witness): a test with only a title on the sample store. *)
Lemma assessment_create_then_start_witness :
  exists st1 a st2 attempt,
    assessment_create (fun _ => None) quiz_store 1 title_only teacher8 school1
    = Ok (mkOutcome (Redirect "assessment_list" [1]) [] st1)
    /\ get_assessment st1 (assessment_id a) school1 = Ok a
    /\ attempts_allowed a = 1 /\ open_at a = None /\ close_at a = None
    /\ assessment_start st1 5 (assessment_id a) (get_request 70) student7 school1
       = Ok (mkOutcome
               (Redirect "assessment_take" [assessment_id a; attempt_id attempt])
               [] st2)
    /\ attempts st2 = (attempts quiz_store ++ [attempt])%list
    /\ assessment_start st2 9 (assessment_id a) (get_request 70) student7 school1
       = start_rejected st2 a.
Proof.
  refine (assessment_create_then_start (fun _ => None) quiz_store 1 title_only
            teacher8 student7 school1 (mkCourse 1 1 None) "Prova"
            eq_refl eq_refl eq_refl eq_refl eq_refl eq_refl eq_refl eq_refl eq_refl
            eq_refl eq_refl _ 5%Z 9%Z (get_request 70) (get_request 70)).
  intros t [<-|[]]. exists quiz. split; [now left | reflexivity].
Defined.

(** ** Deleting questions and assessments *)

Lemma filter_all {A : Type} (f : A -> bool) (l : list A) :
  (forall x, In x l -> f x = true) -> filter f l = l.
Proof.
  induction l as [|a l IH]; simpl; intros H; [reflexivity|].
  rewrite (H a (or_introl eq_refl)). f_equal. apply IH. intros x Hx. apply H. now right.
Qed.

Lemma null_choice_keys (cids : list nat) (x : Answer) :
  answer_id (null_choice cids x) = answer_id x
  /\ answer_attempt (null_choice cids x) = answer_attempt x
  /\ answer_question (null_choice cids x) = answer_question x
  /\ answer_is_correct (null_choice cids x) = answer_is_correct x.
Proof.
  unfold null_choice. destruct (answer_choice x) as [c|]; [|auto].
  destruct (mem c cids); auto.
Qed.

Lemma cascade_answers (st : Store) (qids atids : list nat) (x' : Answer) :
  In x' (answers (cascade_delete st qids atids)) ->
  exists x,
    In x (answers st)
    /\ answer_attempt x' = answer_attempt x /\ answer_question x' = answer_question x
    /\ answer_is_correct x' = answer_is_correct x
    /\ ~ In (answer_attempt x) atids /\ ~ In (answer_question x) qids.
Proof.
  unfold cascade_delete. cbn [answers set_answers]. rewrite in_map_iff.
  intros [x [<- Hx]]. apply filter_In in Hx. destruct Hx as [Hx Hkeep].
  apply andb_prop in Hkeep. destruct Hkeep as [Ha Hq].
  apply negb_true_iff in Ha, Hq.
  destruct (null_choice_keys
              (map choice_id
                 (filter (fun c => mem (choice_question c) qids) (choices st))) x)
    as [_ [Ka [Kq Kc]]].
  exists x. repeat split; auto.
  - intros H. apply mem_In in H. congruence.
  - intros H. apply mem_In in H. congruence.
Qed.

Lemma cascade_keeps_references (st : Store) (qids atids : list nat) :
  (answers_reference_attempts st ->
   answers_reference_attempts (cascade_delete st qids atids))
  /\ (answers_reference_questions st ->
      answers_reference_questions (cascade_delete st qids atids)).
Proof.
  split; intros Href x' Hx';
    destruct (cascade_answers st qids atids x' Hx')
      as [x [Hx [Ea [Eq [_ [Hna Hnq]]]]]];
    destruct (Href x Hx) as [r [Hr E]]; exists r; (split; [|congruence]).
  - unfold cascade_delete. cbn [attempts set_answers set_attempts].
    apply filter_In. split; [exact Hr|]. apply negb_true_iff.
    destruct (mem (attempt_id r) atids) eqn:M; [|reflexivity].
    apply mem_In in M. rewrite E in M. contradiction.
  - unfold cascade_delete. cbn [questions set_answers set_attempts set_choices set_questions].
    apply filter_In. split; [exact Hr|]. apply negb_true_iff.
    destruct (mem (question_id r) qids) eqn:M; [|reflexivity].
    apply mem_In in M. rewrite E in M. contradiction.
Qed.

Lemma count_through_selection {A : Type} (g k : A -> bool) (h : A -> A) (l : list A) :
  (forall x, g (h x) = g x) ->
  (forall x, g x = true -> k x = true) ->
  List.length (filter g (map h (filter k l))) = List.length (filter g l).
Proof.
  intros Hh Hk. induction l as [|x l IH]; simpl; [reflexivity|].
  destruct (k x) eqn:Kx; simpl.
  - rewrite Hh. destruct (g x); simpl; now rewrite IH.
  - destruct (g x) eqn:Gx; [|exact IH].
    rewrite (Hk x Gx) in Kx. discriminate.
Qed.

Lemma count_after_cascade (st : Store) (qid : nat) (f : Answer -> bool) (q' : nat) :
  (forall cids x, f (null_choice cids x) = f x) ->
  q' <> qid ->
  List.length
    (filter (fun x => (answer_question x =? q') && f x)
       (answers (cascade_delete st [qid] [])))
  = List.length (filter (fun x => (answer_question x =? q') && f x) (answers st)).
Proof.
  intros Hf Hneq. unfold cascade_delete. cbn [answers set_answers].
  apply count_through_selection.
  - intros x. rewrite Hf.
    now destruct (null_choice_keys
                    (map choice_id
                       (filter (fun c => mem (choice_question c) [qid]) (choices st))) x)
      as [_ [_ [-> _]]].
  - intros x Hx. apply andb_prop in Hx. destruct Hx as [Hq _].
    apply Nat.eqb_eq in Hq. cbn. rewrite Hq.
    destruct (Nat.eqb_spec q' qid); [contradiction | reflexivity].
Qed.

Section QuestionDelete.

Variable st : Store.
Variable id : nat.
Variable request : Request.
Variable school_user : SchoolUser.
Variable school : School.
Variable question : Question.

Hypothesis Hfound : get_question st id school = Ok question.

(** X11: [question_delete], on any request method, removes the question
    with its answers, keeps every answer attached to a question and to an
    attempt of the store, and neither touches the attempts (their scores keep
    the points of the deleted question) nor changes the statistics of the
    other questions. *)
Theorem question_delete_cascade :
  exists st',
    question_delete st id request school_user school
    = Ok (mkOutcome (Redirect "question_list" [question_assessment question]) [] st')
    /\ (forall q, In q (questions st') -> question_id q <> question_id question)
    /\ total_ans st' question = 0
    /\ attempts st' = attempts st
    /\ (forall q, question_id q <> question_id question ->
                  question_stat st' q = question_stat st q)
    /\ (answers_reference_attempts st -> answers_reference_attempts st')
    /\ (answers_reference_questions st -> answers_reference_questions st').
Proof.
  unfold question_delete. rewrite Hfound. cbn [bind].
  eexists. split; [reflexivity|]. unfold delete_question.
  split; [|split; [|split; [|split]]].
  - intros q Hq. unfold cascade_delete in Hq.
    cbn [questions set_answers set_attempts set_choices set_questions] in Hq.
    apply filter_In in Hq. destruct Hq as [_ Hq]. cbn in Hq.
    rewrite orb_false_r in Hq. now apply negb_true_iff, Nat.eqb_neq in Hq.
  - unfold total_ans. apply length_zero_iff_nil, filter_none.
    intros x Hx. destruct (cascade_answers st _ _ x Hx) as [x0 [_ [_ [Eq [_ [_ Hn]]]]]].
    apply Nat.eqb_neq. rewrite Eq. intros E. apply Hn. now left.
  - unfold cascade_delete. cbn [attempts set_answers set_attempts].
    now apply filter_all.
  - intros q Hq. unfold question_stat, total_ans, correct_ans. f_equal.
    pose proof (count_after_cascade st (question_id question) (fun _ => true)
                  (question_id q) (fun _ _ => eq_refl) Hq) as Ht.
    pose proof (count_after_cascade st (question_id question) answer_is_correct
                  (question_id q)
                  (fun cids x => proj2 (proj2 (proj2 (null_choice_keys cids x)))) Hq)
      as Hc.
    assert (Hext : forall l,
               filter (fun x => (answer_question x =? question_id q) && true) l
               = filter (fun x => answer_question x =? question_id q) l).
    { intros l. apply filter_ext. intros x. apply andb_true_r. }
    rewrite !Hext in Ht. now rewrite Ht, Hc.
  - apply cascade_keeps_references.
Qed.

End QuestionDelete.

(** X11 (witness): question 3, the essay, of [essay_store]. *)
Lemma question_delete_cascade_witness :
  exists st',
    question_delete essay_store 3 (get_request 80) teacher8 school1
    = Ok (mkOutcome (Redirect "question_list" [1]) [] st')
    /\ map question_id (questions st') = [1; 2]
    /\ map answer_id (answers st') = [1; 2]
    /\ attempts st' = [submitted1].
Proof.
  destruct (question_delete_cascade essay_store 3 (get_request 80) teacher8 school1
              (mkQuestion 3 1 "q3" "essay" 3 10) eq_refl)
    as [st' [E _]].
  exists st'. split; [exact E|].
  vm_compute in E. injection E as <-. repeat split; reflexivity.
Defined.

Lemma filter_absorb {A : Type} (f k : A -> bool) (l : list A) :
  (forall x, In x l -> f x = true -> k x = true) ->
  filter f (filter k l) = filter f l.
Proof.
  induction l as [|x l IH]; simpl; intros H; [reflexivity|].
  assert (H' : forall y, In y l -> f y = true -> k y = true)
    by (intros y Hy; apply H; now right).
  destruct (k x) eqn:Kx; simpl.
  - destruct (f x); now rewrite IH.
  - destruct (f x) eqn:Fx; [|now apply IH].
    rewrite (H x (or_introl eq_refl) Fx) in Kx. discriminate.
Qed.

Section AssessmentDelete.

Variable st : Store.
Variable id : nat.
Variable request : Request.
Variable school_user : SchoolUser.
Variable school : School.
Variable assessment : Assessment.

Hypothesis Hfound : get_assessment st id school = Ok assessment.
Hypothesis Hquestions : NoDup (map question_id (questions st)).
Hypothesis Hattempts : NoDup (map attempt_id (attempts st)).

(** X12: [assessment_delete], on any request method, removes the
    assessment with its questions and attempts (and their answers), leaves
    the questions and attempts of every other assessment as they were, and
    keeps every remaining answer attached to a question and to an attempt of
    the store. *)
Theorem assessment_delete_cascade :
  exists st',
    assessment_delete st id request school_user school
    = Ok (mkOutcome (Redirect "assessment_list" [assessment_course assessment])
            [(Success, deleted_text (assessment_title assessment))] st')
    /\ (forall s, In s (assessments st') -> assessment_id s <> assessment_id assessment)
    /\ questions_of st' (assessment_id assessment) = []
    /\ (forall t, In t (attempts st') ->
                  attempt_assessment t <> assessment_id assessment)
    /\ (forall b, b <> assessment_id assessment ->
                  questions_of st' b = questions_of st b
                  /\ filter (fun t => attempt_assessment t =? b) (attempts st')
                     = filter (fun t => attempt_assessment t =? b) (attempts st))
    /\ (answers_reference_attempts st -> answers_reference_attempts st')
    /\ (answers_reference_questions st -> answers_reference_questions st').
Proof.
  unfold assessment_delete. rewrite Hfound. cbn [bind].
  eexists. split; [reflexivity|]. unfold delete_assessment.
  set (qids := map question_id (questions_of st (assessment_id assessment))).
  set (atids := map attempt_id
                  (filter (fun t => attempt_assessment t =? assessment_id assessment)
                     (attempts st))).
  assert (Hq : forall q, In q (questions st) ->
               mem (question_id q) qids = true ->
               question_assessment q = assessment_id assessment).
  { intros q Hin Hm. apply mem_In in Hm. subst qids.
    apply in_map_iff in Hm. destruct Hm as [q0 [E Hq0]].
    apply filter_In in Hq0. destruct Hq0 as [Hin0 Ha].
    rewrite (unique_key_eq question_id (questions st) q q0); auto.
    now apply Nat.eqb_eq. }
  assert (Ht : forall t, In t (attempts st) ->
               mem (attempt_id t) atids = true ->
               attempt_assessment t = assessment_id assessment).
  { intros t Hin Hm. apply mem_In in Hm. subst atids.
    apply in_map_iff in Hm. destruct Hm as [t0 [E Ht0]].
    apply filter_In in Ht0. destruct Ht0 as [Hin0 Ha].
    rewrite (unique_key_eq attempt_id (attempts st) t t0); auto.
    now apply Nat.eqb_eq. }
  split; [|split; [|split; [|split; [|split]]]].
  - intros s Hs. cbn [assessments set_assessments] in Hs.
    apply filter_In in Hs. destruct Hs as [_ Hs].
    now apply negb_true_iff, Nat.eqb_neq in Hs.
  - unfold questions_of, cascade_delete.
    cbn [questions set_assessments set_answers set_attempts set_choices set_questions].
    apply filter_none. intros q Hin. apply filter_In in Hin. destruct Hin as [Hin Hkeep].
    apply negb_true_iff in Hkeep.
    destruct (Nat.eqb_spec (question_assessment q) (assessment_id assessment)) as [E|];
      [|reflexivity].
    assert (Hm : mem (question_id q) qids = true).
    { apply mem_In, in_map, filter_In. split; [exact Hin | now apply Nat.eqb_eq]. }
    congruence.
  - intros t Hin. unfold cascade_delete in Hin.
    cbn [attempts set_assessments set_answers set_attempts] in Hin.
    apply filter_In in Hin. destruct Hin as [Hin Hkeep].
    apply negb_true_iff in Hkeep. intros E.
    assert (Hm : mem (attempt_id t) atids = true).
    { apply mem_In, in_map, filter_In. split; [exact Hin | now apply Nat.eqb_eq]. }
    congruence.
  - intros b Hb. unfold questions_of, cascade_delete.
    cbn [questions attempts set_assessments set_answers set_attempts set_choices
           set_questions].
    split; apply filter_absorb.
    + intros q Hin Hqb. apply Nat.eqb_eq in Hqb. apply negb_true_iff.
      destruct (mem (question_id q) qids) eqn:M; [|reflexivity].
      rewrite (Hq q Hin M) in Hqb. congruence.
    + intros t Hin Htb. apply Nat.eqb_eq in Htb. apply negb_true_iff.
      destruct (mem (attempt_id t) atids) eqn:M; [|reflexivity].
      rewrite (Ht t Hin M) in Htb. congruence.
  - exact (proj1 (cascade_keeps_references st qids atids)).
  - exact (proj2 (cascade_keeps_references st qids atids)).
Qed.

End AssessmentDelete.

(** X12 (witness): the quiz of [essay_store], asked for with a GET. *)
Lemma assessment_delete_cascade_witness :
  exists st',
    assessment_delete essay_store 1 (get_request 80) teacher8 school1
    = Ok (mkOutcome (Redirect "assessment_list" [1])
            [(Success, deleted_text "Quiz")] st')
    /\ assessments st' = [] /\ questions st' = [] /\ choices st' = []
    /\ attempts st' = [] /\ answers st' = [].
Proof.
  destruct (assessment_delete_cascade essay_store 1 (get_request 80) teacher8 school1
              quiz eq_refl)
    as [st' [E _]].
  - simpl. repeat constructor; simpl; intuition discriminate.
  - simpl. repeat constructor; simpl; intuition discriminate.
  - exists st'. split; [exact E|].
    vm_compute in E. injection E as <-. repeat split; reflexivity.
Defined.

(** ** Rounding *)

Lemma round_half_even_between (x : Q) (a b : Z) :
  (inject_Z a <= x)%Q -> (x <= inject_Z b)%Q ->
  (a <= round_half_even x <= b)%Z.
Proof.
  destruct x as [n d]. unfold Qle, round_half_even. cbn [Qnum Qden inject_Z].
  rewrite !Z.mul_1_r. intros Ha Hb.
  pose proof (Z.div_mod n (Z.pos d) ltac:(lia)) as Hdm.
  pose proof (Z.mod_pos_bound n (Z.pos d) ltac:(lia)) as Hr.
  set (q := (n / Z.pos d)%Z) in *. set (r := (n mod Z.pos d)%Z) in *.
  destruct (2 * r <? Z.pos d)%Z eqn:E1; [apply Z.ltb_lt in E1 | apply Z.ltb_ge in E1];
    [nia|].
  assert (Hup : (a <= q + 1 <= b)%Z) by nia.
  destruct (Z.pos d <? 2 * r)%Z; [exact Hup|].
  destruct (Z.even q); [nia | exact Hup].
Qed.

Lemma round_between (x : Q) (a b : Z) (ndigits : nat) :
  (inject_Z a <= x)%Q -> (x <= inject_Z b)%Q ->
  (inject_Z a <= round x ndigits)%Q /\ (round x ndigits <= inject_Z b)%Q.
Proof.
  intros Ha Hb. unfold round. rewrite Qred_correct.
  set (s := scale10 ndigits).
  destruct (round_half_even_between (Qred (x * inject_Z (Z.pos s)))
              (a * Z.pos s) (b * Z.pos s)) as [Hlo Hhi].
  - rewrite Qred_correct, inject_Z_mult. apply Qmult_le_compat_r; [exact Ha|].
    unfold Qle; simpl; lia.
  - rewrite Qred_correct, inject_Z_mult. apply Qmult_le_compat_r; [exact Hb|].
    unfold Qle; simpl; lia.
  - unfold Qle. cbn [Qnum Qden inject_Z]. lia.
Qed.

Lemma Qred_inject_Z (z : Z) : Qred (inject_Z z) = inject_Z z.
Proof.
  unfold Qred, inject_Z.
  pose proof (Z.ggcd_gcd z 1) as Hg.
  pose proof (Z.ggcd_correct_divisors z 1) as Hd.
  destruct (Z.ggcd z 1) as [g [aa bb]]. cbn [fst snd] in Hg, Hd.
  rewrite Z.gcd_1_r in Hg. subst g. destruct Hd as [Ha Hb].
  assert (Ea : aa = z) by lia. assert (Eb : bb = 1%Z) by lia.
  now rewrite Ea, Eb.
Qed.

Lemma round_half_even_inject_Z (z : Z) : round_half_even (inject_Z z) = z.
Proof.
  unfold round_half_even. cbn [Qnum Qden inject_Z].
  rewrite Z.div_1_r, Z.mod_1_r. reflexivity.
Qed.

Lemma round_of_scaled (x : Q) (z : Z) (ndigits : nat) :
  (x * inject_Z (Z.pos (scale10 ndigits)) == inject_Z z)%Q ->
  round x ndigits = Qred (z # scale10 ndigits).
Proof.
  intros H. unfold round.
  rewrite (Qred_complete _ _ H), Qred_inject_Z, round_half_even_inject_Z.
  reflexivity.
Qed.

Lemma round_round (x : Q) (ndigits : nat) :
  round (round x ndigits) ndigits = round x ndigits.
Proof.
  unfold round at 2.
  set (z := round_half_even (Qred (x * inject_Z (Z.pos (scale10 ndigits))))).
  apply round_of_scaled. rewrite Qred_correct.
  unfold Qeq. cbn [Qnum Qden inject_Z Qmult]. lia.
Qed.

Lemma ratio_between (c t : nat) :
  t <> 0 -> c <= t ->
  (inject_Z 0 <= of_nat c / of_nat t * 100)%Q
  /\ (of_nat c / of_nat t * 100 <= inject_Z 100)%Q.
Proof.
  intros Ht Hc. unfold of_nat.
  assert (H0 : (0 < inject_Z (Z.of_nat t))%Q)
    by (change 0%Q with (inject_Z 0); rewrite <- Zlt_Qlt; lia).
  assert (Hlo : (0 <= inject_Z (Z.of_nat c) / inject_Z (Z.of_nat t))%Q).
  { apply Qle_shift_div_l; [exact H0|]. rewrite Qmult_0_l.
    change 0%Q with (inject_Z 0). rewrite <- Zle_Qle. lia. }
  assert (Hhi : (inject_Z (Z.of_nat c) / inject_Z (Z.of_nat t) <= 1)%Q).
  { apply Qle_shift_div_r; [exact H0|]. rewrite Qmult_1_l, <- Zle_Qle. lia. }
  split.
  - apply Qmult_le_0_compat; [exact Hlo | unfold Qle; simpl; lia].
  - setoid_replace (inject_Z 100) with (1 * 100)%Q by reflexivity.
    apply Qmult_le_compat_r; [exact Hhi | unfold Qle; simpl; lia].
Qed.

Lemma full_ratio (t : nat) :
  t <> 0 -> round (of_nat t / of_nat t * 100)%Q 1 = 100%Q.
Proof.
  intros Ht. rewrite (round_of_scaled _ 1000); [reflexivity|].
  assert (E : (of_nat t / of_nat t == 1)%Q).
  { apply Qmult_inv_r. unfold of_nat, Qeq; simpl; lia. }
  rewrite E. reflexivity.
Qed.

(** ** Progress of a student *)

Import ProgressViews.

Lemma filter_shorter {A : Type} (f : A -> bool) (l : list A) :
  List.length (filter f l) <= List.length l.
Proof.
  induction l as [|x l IH]; simpl; [lia|]. destruct (f x); simpl; lia.
Qed.

(** The rows counted for a course are as many as the published lessons the
    student completed under it. *)
Lemma counted_rows_count (st : Store) (student course : nat) :
  progress_unique st ->
  List.length (counted_rows st student course)
  = List.length (filter (completed_in_course st student course)
                   (published_lessons st course)).
Proof.
  intros Hu.
  rewrite <- (length_map progress_lesson (counted_rows st student course)).
  apply NoDup_same_length.
  - now apply counted_rows_lessons_NoDup.
  - apply NoDup_filter, published_lessons_NoDup.
  - apply counted_rows_lessons_spec.
Qed.

(** X13: under the unique constraint of Progress the course progress lies
    between 0 and 100, in [calculate_course_progress] and in its copy
    [calculate_user_course_progress]. *)
Theorem calculate_course_progress_range (st : Store) (student course : nat) :
  progress_unique st ->
  calculate_user_course_progress st student course
  = calculate_course_progress st student course
  /\ (0 <= calculate_course_progress st student course)%Q
  /\ (calculate_course_progress st student course <= 100)%Q.
Proof.
  intros Hu. split; [reflexivity|].
  unfold calculate_course_progress. fold (counted_rows st student course).
  destruct (List.length (published_lessons st course) =? 0) eqn:E.
  - split; unfold Qle; simpl; lia.
  - apply Nat.eqb_neq in E.
    apply (round_between _ 0 100 1); apply ratio_between; try exact E;
      rewrite (counted_rows_count st student course Hu); apply filter_shorter.
Qed.

(** X13 (witness): student 7 in course 1 of [two_lesson_store]. *)
Lemma calculate_course_progress_range_witness :
  (0 <= calculate_course_progress two_lesson_store 7 1)%Q
  /\ (calculate_course_progress two_lesson_store 7 1 <= 100)%Q.
Proof.
  refine (proj2 (calculate_course_progress_range two_lesson_store 7 1 _)).
  unfold progress_unique. simpl. repeat constructor; simpl; intuition discriminate.
Defined.

(** X14: when the course has a published lesson and the student completed
    every published lesson of the course under that course, the course
    progress is exactly 100. *)
Theorem calculate_course_progress_complete (st : Store) (student course : nat) :
  progress_unique st ->
  published_lessons st course <> [] ->
  (forall l, In l (published_lessons st course) ->
             completed_in_course st student course l = true) ->
  calculate_course_progress st student course = 100%Q.
Proof.
  intros Hu Hne Hall.
  unfold calculate_course_progress. fold (counted_rows st student course).
  rewrite (counted_rows_count st student course Hu), (filter_all _ _ Hall).
  destruct (published_lessons st course) as [|l ls]; [congruence|].
  cbn [List.length Nat.eqb]. now apply full_ratio.
Qed.

(** X14 (witness): student 7 completed the only published lesson of
    course 2 of [shared_lesson_store] under that course. *)
Lemma calculate_course_progress_complete_witness :
  calculate_course_progress shared_lesson_store 7 2 = 100%Q.
Proof.
  apply calculate_course_progress_complete.
  - unfold progress_unique. simpl. repeat constructor; simpl; intuition discriminate.
  - discriminate.
  - intros l Hl. vm_compute in Hl. destruct Hl as [<-|[]]. reflexivity.
Defined.

(** The rows counted for a subject. *)
Lemma subject_rows_count (st : Store) (student : nat) (published : list nat) :
  progress_unique st -> NoDup published ->
  List.length
    (filter
       (fun p =>
          (progress_student p =? student) && mem (progress_lesson p) published
          && is_completed p)
       (progresses st))
  = List.length (filter (completed_for_student st student) published).
Proof.
  intros Hu Hp.
  set (keep := fun p =>
          (progress_student p =? student) && mem (progress_lesson p) published
          && is_completed p).
  rewrite <- (length_map progress_lesson (filter keep (progresses st))).
  apply NoDup_same_length.
  - apply (unique_key_filter _ _ keep) in Hu.
    apply (NoDup_map_inv (pair student)). rewrite map_map.
    erewrite map_ext_in; [exact Hu|].
    intros p Hin. apply filter_In in Hin. destruct Hin as [_ Hk]. unfold keep in Hk.
    apply andb_prop in Hk. destruct Hk as [Hk _].
    apply andb_prop in Hk. destruct Hk as [Hs _].
    apply Nat.eqb_eq in Hs. now rewrite Hs.
  - now apply NoDup_filter.
  - intros l. rewrite in_map_iff, filter_In. unfold completed_for_student.
    rewrite existsb_exists. split.
    + intros [p [<- Hin]]. apply filter_In in Hin. destruct Hin as [Hin Hk].
      unfold keep in Hk.
      apply andb_prop in Hk. destruct Hk as [Hk Hc].
      apply andb_prop in Hk. destruct Hk as [Hs Hm].
      split; [now apply mem_In|]. exists p. split; [exact Hin|].
      now rewrite Hs, Nat.eqb_refl, Hc.
    + intros [Hl [p [Hin Hk]]].
      apply andb_prop in Hk. destruct Hk as [Hk Hc].
      apply andb_prop in Hk. destruct Hk as [Hs Hm].
      apply Nat.eqb_eq in Hm. exists p. split; [exact Hm|].
      apply filter_In. split; [exact Hin|]. unfold keep.
      apply mem_In in Hl. now rewrite Hs, Hm, Hl, Hc.
Qed.



Lemma save_has_row {A : Type} (pk : A -> nat) (row old : A) (rows : list A) :
  In old rows -> pk old = pk row -> In row (save pk row rows).
Proof.
  intros Hin E. unfold save. apply in_map_iff. exists old.
  split; [|exact Hin]. now rewrite E, Nat.eqb_refl.
Qed.

Lemma existsb_none {A : Type} (f : A -> bool) (l : list A) :
  (forall x, In x l -> f x = false) -> existsb f l = false.
Proof.
  induction l as [|x l IH]; simpl; intros H; [reflexivity|].
  rewrite (H x (or_introl eq_refl)). apply IH. intros y Hy. apply H. now right.
Qed.

(** What [get_or_create] hands back is a row of the store it leaves, under
    the key it was asked for. *)
Lemma get_or_create_row (st st1 : Store) (now : Z) (student course lesson : nat)
    (d_completed : bool) (d_percentage : nat) (d_completed_at : option Z)
    (p : Progress) (created : bool) :
  get_or_create st now student course lesson d_completed d_percentage d_completed_at
  = Ok (p, created, st1) ->
  In p (progresses st1)
  /\ progress_student p = student /\ progress_course p = course
  /\ progress_lesson p = lesson.
Proof.
  unfold get_or_create.
  destruct (filter _ (progresses st)) as [|r [|r' rest]] eqn:Hf; [| |discriminate].
  - destruct (violates_unique st student lesson); [discriminate|].
    intros [= <- <- <-]. cbn. split; [|auto].
    apply in_or_app. right. now left.
  - intros [= <- <- <-].
    assert (Hin : In r (filter
               (fun p => (progress_student p =? student)
                         && (progress_course p =? course)
                         && (progress_lesson p =? lesson)) (progresses st)))
      by (rewrite Hf; now left).
    apply filter_In in Hin. destruct Hin as [Hin Hk].
    apply andb_prop in Hk. destruct Hk as [Hk Hl].
    apply andb_prop in Hk. destruct Hk as [Hs Hc].
    apply Nat.eqb_eq in Hs, Hc, Hl. auto.
Qed.

(** X16: once [mark_lesson_as_completed] has returned, the template filter
    [get_lesson_completed] answers true for the lesson and the student, and
    the row handed back is in the store at 100 percent. *)
Theorem mark_lesson_as_completed_shows_completed
    (st st' : Store) (now : Z) (student course lesson : nat) (p : Progress) :
  mark_lesson_as_completed st now student course lesson = Ok (p, st') ->
  get_lesson_completed st' lesson student = true
  /\ In p (progresses st')
  /\ is_completed p = true /\ progress_percentage p = 100.
Proof.
  unfold mark_lesson_as_completed.
  destruct (get_or_create st now student course lesson true 100 (Some now))
    as [[[p0 created] st1]|e] eqn:Hg; [|discriminate].
  cbn [bind]. intros [= <- <-].
  destruct (get_or_create_row _ _ _ _ _ _ _ _ _ _ _ Hg) as [Hin [Hs [Hc Hl]]].
  set (row := mkProgress (progress_id p0) (progress_student p0) (progress_course p0)
                (progress_lesson p0) true 100 (Some now) now).
  assert (Hrow : In row (save progress_id row (progresses st1)))
    by (apply (save_has_row progress_id row p0); [exact Hin | reflexivity]).
  split; [|split; [exact Hrow | split; reflexivity]].
  unfold get_lesson_completed. apply existsb_exists. exists row.
  split; [exact Hrow|]. cbn. now rewrite Hs, Hl, !Nat.eqb_refl.
Qed.

(** X16 (witness): student 7 marks lesson 2 of [two_lesson_store]. *)
Lemma mark_lesson_as_completed_shows_completed_witness :
  get_lesson_completed two_lesson_store 2 7 = false
  /\ get_lesson_completed (after_mark two_lesson_store 50 7 1 2) 2 7 = true.
Proof.
  split; [reflexivity|].
  refine (proj1 (mark_lesson_as_completed_shows_completed two_lesson_store _ 50 7 1 2
                   (mkProgress 3 7 1 2 true 100 (Some 50%Z) 50%Z) eq_refl)).
Defined.

(** X17: [lesson_progress_update] leaves the lesson completed for the
    student exactly when the request said so, answers with the course
    progress of the store it leaves, and never writes the percentage of a
    row: an existing row keeps its own, a new row is at 0. *)
Theorem lesson_progress_update_sets_flag
    (st st' : Store) (now : Z) (course lesson : nat) (is_completed : bool)
    (school_user : SchoolUser) (school : School) (reply : ProgressReply) :
  progress_unique st ->
  progress_pk_unique st ->
  lesson_progress_update st now course lesson is_completed school_user school
  = Ok (reply, st') ->
  get_lesson_completed st' lesson (su_id school_user) = is_completed
  /\ reply_is_completed reply = is_completed
  /\ reply_course_progress reply
     = calculate_course_progress st' (su_id school_user) course
  /\ (map progress_percentage (progresses st')
      = map progress_percentage (progresses st)
      \/ map progress_percentage (progresses st')
         = (map progress_percentage (progresses st) ++ [0])%list).
Proof.
  intros Hu Hpk. unfold lesson_progress_update, Assessments.get_course.
  destruct (find _ (courses st)) as [c|] eqn:Hc; [|discriminate]. cbn [bind].
  apply find_some in Hc. destruct Hc as [_ Hc].
  apply andb_prop in Hc. destruct Hc as [Hc _]. apply Nat.eqb_eq in Hc.
  destruct (find _ (lessons st)) as [le|] eqn:Hl; [|discriminate].
  apply find_some in Hl. destruct Hl as [_ Hl]. apply Nat.eqb_eq in Hl.
  rewrite Hc, Hl.
  destruct (get_or_create st now (su_id school_user) course lesson is_completed 0 None)
    as [[[p created] st1]|e] eqn:Hg; [|discriminate].
  cbn [bind]. intros [= <- <-]. cbn [reply_is_completed reply_course_progress].
  assert (Hround : forall s,
             round (calculate_course_progress s (su_id school_user) course) 1
             = calculate_course_progress s (su_id school_user) course).
  { intros s. unfold calculate_course_progress.
    destruct (List.length (published_lessons s course) =? 0);
      [reflexivity | apply round_round]. }
  split; [|split; [reflexivity | split; [apply Hround|]]].
  - destruct (get_or_create_row _ _ _ _ _ _ _ _ _ _ _ Hg) as [Hin [Hs [_ Hle]]].
    unfold get_or_create in Hg.
    destruct (filter _ (progresses st)) as [|r [|r' rest]] eqn:Hf; [| |discriminate].
    + destruct (violates_unique st (su_id school_user) lesson) eqn:Hv; [discriminate|].
      injection Hg as <- <- <-. unfold get_lesson_completed.
      cbn [progresses set_progresses]. rewrite existsb_app.
      rewrite existsb_none.
      * cbn. rewrite !Nat.eqb_refl. cbn. now rewrite orb_false_r.
      * intros x Hx. unfold violates_unique in Hv.
        destruct ((progress_student x =? su_id school_user)
                  && (progress_lesson x =? lesson)) eqn:Hk; [|reflexivity].
        assert (Hex : existsb
                        (fun p => (progress_student p =? su_id school_user)
                                  && (progress_lesson p =? lesson)) (progresses st) = true)
          by (apply existsb_exists; exists x; split; [exact Hx | exact Hk]).
        congruence.
    + injection Hg as E1 E2 E3. subst r created st1.
      set (row := mkProgress (progress_id p) (progress_student p) (progress_course p)
                    (progress_lesson p) is_completed (progress_percentage p)
                    (completed_at p) now).
      unfold get_lesson_completed. cbn [progresses set_progresses].
      destruct is_completed.
      * apply existsb_exists. exists row. split.
        -- apply (save_has_row progress_id row p); [exact Hin | reflexivity].
        -- cbn. now rewrite Hs, Hle, !Nat.eqb_refl.
      * apply existsb_none. intros x Hx.
        apply save_In in Hx. destruct Hx as [->|[Hx Hother]].
        -- cbn. apply andb_false_r.
        -- destruct ((progress_student x =? su_id school_user)
                     && (progress_lesson x =? lesson)) eqn:Hk; [|reflexivity].
           apply andb_prop in Hk. destruct Hk as [Hxs Hxl].
           apply Nat.eqb_eq in Hxs, Hxl. exfalso. apply Hother.
           rewrite (unique_key_eq (fun p => (progress_student p, progress_lesson p))
                      (progresses st) x p Hu Hx Hin); [reflexivity|].
           cbn. congruence.
  - unfold get_or_create in Hg.
    destruct (filter _ (progresses st)) as [|r [|r' rest]] eqn:Hf; [| |discriminate].
    + destruct (violates_unique st (su_id school_user) lesson); [discriminate|].
      injection Hg as <- <- <-. right.
      cbn [progresses set_progresses]. now rewrite map_app.
    + injection Hg as E1 E2 E3. subst r created st1. left.
      cbn [progresses set_progresses].
      unfold save. rewrite map_map. apply map_ext_in. intros x Hx.
      cbn [progress_id].
      destruct (progress_id x =? progress_id p) eqn:E; [|reflexivity].
      cbn. apply Nat.eqb_eq in E.
      assert (Hin : In p (progresses st)).
      { assert (H : In p (filter
                   (fun p0 => (progress_student p0 =? su_id school_user)
                              && (progress_course p0 =? course)
                              && (progress_lesson p0 =? lesson)) (progresses st)))
          by (rewrite Hf; now left).
        now apply filter_In in H. }
      now rewrite (unique_key_eq progress_id (progresses st) x p Hpk Hx Hin E).
Qed.

(** X17 (witness): student 7 reports lesson 2 of [two_lesson_store] as
    completed; both published lessons of course 1 are then completed. *)
Lemma lesson_progress_update_sets_flag_witness :
  exists reply st',
    lesson_progress_update two_lesson_store 50 1 2 true student7 school1
    = Ok (reply, st')
    /\ get_lesson_completed st' 2 7 = true
    /\ reply_course_progress reply = 100%Q
    /\ map progress_percentage (progresses st') = [100; 100; 0].
Proof.
  eexists. eexists. split; [reflexivity|].
  destruct (lesson_progress_update_sets_flag two_lesson_store _ 50 1 2 true
              student7 school1 _
              ltac:(unfold progress_unique; simpl; repeat constructor; simpl;
                    intuition discriminate)
              ltac:(unfold progress_pk_unique; simpl; repeat constructor; simpl;
                    intuition discriminate)
              eq_refl) as [H1 _].
  split; [exact H1|]. split; reflexivity.
Defined.

(** ** Enrolling in a course *)

Import Catalog.

Section Enrolling.

Variable course_status : Course -> string.
Variable course_title : Course -> string.
Variable max_students : Course -> option nat.

Variable st : Store.
Variable id : nat.
Variable request : Request.
Variable school_user : SchoolUser.
Variable school : School.
Variable course : Course.
Variable out : EnrollOutcome.

Hypothesis Hcourse : Assessments.get_course st id school = Ok course.
Hypothesis Hout :
  enroll_in_course course_status course_title max_students st id request
    school_user school = Ok out.

Lemma found_course_id : course_id course = id.
Proof.
  unfold Assessments.get_course in Hcourse.
  destruct (find _ (courses st)) as [c|] eqn:Hf; [|discriminate].
  injection Hcourse as <-. apply find_some in Hf. destruct Hf as [_ Hf].
  apply andb_prop in Hf. destruct Hf as [Hf _]. now apply Nat.eqb_eq.
Qed.

(** X18: [enroll_in_course] never takes a course beyond a positive
    [max_students], leaves the enrollments of the other courses alone,
    enrolls the user, whatever the role, when the course is active and has
    room, changes nothing when it is not active or is full, and changes
    nothing when it is asked a second time. *)
Theorem enroll_in_course_capacity :
  (forall limit,
      max_students course = Some limit -> 0 < limit ->
      List.length (enrollments_of st id) <= limit ->
      List.length (enrollments_of (enroll_store out) id) <= limit)
  /\ (forall c, c <> id ->
                enrollments_of (enroll_store out) c = enrollments_of st c)
  /\ (course_status course = "active" -> is_full max_students st course = false ->
      Assessments.is_enrolled (enroll_store out) id (su_id school_user) = true)
  /\ (course_status course <> "active" \/ is_full max_students st course = true ->
      enroll_store out = st)
  /\ exists again,
       enroll_in_course course_status course_title max_students (enroll_store out) id
         request school_user school = Ok again
       /\ enroll_store again = enroll_store out.
Proof.
  pose proof found_course_id as Hid.
  pose proof Hout as Hrun. unfold enroll_in_course in Hrun.
  rewrite Hcourse in Hrun. cbn [bind] in Hrun. rewrite Hid in Hrun.
  destruct (String.eqb_spec (course_status course) "active") as [Hact|Hact];
    cbn [negb] in Hrun.
  2:{ injection Hrun as <-. cbn [enroll_store].
      split; [auto|]. split; [auto|]. split; [congruence|]. split; [auto|].
      eexists. split; [exact Hout | reflexivity]. }
  destruct (is_full max_students st course) eqn:Hfull.
  { injection Hrun as <-. cbn [enroll_store].
    split; [auto|]. split; [auto|]. split; [congruence|]. split; [auto|].
    eexists. split; [exact Hout | reflexivity]. }
  unfold enrollment_get_or_create in Hrun.
  destruct (filter _ (enrollments st)) as [|e [|e' rest]] eqn:Hf;
    cbn [bind] in Hrun; [| |discriminate]; injection Hrun as <-; cbn [enroll_store].
  - (* a new enrollment *)
    assert (Hlen : List.length
                     (enrollments_of
                        (set_enrollments st
                           (enrollments st ++ [mkEnrollment id (su_id school_user)])) id)
                   = S (List.length (enrollments_of st id))).
    { unfold enrollments_of. cbn [enrollments set_enrollments].
      rewrite filter_app, length_app. cbn. rewrite Nat.eqb_refl. cbn. lia. }
    split; [|split; [|split; [|split]]].
    + intros limit Hmax Hpos _. rewrite Hlen.
      unfold is_full in Hfull. rewrite Hmax, Hid in Hfull.
      destruct limit as [|n]; [lia|]. apply Nat.leb_gt in Hfull. lia.
    + intros c Hc. unfold enrollments_of. cbn [enrollments set_enrollments].
      rewrite filter_app. cbn.
      destruct (Nat.eqb_spec id c); [congruence|]. apply app_nil_r.
    + intros _ _. unfold Assessments.is_enrolled. cbn [enrollments set_enrollments].
      rewrite existsb_app. cbn. rewrite !Nat.eqb_refl. cbn. apply orb_true_r.
    + intros [H|H]; congruence.
    + unfold enroll_in_course, Assessments.get_course.
      cbn [courses set_enrollments]. fold (Assessments.get_course st id school).
      rewrite Hcourse. cbn [bind]. rewrite Hid, Hact, String.eqb_refl. cbn [negb].
      match goal with
      | |- context [is_full max_students ?s course] =>
          destruct (is_full max_students s course)
      end; [eexists; split; reflexivity|].
      unfold enrollment_get_or_create. cbn [enrollments set_enrollments].
      rewrite filter_app, Hf. cbn. rewrite !Nat.eqb_refl. cbn.
      eexists; split; reflexivity.
  - (* already enrolled *)
    split; [auto|]. split; [auto|]. split; [|split; [intros [H|H]; congruence|]].
    + intros _ _. unfold Assessments.is_enrolled. apply existsb_exists. exists e.
      assert (Hin : In e (filter
                 (fun e0 => (enrollment_course e0 =? id)
                            && (enrollment_student e0 =? su_id school_user))
                 (enrollments st))) by (rewrite Hf; now left).
      now apply filter_In in Hin.
    + eexists. split; [exact Hout | reflexivity].
Qed.

End Enrolling.

(** X18 (witness): course 1 of [quiz_store] is active and takes two
    students; teacher 8 takes the second place, student 9 finds it full. *)
Lemma enroll_in_course_capacity_witness :
  exists out,
    enroll_in_course (fun _ => "active") (fun _ => "Curso") (fun _ => Some 2)
      quiz_store 1 (post_request 80 []) teacher8 school1 = Ok out
    /\ Assessments.is_enrolled (enroll_store out) 1 8 = true
    /\ List.length (enrollments_of (enroll_store out) 1) = 2
    /\ exists full,
         enroll_in_course (fun _ => "active") (fun _ => "Curso") (fun _ => Some 2)
           (enroll_store out) 1 (post_request 90 []) student9 school1 = Ok full
         /\ enroll_store full = enroll_store out.
Proof.
  eexists. split; [reflexivity|].
  destruct (enroll_in_course_capacity (fun _ => "active") (fun _ => "Curso")
              (fun _ => Some 2) quiz_store 1 (post_request 80 []) teacher8 school1
              (mkCourse 1 1 None) _ eq_refl eq_refl) as [_ [_ [Hin _]]].
  split; [exact (Hin eq_refl eq_refl)|].
  split; [reflexivity|]. eexists. split; reflexivity.
Defined.

(** ** Creating a category *)

Lemma NoDup_append_fresh {A : Type} (x : A) (l : list A) :
  NoDup l -> ~ In x l -> NoDup (l ++ [x]).
Proof.
  intros Hl Hx.
  apply (Permutation_NoDup (l := x :: l)); [apply Permutation_cons_append|].
  now constructor.
Qed.


